(** * Data-analyst agent: sandbox runner and three-stage orchestrator

    A shallow embedding of [code_executor.py] (the sandbox runner
    [run_code_in_sandbox]) and of [main.py] (the orchestrator
    [create_analysis]), with the properties of the specification stated
    and settled against it.

    Python values are modelled as follows.
    - [str] is a list of Unicode code points ([pystr]); literals of the
      source are written [py "..."].
    - [bytes] is a list of [Byte.byte].
    - The Docker daemon, the host file system and the generator are
      external to the repository: the daemon and the file system are a
      state ([world]) with the documented behaviour of the calls the
      source makes, the remaining collaborators are the fields of the
      class [Collaborators].
    - Python control flow ([try]/[except]/[finally], exceptions, a call
      that blocks for ever) is a state monad with three outcomes that
      also records the calls made, in order. *)

From Stdlib Require Import ZArith NArith List String Ascii Lia Bool.
From stdpp Require Import base option list gmap.

Import ListNotations.
Local Open Scope list_scope.
Local Open Scope N_scope.

(** ** Text *)

Module Text.

(** A Python [str]: the sequence of its code points. *)
Definition pystr : Type := list N.

(** A Python [bytes] object. *)
Definition bytes : Type := list Byte.byte.

(** A literal of the source (all of them are ASCII). *)
Fixpoint py (s : string) : pystr :=
  match s with
  | EmptyString => []
  | String c s' => N_of_ascii c :: py s'
  end.

Definition nl : pystr := [10].

(** [bool(s)] for a [str]. *)
Definition truthy (s : pystr) : bool :=
  match s with [] => false | _ :: _ => true end.

(** [s.startswith(p)]. *)
Fixpoint startswith (p s : pystr) : bool :=
  match p, s with
  | [], _ => true
  | _ :: _, [] => false
  | a :: p', b :: s' => (a =? b) && startswith p' s'
  end.

(** [str.replace(old, new)], one left-to-right pass over non-overlapping
    occurrences.  [skip] counts the characters of a matched occurrence
    that are still to be dropped. *)
Fixpoint replace_from (old new : pystr) (skip : nat) (s : pystr) : pystr :=
  match s with
  | [] => []
  | c :: s' =>
      match skip with
      | S k => replace_from old new k s'
      | O =>
          if startswith old s
          then new ++ replace_from old new (Nat.pred (length old)) s'
          else c :: replace_from old new 0 s'
      end
  end.

Definition replace (old new s : pystr) : pystr :=
  match old with
  | [] => new ++ flat_map (fun c => c :: new) s
  | _ :: _ => replace_from old new 0 s
  end.

(** [p in s]. *)
Fixpoint contains (p s : pystr) : bool :=
  startswith p s ||
  match s with
  | [] => false
  | _ :: s' => contains p s'
  end.

(** No occurrence of [p] in [s ++ t] starts within [s]. *)
Fixpoint none_within (p s t : pystr) : bool :=
  match s with
  | [] => true
  | _ :: s' => negb (startswith p (s ++ t)) && none_within p s' t
  end.

(** [str.isspace] on one code point: the characters Python treats as
    white space. *)
Definition isspace (c : N) : bool :=
  ((9 <=? c) && (c <=? 13)) || ((28 <=? c) && (c <=? 32))
  || (c =? 133) || (c =? 160) || (c =? 5760)
  || ((8192 <=? c) && (c <=? 8202))
  || (c =? 8232) || (c =? 8233) || (c =? 8239) || (c =? 8287)
  || (c =? 12288).

Definition all_space (s : pystr) : bool := forallb isspace s.

Fixpoint lstrip (s : pystr) : pystr :=
  match s with
  | [] => []
  | c :: s' => if isspace c then lstrip s' else s
  end.

Definition rstrip (s : pystr) : pystr := rev (lstrip (rev s)).

(** [s.strip()]. *)
Definition strip (s : pystr) : pystr := rstrip (lstrip s).

(** [bytes.decode('utf-8')] with the default strict error handling:
    [None] stands for [UnicodeDecodeError]. *)
Definition cont (b : N) : bool := (128 <=? b) && (b <=? 191).

Definition between (lo hi b : N) : bool := (lo <=? b) && (b <=? hi).

Definition low6 (b : N) : N := N.land b 63.

Fixpoint decode_utf8_N (bs : list N) : option pystr :=
  match bs with
  | [] => Some []
  | b0 :: r0 =>
      if b0 <? 128 then option_map (cons b0) (decode_utf8_N r0)
      else if between 194 223 b0 then
        match r0 with
        | b1 :: r1 =>
            if cont b1
            then option_map (cons (N.lor (N.shiftl (N.land b0 31) 6) (low6 b1)))
                            (decode_utf8_N r1)
            else None
        | _ => None
        end
      else if between 224 239 b0 then
        match r0 with
        | b1 :: b2 :: r2 =>
            if (if b0 =? 224 then between 160 191 b1
                else if b0 =? 237 then between 128 159 b1
                else cont b1) && cont b2
            then option_map
                   (cons (N.lor (N.shiftl (N.land b0 15) 12)
                                (N.lor (N.shiftl (low6 b1) 6) (low6 b2))))
                   (decode_utf8_N r2)
            else None
        | _ => None
        end
      else if between 240 244 b0 then
        match r0 with
        | b1 :: b2 :: b3 :: r3 =>
            if (if b0 =? 240 then between 144 191 b1
                else if b0 =? 244 then between 128 143 b1
                else cont b1) && cont b2 && cont b3
            then option_map
                   (cons (N.lor (N.shiftl (N.land b0 7) 18)
                                (N.lor (N.shiftl (low6 b1) 12)
                                       (N.lor (N.shiftl (low6 b2) 6) (low6 b3)))))
                   (decode_utf8_N r3)
            else None
        | _ => None
        end
      else None
  end.

Definition decode_utf8 (bs : bytes) : option pystr :=
  decode_utf8_N (map Byte.to_N bs).

(** The bytes of an ASCII literal. *)
Fixpoint ascii_bytes (s : string) : bytes :=
  match s with
  | EmptyString => []
  | String c s' => byte_of_ascii c :: ascii_bytes s'
  end.

End Text.

Export Text.

(** ** Values exchanged with the collaborators *)

(** The keyword arguments of [client.containers.run]: one bind mount of
    [volumes] is [{host: {'bind': bind, 'mode': mode}}]. *)
Record volume := Volume { host : pystr; bind : pystr; mode : pystr }.

Record run_request := RunRequest {
  image : pystr;
  command : list pystr;
  name : pystr;
  detach : bool;
  remove : bool;
  volumes : list volume
}.

(** A [Container] object of the client library: the name the container
    was found or created under, and the daemon's id for it. *)
Record handle := Handle { h_name : pystr; h_id : N }.

#[global] Instance handle_eq_dec : EqDecision handle.
Proof. solve_decision. Defined.

(** The exceptions the modelled calls raise; all are subclasses of
    [Exception], and [ImageNotFound] is a subclass of [NotFound].
    [ValueError] stands for a [ValueError] that is neither a
    [JSONDecodeError] nor a [UnicodeDecodeError], which are subclasses
    of it with constructors of their own. *)
Inductive exn :=
| DockerException (msg : pystr)
| ImageNotFound (img : pystr)
| NotFound (what : pystr)
| Conflict (nm : pystr)
| APIError (msg : pystr)
| UnicodeDecodeError (data : bytes)
| JSONDecodeError (msg : pystr)
| IndexError (msg : pystr)
| ValueError (msg : pystr)
| RecursionError (msg : pystr).

(** [isinstance(e, docker.errors.NotFound)]. *)
Definition is_NotFound (e : exn) : bool :=
  match e with
  | NotFound _ | ImageNotFound _ => true
  | _ => false
  end.

(** The dict [run_code_in_sandbox] returns. *)
Record ExecutionResult := Result {
  stdout : pystr;
  stderr : pystr;
  exit_code : Z
}.

(** What the sandboxed process does: it exits, having written [p_out] to
    its standard output and [p_err] to its standard error and leaving the
    host files [p_files], and the daemon reports [p_status] for it (or no
    status code); or it never exits. *)
Inductive process :=
| Exits (p_out p_err : bytes) (p_status : option Z) (p_files : gmap pystr bytes)
| Hangs.

(** A decoded JSON document. *)
#[local] Set Warnings "-register-all".
#[local] Unset Elimination Schemes.
Inductive json :=
| JNull
| JBool (b : bool)
| JNumber (lexeme : pystr)
| JString (s : pystr)
| JArray (items : list json)
| JObject (members : list (pystr * json)).

#[local] Set Elimination Schemes.

(** [fastapi.responses.JSONResponse]. *)
Record JSONResponse := Response { status_code : Z; content : json }.

(** The collaborators the repository calls but does not define. *)
Class Collaborators := {
  (** [model.generate_content(prompt).text] *)
  generate_content : pystr -> pystr;
  (** the process [docker run] starts for a request, on the host files *)
  sandbox_exec : run_request -> gmap pystr bytes -> process;
  (** [str(e)] *)
  exn_str : exn -> pystr;
  (** [json.loads(s)]: the value it returns, or the exception it
      raises: [JSONDecodeError] for a text that is no JSON document,
      and others, such as [RecursionError] for a document nested too
      deep *)
  json_loads : pystr -> json + exn;
  (** what [JSONResponse(content=v)] raises when it renders [v], if
      anything: [ValueError] for a value that holds NaN or an
      infinity *)
  json_render : json -> option exn;
  (** [os.sep] *)
  os_sep : pystr
}.

(** ** The calls a run makes

    Each call is recorded when it is made; [RunReturned h] records that
    [client.containers.run] returned the container [h], and [site] tells
    the two [container.remove] calls of the runner apart. *)

Inductive site := PreCleanup | Teardown.

Inductive level := INFO | ERROR.

Inductive log_record :=
| CreatingContainer
| ExecutionFinished (out err : pystr)
| UnexpectedError (e : exn)
| CleanupError (e : exn)
| StartingStage (n : nat)
| StageFailed (n : nat) (details : ExecutionResult)
| Completed
| ParseFailed (raw : pystr).

Inductive event :=
| CallSandbox (code : pystr)
| CallFromEnv
| CallImagesGet (img : pystr)
| CallContainersGet (nm : pystr)
| CallRemove (s : site) (h : handle) (force : bool)
| CallRun (req : run_request)
| RunReturned (h : handle)
| CallWait (h : handle)
| CallLogs (h : handle) (want_stdout want_stderr : bool)
| CallGenerate (prompt : pystr)
| CallOsRemove (path : pystr)
| Log (l : level) (r : log_record).

(** ** Control flow *)

Inductive outcome (A : Type) :=
| Returned (a : A)
| Raised (e : exn)
| Blocked.

Arguments Returned {A} a.
Arguments Raised {A} e.
Arguments Blocked {A}.

(** A computation over a state [S]: its outcome, the state it leaves and
    the calls it made. *)
Definition M (S A : Type) : Type := S -> outcome A * S * list event.

Section Monad.
Context {S : Type}.

Definition ret {A} (a : A) : M S A := fun s => (Returned a, s, []).

Definition raise {A} (e : exn) : M S A := fun s => (Raised e, s, []).

Definition block {A} : M S A := fun s => (Blocked, s, []).

Definition emit (ev : event) : M S unit := fun s => (Returned tt, s, [ev]).

Definition and_then {A B} (m : M S A) (k : A -> M S B) : M S B := fun s =>
  match m s with
  | (Returned a, s1, t1) =>
      match k a s1 with (o, s2, t2) => (o, s2, t1 ++ t2) end
  | (Raised e, s1, t1) => (Raised e, s1, t1)
  | (Blocked, s1, t1) => (Blocked, s1, t1)
  end.

(** [try: body / except C as e: handler e], where [catches] decides
    [isinstance(e, C)]. *)
Definition try_except {A} (catches : exn -> bool)
    (body : M S A) (handler : exn -> M S A) : M S A := fun s =>
  match body s with
  | (Raised e, s1, t1) =>
      if catches e
      then match handler e s1 with (o, s2, t2) => (o, s2, t1 ++ t2) end
      else (Raised e, s1, t1)
  | r => r
  end.

(** [try: body / finally: final]: [final] runs when [body] returns or
    raises; what [body] did stands unless [final] itself raises. *)
Definition try_finally {A} (body : M S A) (final : M S unit) : M S A := fun s =>
  match body s with
  | (Blocked, s1, t1) => (Blocked, s1, t1)
  | (o, s1, t1) =>
      match final s1 with
      | (Returned _, s2, t2) => (o, s2, t1 ++ t2)
      | (Raised e, s2, t2) => (Raised e, s2, t1 ++ t2)
      | (Blocked, s2, t2) => (Blocked, s2, t1 ++ t2)
      end
  end.
End Monad.

Definition Exception (e : exn) : bool := true.

Declare Scope prog_scope.
Delimit Scope prog_scope with prog.
Notation "'let*' x := m 'in' k" := (and_then m (fun x => k))
  (at level 10, x name, m at level 100, k at level 200) : prog_scope.
Notation "m >> k" := (and_then m (fun _ => k))
  (at level 90, right associativity) : prog_scope.
Local Open Scope prog_scope.

(** A local variable of type [L] around a computation on [W]. *)
Section Locals.
Context {L W : Type}.

Definition lift {A} (m : M W A) : M (L * W) A := fun s =>
  match m (snd s) with (o, w, t) => (o, (fst s, w), t) end.

Definition assign (v : L) : M (L * W) unit := fun s =>
  (Returned tt, (v, snd s), []).

Definition read : M (L * W) L := fun s => (Returned (fst s), s, []).

Definition with_local {A} (init : L) (m : M (L * W) A) : M W A := fun w =>
  match m (init, w) with (o, s, t) => (o, snd s, t) end.
End Locals.

(** ** The Docker daemon and the host file system *)

(** A container the daemon holds: created, and once started, running the
    process [sandbox_exec] gives for its request. *)
Record container := Container {
  c_id : N;
  c_request : run_request;
  c_process : option process
}.

(** [faults] is the daemon's availability: each request to the daemon
    consumes its head, and [Some msg] makes that request fail with the
    error [msg] without any effect; the empty list means no failure. *)
Record world := World {
  images : gset pystr;
  containers : gmap pystr container;
  next_id : N;
  files : gmap pystr bytes;
  faults : list (option pystr)
}.

Definition set_containers (f : gmap pystr container -> gmap pystr container)
    (w : world) : world :=
  World (images w) (f (containers w)) (next_id w) (files w) (faults w).

Definition set_next_id (n : N) (w : world) : world :=
  World (images w) (containers w) n (files w) (faults w).

Definition set_files (f : gmap pystr bytes) (w : world) : world :=
  World (images w) (containers w) (next_id w) f (faults w).

Definition set_faults (f : list (option pystr)) (w : world) : world :=
  World (images w) (containers w) (next_id w) (files w) f.

Definition get_world : M world world := fun w => (Returned w, w, []).

Definition update_world (f : world -> world) : M world unit := fun w =>
  (Returned tt, f w, []).

(** One request to the daemon: it fails when the head of [faults] says
    so, and consumes that head. *)
Definition next_fault (f : list (option pystr)) : option pystr :=
  match f with
  | Some msg :: _ => Some msg
  | _ => None
  end.

Definition request (mk : pystr -> exn) : M world unit := fun w =>
  match next_fault (faults w) with
  | Some msg => (Raised (mk msg), set_faults (tail (faults w)) w, [])
  | None => (Returned tt, set_faults (tail (faults w)) w, [])
  end.

(** The container a handle denotes, if the daemon still holds it. *)
Definition resolve (h : handle) (w : world) : option container :=
  match containers w !! h_name h with
  | Some c => if c_id c =? h_id h then Some c else None
  | None => None
  end.

Inductive DockerClient := Client.

Section Docker.
Context `{Collaborators}.

(** [docker.from_env()]: building the client asks the daemon for its
    API version. *)
Definition from_env : M world DockerClient :=
  emit CallFromEnv >>
  request DockerException >>
  ret Client.

(** [client.images.get(image)] *)
Definition images_get (_ : DockerClient) (img : pystr) : M world unit :=
  emit (CallImagesGet img) >>
  request APIError >>
  let* w := get_world in
  if decide (img ∈ images w) then ret tt else raise (ImageNotFound img).

(** [client.containers.get(name)] *)
Definition containers_get (_ : DockerClient) (nm : pystr) : M world handle :=
  emit (CallContainersGet nm) >>
  request APIError >>
  let* w := get_world in
  match containers w !! nm with
  | Some c => ret (Handle nm (c_id c))
  | None => raise (NotFound nm)
  end.

(** [container.remove(force=force)]: with [force] the container is
    removed whatever its state. *)
Definition container_remove (s : site) (h : handle) (force : bool)
    : M world unit :=
  emit (CallRemove s h force) >>
  request APIError >>
  let* w := get_world in
  match resolve h w with
  | Some _ => update_world (set_containers (delete (h_name h)))
  | None => raise (NotFound (h_name h))
  end.

(** [client.containers.run] with [detach=True]: the container is
    created under its name, which must be free, and then started; a
    container whose start fails stays created.  The process is run to
    its end when the container starts. *)
Definition containers_run (_ : DockerClient) (req : run_request)
    : M world handle :=
  emit (CallRun req) >>
  request APIError >>
  let* w := get_world in
  if decide (image req ∈ images w) then
    match containers w !! name req with
    | Some _ => raise (Conflict (name req))
    | None =>
        let id := next_id w in
        update_world (fun w =>
          set_next_id (N.succ id)
            (set_containers (insert (name req) (Container id req None)) w)) >>
        request APIError >>
        let* w := get_world in
        match sandbox_exec req (files w) with
        | Exits out err st fs =>
            update_world (fun w =>
              set_containers
                (insert (name req)
                   (Container id req (Some (Exits out err st fs))))
                (set_files fs w))
        | Hangs =>
            update_world
              (set_containers
                 (insert (name req) (Container id req (Some Hangs))))
        end >>
        emit (RunReturned (Handle (name req) id)) >>
        ret (Handle (name req) id)
    end
  else raise (ImageNotFound (image req)).

(** [container.wait()]: blocks until the process has exited; the dict
    it returns may carry ['StatusCode']. *)
Definition container_wait (h : handle) : M world (option Z) :=
  emit (CallWait h) >>
  request APIError >>
  let* w := get_world in
  match resolve h w with
  | Some (Container _ _ (Some (Exits _ _ st _))) => ret st
  | Some (Container _ _ (Some Hangs)) => block
  | Some (Container _ _ None) => block
  | None => raise (NotFound (h_name h))
  end.

(** [container.logs(stdout=want_stdout, stderr=want_stderr)] *)
Definition container_logs (h : handle) (want_stdout want_stderr : bool)
    : M world bytes :=
  emit (CallLogs h want_stdout want_stderr) >>
  request APIError >>
  let* w := get_world in
  match resolve h w with
  | Some (Container _ _ (Some (Exits out err _ _))) =>
      ret ((if want_stdout then out else []) ++ (if want_stderr then err else []))
  | Some _ => ret []
  | None => raise (NotFound (h_name h))
  end.

(** [b.decode('utf-8')] *)
Definition decode {S} (b : bytes) : M S pystr :=
  match decode_utf8 b with
  | Some s => ret s
  | None => raise (UnicodeDecodeError b)
  end.

(** [logger.info], [logger.error] *)
Definition logger_info {S} (r : log_record) : M S unit := emit (Log INFO r).
Definition logger_error {S} (r : log_record) : M S unit := emit (Log ERROR r).

(** ** [code_executor.py] *)

Definition container_name : pystr := py "data-analyst-agent-sandbox".
Definition python_image : pystr := py "data-analyst-image".
Definition workspace_path : pystr :=
  py "C:\Users\23f20\OneDrive\Documents\data analyst agent\workspace".

Definition sandbox_request (code : pystr) : run_request :=
  {| image := python_image;
     command := [py "python"; py "-c"; code];
     name := container_name;
     detach := true;
     remove := false;
     volumes := [Volume workspace_path (py "/app/workspace") (py "rw")] |}.

(** The [try] block, with the local variable [container]. *)
Definition sandbox_try (client : DockerClient) (code : pystr)
    : M (option handle * world) ExecutionResult :=
  lift (images_get client python_image) >>
  try_except is_NotFound
    (let* existing_container := lift (containers_get client container_name) in
     lift (container_remove PreCleanup existing_container true))
    (fun _ => ret tt) >>
  logger_info CreatingContainer >>
  let* c := lift (containers_run client (sandbox_request code)) in
  assign (Some c) >>
  let* result := lift (container_wait c) in
  let* out := lift (container_logs c true false) in
  let* stdout := decode out in
  let* err := lift (container_logs c false true) in
  let* stderr := decode err in
  logger_info (ExecutionFinished (strip stdout) (strip stderr)) >>
  ret (Result stdout stderr (default 0%Z result)).

(** The [except Exception as e] clause. *)
Definition sandbox_except (e : exn) : M (option handle * world) ExecutionResult :=
  logger_error (UnexpectedError e) >>
  ret (Result [] (exn_str e) (-1)%Z).

(** The [finally] clause. *)
Definition sandbox_finally : M (option handle * world) unit :=
  let* container := read in
  match container with
  | Some c =>
      try_except Exception
        (lift (container_remove Teardown c true))
        (fun e => logger_error (CleanupError e))
  | None => ret tt
  end.

Definition run_code_in_sandbox (code : pystr) : M world ExecutionResult :=
  emit (CallSandbox code) >>
  let* client := from_env in
  with_local None
    (try_finally
       (try_except Exception (sandbox_try client code) sandbox_except)
       sandbox_finally).
End Docker.

(** ** [main.py] *)

Section Orchestrator.
Context `{Collaborators}.

(** [os.path.join(a, b)] for a relative [b] and an [a] that does not
    end in a separator, as in both uses. *)
Definition os_path_join (a b : pystr) : pystr := a ++ os_sep ++ b.

(** Paths are the strings the server hands to [os.path]; every entry of
    [files] is a regular file. *)
Definition os_path_exists (path : pystr) : M world bool :=
  let* w := get_world in
  ret (bool_decide (is_Some (files w !! path))).

Definition os_remove (path : pystr) : M world unit :=
  emit (CallOsRemove path) >>
  update_world (fun w => set_files (delete path (files w)) w).

(** [if os.path.exists(path): os.remove(path)] *)
Definition remove_if_exists (path : pystr) : M world unit :=
  let* present := os_path_exists path in
  if present then os_remove path else ret tt.

Definition generate (prompt : pystr) : M world pystr :=
  emit (CallGenerate prompt) >>
  ret (generate_content prompt).

Definition create_code_generation_prompt (task_description context : pystr)
    : pystr :=
  nl ++ py "You are an expert Python data scientist. Your task is to write a Python script to perform a specific task."
  ++ nl ++ py "All file operations must use the '/app/workspace/' directory."
  ++ nl
  ++ nl ++ py "Context from previous steps:"
  ++ nl ++ context
  ++ nl
  ++ nl ++ py "Your current task:"
  ++ nl ++ py "'" ++ task_description ++ py "'"
  ++ nl
  ++ nl ++ py "Write only the Python code for this task. Do not use markdown."
  ++ nl ++ py "Your script's final output to stdout should be a single-line JSON string describing the result."
  ++ nl.

Definition url : pystr :=
  py "https://en.wikipedia.org/wiki/List_of_highest-grossing_films".
Definition workspace_dir : pystr := py "workspace".
Definition sampler_output_file : pystr :=
  os_path_join workspace_dir (py "scraped_table.html").
Definition final_csv_file : pystr :=
  os_path_join workspace_dir (py "films.csv").

Definition sampler_task : pystr :=
  py "Download the page at '" ++ url ++ py "' using requests with a 'User-Agent' header. "
  ++ py "Find the main data table (the one with 'Rank' and 'Title' in its headers). "
  ++ py "Save the full outer HTML of this table to '/app/workspace/scraped_table.html'.".

Definition scraper_task : pystr :=
  py "Read the HTML from '/app/workspace/scraped_table.html'. Parse it to a pandas DataFrame. "
  ++ py "CRITICAL: Before saving, you must aggressively clean the 'Worldwide gross' column. "
  ++ py "First, remove specific leading footnote characters that are sometimes attached to the numbers (e.g., 'T', 'F', 'SM', 'F8'). "
  ++ py "After removing those, then remove all other non-numeric characters like '$', ',', '#', '[', ']', and extra spaces. "
  ++ py "Finally, save the fully cleaned DataFrame (Rank, Peak, Title, Worldwide gross, Year) to a CSV file at '/app/workspace/films.csv'.".

Definition analysis_task (question_content : pystr) : pystr :=
  py "The film data is at '/app/workspace/films.csv'. Load it into a pandas DataFrame. "
  ++ py "The columns should already be clean, but as a safeguard, ensure 'Worldwide gross', 'Year', and 'Peak' are numeric types (`pd.to_numeric` with `errors='coerce'`). Drop any rows with NaN values. "
  ++ py "The column with the film names is 'Title'. "
  ++ py "Now, write a single script to produce the final answers for the user's request." ++ nl ++ nl
  ++ py "User Request:" ++ nl ++ py "---" ++ nl ++ question_content ++ nl ++ py "---" ++ nl
  ++ py "The script's final output to stdout MUST be a single line containing a valid JSON array with exactly 4 elements matching the user's questions. "
  ++ py "The 4th element must be a base64-encoded PNG image as a data URI string.".

(** [text.replace("```python", "").replace("```", "").strip()] *)
Definition strip_fences (text : pystr) : pystr :=
  strip (replace (py "```") [] (replace (py "```python") [] text)).

(** A response that is one fenced block: the opening marker on a line
    of its own, the body, the closing marker on a line of its own, with
    white space around the block. *)
Definition fence : pystr := py "```".
Definition python_fence : pystr := py "```python".

Definition fenced_block (before opening body after : pystr) : pystr :=
  before ++ opening ++ nl ++ body ++ nl ++ fence ++ after.

(** [JSONResponse(status_code=500, content={"error": msg})]; the body
    is one of the fixed ASCII messages below, which always renders. *)
Definition error_response (msg : pystr) : JSONResponse :=
  Response 500 (JObject [(py "error", JString msg)]).

Definition stage1_error : pystr :=
  py "Stage 1 (sampler) failed to create the output file.".
Definition stage2_error : pystr :=
  py "Stage 2 (scraper) failed to create the final CSV file.".
Definition stage3_error : pystr := py "Stage 3 (analysis) failed.".
Definition parse_error : pystr :=
  py "Failed to parse the final JSON array from the analysis script.".

(** [result.get("stderr") or not os.path.exists(path)] *)
Definition stderr_or_missing (result : ExecutionResult) (path : pystr)
    : M world bool :=
  if truthy (stderr result) then ret true
  else let* present := os_path_exists path in ret (negb present).

(** [json.loads(s)] *)
Definition call_json_loads (s : pystr) : M world json :=
  match json_loads s with
  | inl v => ret v
  | inr e => raise e
  end.

(** [JSONResponse(content=v)]: the body is rendered when the response
    is built, and the status is 200. *)
Definition JSONResponse_200 (v : json) : M world JSONResponse :=
  match json_render v with
  | Some e => raise e
  | None => ret (Response 200 v)
  end.

(** [isinstance(e, (json.JSONDecodeError, IndexError))] *)
Definition is_JSONDecodeError_or_IndexError (e : exn) : bool :=
  match e with
  | JSONDecodeError _ | IndexError _ => true
  | _ => false
  end.

Definition create_analysis (question : bytes) : M world JSONResponse :=
  let* question_content := decode question in
  (* Clean workspace *)
  remove_if_exists sampler_output_file >>
  remove_if_exists final_csv_file >>
  (* Stage 1: HTML sampling and saving *)
  logger_info (StartingStage 1) >>
  let sampler_prompt := create_code_generation_prompt sampler_task [] in
  let* sampler_response := generate sampler_prompt in
  let sampler_code := strip_fences sampler_response in
  let* sampler_result := run_code_in_sandbox sampler_code in
  let* failed := stderr_or_missing sampler_result sampler_output_file in
  if failed then ret (error_response stage1_error) else
  (* Stage 2: parsing and cleaning data to CSV *)
  logger_info (StartingStage 2) >>
  let scraper_prompt := create_code_generation_prompt scraper_task [] in
  let* scraper_response := generate scraper_prompt in
  let scraper_code := strip_fences scraper_response in
  let* scraper_result := run_code_in_sandbox scraper_code in
  let* failed := stderr_or_missing scraper_result final_csv_file in
  if failed then
    logger_error (StageFailed 2 scraper_result) >>
    ret (error_response stage2_error)
  else
  (* Stage 3: final analysis *)
  logger_info (StartingStage 3) >>
  let analysis_prompt :=
    create_code_generation_prompt (analysis_task question_content) [] in
  let* analysis_response := generate analysis_prompt in
  let analysis_code := strip_fences analysis_response in
  let* analysis_result := run_code_in_sandbox analysis_code in
  if truthy (stderr analysis_result) then
    logger_error (StageFailed 3 analysis_result) >>
    ret (error_response stage3_error)
  else
  (* Return the final answer *)
  try_except is_JSONDecodeError_or_IndexError
    (let* final_answer := call_json_loads (stdout analysis_result) in
     logger_info Completed >>
     JSONResponse_200 final_answer)
    (fun _ =>
       logger_error (ParseFailed (stdout analysis_result)) >>
       ret (error_response parse_error)).
End Orchestrator.

(** ** Reading a run *)

(** What one call of a computation on the world gives. *)
Definition run (A : Type) : Type := (outcome A * world * list event)%type.

Definition outcome_of {S A} (r : outcome A * S * list event) : outcome A :=
  fst (fst r).
Definition state_of {S A} (r : outcome A * S * list event) : S :=
  snd (fst r).
Definition calls_of {S A} (r : outcome A * S * list event) : list event :=
  snd r.

(** The teardown calls of a run, in order. *)
Definition is_teardown (e : event) : bool :=
  match e with CallRemove Teardown _ _ => true | _ => false end.

Definition teardown_calls (t : list event) : list event :=
  List.filter is_teardown t.

(** The daemon has created no container between the states [w] and
    [w']: it hands out its ids in order, one for each container it
    creates. *)
Definition none_created (w w' : world) : Prop := next_id w' = next_id w.

(** The container [client.containers.run] returned, if it returned. *)
Fixpoint run_returned (t : list event) : option handle :=
  match t with
  | [] => None
  | RunReturned h :: _ => Some h
  | _ :: t' => run_returned t'
  end.

(** The code strings handed to the runner, the prompts handed to the
    generator and the requests handed to [client.containers.run]. *)
Fixpoint submitted (t : list event) : list pystr :=
  match t with
  | [] => []
  | CallSandbox c :: t' => c :: submitted t'
  | _ :: t' => submitted t'
  end.

Fixpoint prompted (t : list event) : list pystr :=
  match t with
  | [] => []
  | CallGenerate p :: t' => p :: prompted t'
  | _ :: t' => prompted t'
  end.

Fixpoint run_requests (t : list event) : list run_request :=
  match t with
  | [] => []
  | CallRun r :: t' => r :: run_requests t'
  | _ :: t' => run_requests t'
  end.

(** The exceptions the [except Exception] clause of the runner logged. *)
Fixpoint caught (t : list event) : list exn :=
  match t with
  | [] => []
  | Log ERROR (UnexpectedError e) :: t' => e :: caught t'
  | _ :: t' => caught t'
  end.

(** No event satisfying [q] comes before the first one satisfying [p]. *)
Fixpoint not_before (p q : event -> bool) (t : list event) : bool :=
  match t with
  | [] => true
  | e :: t' => p e || (negb (q e) && not_before p q t')
  end.

Definition is_lookup (e : event) : bool :=
  match e with CallContainersGet _ => true | _ => false end.

Definition is_run (e : event) : bool :=
  match e with CallRun _ => true | _ => false end.

Definition is_forced_removal_of (h : handle) (e : event) : bool :=
  match e with
  | CallRemove PreCleanup h' true => bool_decide (h' = h)
  | _ => false
  end.

Definition is_pre_cleanup (e : event) : bool :=
  match e with CallRemove PreCleanup _ _ => true | _ => false end.

Definition is_Conflict (e : exn) : bool :=
  match e with Conflict _ => true | _ => false end.

Definition is_NotFound_exactly (e : exn) : bool :=
  match e with NotFound _ => true | _ => false end.

Definition is_os_remove (e : event) : bool :=
  match e with CallOsRemove _ => true | _ => false end.

Definition is_sandbox (e : event) : bool :=
  match e with CallSandbox _ => true | _ => false end.

Section Readings.
Context `{Collaborators}.

(** The runner without its [finally] clause. *)
Definition run_without_finally (code : pystr) : M world ExecutionResult :=
  emit (CallSandbox code) >>
  let* client := from_env in
  with_local None
    (try_except Exception (sandbox_try client code) sandbox_except).

(** What the runner returns and the files it leaves when the daemon
    serves every request. *)
Definition served_outcome (code : pystr) (imgs : gset pystr)
    (fs : gmap pystr bytes) : outcome ExecutionResult :=
  if decide (python_image ∈ imgs) then
    match sandbox_exec (sandbox_request code) fs with
    | Exits out err st _ =>
        match decode_utf8 out with
        | Some so =>
            match decode_utf8 err with
            | Some se => Returned (Result so se (default 0%Z st))
            | None =>
                Returned (Result [] (exn_str (UnicodeDecodeError err)) (-1)%Z)
            end
        | None =>
            Returned (Result [] (exn_str (UnicodeDecodeError out)) (-1)%Z)
        end
    | Hangs => Blocked
    end
  else Returned (Result [] (exn_str (ImageNotFound python_image)) (-1)%Z).

Definition served_files (code : pystr) (imgs : gset pystr)
    (fs : gmap pystr bytes) : gmap pystr bytes :=
  if decide (python_image ∈ imgs) then
    match sandbox_exec (sandbox_request code) fs with
    | Exits _ _ _ fs' => fs'
    | Hangs => fs
    end
  else fs.

(** The three stages of one request, each started in the state the
    previous one left. *)
Definition clean_workspace (w : world) : world :=
  set_files (delete final_csv_file (delete sampler_output_file (files w))) w.

Definition cleaning_calls (w : world) : list event :=
  (if bool_decide (is_Some (files w !! sampler_output_file))
   then [CallOsRemove sampler_output_file] else [])
  ++ (if bool_decide
           (is_Some (delete sampler_output_file (files w) !! final_csv_file))
      then [CallOsRemove final_csv_file] else []).

Definition sampler_prompt : pystr :=
  create_code_generation_prompt sampler_task [].
Definition scraper_prompt : pystr :=
  create_code_generation_prompt scraper_task [].
Definition analysis_prompt (question_content : pystr) : pystr :=
  create_code_generation_prompt (analysis_task question_content) [].

Definition sampler_code : pystr :=
  strip_fences (generate_content sampler_prompt).
Definition scraper_code : pystr :=
  strip_fences (generate_content scraper_prompt).
Definition analysis_code (question_content : pystr) : pystr :=
  strip_fences (generate_content (analysis_prompt question_content)).

Definition stage1 (w : world) :=
  run_code_in_sandbox sampler_code (clean_workspace w).
Definition stage2 (w : world) :=
  run_code_in_sandbox scraper_code (state_of (stage1 w)).
Definition stage3 (question_content : pystr) (w : world) :=
  run_code_in_sandbox (analysis_code question_content) (state_of (stage2 w)).

(** The orchestrator's test after a stage: [expected] is the output
    file the stage is to leave, if it has one. *)
Definition stage_failed (result : ExecutionResult) (expected : option pystr)
    (w : world) : Prop :=
  stderr result <> [] \/
  match expected with
  | Some path => files w !! path = None
  | None => False
  end.

Definition stage_failedb (result : ExecutionResult) (expected : option pystr)
    (w : world) : bool :=
  truthy (stderr result) ||
  match expected with
  | Some path => negb (bool_decide (is_Some (files w !! path)))
  | None => false
  end.

(** The answer to a request whose stages have passed: what the [try]
    statement around [json.loads] and [JSONResponse] gives for the
    standard output [raw] of the last stage, and what it logs. *)
Definition answered (raw : pystr) : outcome JSONResponse * list event :=
  match json_loads raw with
  | inl v =>
      match json_render v with
      | None => (Returned (Response 200 v), [Log INFO Completed])
      | Some e =>
          if is_JSONDecodeError_or_IndexError e
          then (Returned (error_response parse_error),
                [Log INFO Completed; Log ERROR (ParseFailed raw)])
          else (Raised e, [Log INFO Completed])
      end
  | inr e =>
      if is_JSONDecodeError_or_IndexError e
      then (Returned (error_response parse_error),
            [Log ERROR (ParseFailed raw)])
      else (Raised e, [])
  end.

(** One request, stage by stage. *)
Definition after_stage3 (q : pystr) (w : world)
    : outcome JSONResponse * world * list event :=
  let s3 := stage3 q w in
  let pre := [Log INFO (StartingStage 3); CallGenerate (analysis_prompt q)]
             ++ calls_of s3 in
  match outcome_of s3 with
  | Returned r3 =>
      if stage_failedb r3 None (state_of s3)
      then (Returned (error_response stage3_error), state_of s3,
            pre ++ [Log ERROR (StageFailed 3 r3)])
      else
        match answered (stdout r3) with
        | (o, t) => (o, state_of s3, pre ++ t)
        end
  | Raised e => (Raised e, state_of s3, pre)
  | Blocked => (Blocked, state_of s3, pre)
  end.

Definition after_stage2 (q : pystr) (w : world)
    : outcome JSONResponse * world * list event :=
  let s2 := stage2 w in
  let pre := [Log INFO (StartingStage 2); CallGenerate scraper_prompt]
             ++ calls_of s2 in
  match outcome_of s2 with
  | Returned r2 =>
      if stage_failedb r2 (Some final_csv_file) (state_of s2)
      then (Returned (error_response stage2_error), state_of s2,
            pre ++ [Log ERROR (StageFailed 2 r2)])
      else match after_stage3 q w with (o, w', t) => (o, w', pre ++ t) end
  | Raised e => (Raised e, state_of s2, pre)
  | Blocked => (Blocked, state_of s2, pre)
  end.

Definition staged (q : pystr) (w : world)
    : outcome JSONResponse * world * list event :=
  let s1 := stage1 w in
  let pre := cleaning_calls w
             ++ [Log INFO (StartingStage 1); CallGenerate sampler_prompt]
             ++ calls_of s1 in
  match outcome_of s1 with
  | Returned r1 =>
      if stage_failedb r1 (Some sampler_output_file) (state_of s1)
      then (Returned (error_response stage1_error), state_of s1, pre)
      else match after_stage2 q w with (o, w', t) => (o, w', pre ++ t) end
  | Raised e => (Raised e, state_of s1, pre)
  | Blocked => (Blocked, state_of s1, pre)
  end.



End Readings.

(** The contract of the specification, [execute(code, workspace_path)]:
    the request it asks for binds the caller's [workspace_path]. *)
Definition spec_request (code workspace_path : pystr) : run_request :=
  {| image := python_image;
     command := [py "python"; py "-c"; code];
     name := container_name;
     detach := true;
     remove := false;
     volumes := [Volume workspace_path (py "/app/workspace") (py "rw")] |}.

(** ** Weakest preconditions

    [wp m s Q]: running [m] in state [s] ends in an outcome, a state and
    a list of calls that satisfy [Q].  The [after_*] transformers are the
    postconditions of the parts of a sequence, of a [try] with an
    [except] clause and of a [try] with a [finally] clause. *)

Definition wp {S A} (m : M S A) (s : S)
    (Q : outcome A -> S -> list event -> Prop) : Prop :=
  match m s with (o, s', t) => Q o s' t end.

Definition after_bind {S A B} (k : A -> M S B)
    (Q : outcome B -> S -> list event -> Prop)
    (o : outcome A) (s1 : S) (t1 : list event) : Prop :=
  match o with
  | Returned a => wp (k a) s1 (fun o2 s2 t2 => Q o2 s2 (t1 ++ t2))
  | Raised e => Q (Raised e) s1 t1
  | Blocked => Q Blocked s1 t1
  end.

Definition after_except {S A} (catches : exn -> bool) (handler : exn -> M S A)
    (Q : outcome A -> S -> list event -> Prop)
    (o : outcome A) (s1 : S) (t1 : list event) : Prop :=
  match o with
  | Raised e =>
      if catches e
      then wp (handler e) s1 (fun o2 s2 t2 => Q o2 s2 (t1 ++ t2))
      else Q (Raised e) s1 t1
  | _ => Q o s1 t1
  end.

Definition after_final {S A} (o : outcome A) (t1 : list event)
    (Q : outcome A -> S -> list event -> Prop)
    (o2 : outcome unit) (s2 : S) (t2 : list event) : Prop :=
  match o2 with
  | Returned _ => Q o s2 (t1 ++ t2)
  | Raised e => Q (Raised e) s2 (t1 ++ t2)
  | Blocked => Q Blocked s2 (t1 ++ t2)
  end.

Definition after_body {S A} (final : M S unit)
    (Q : outcome A -> S -> list event -> Prop)
    (o : outcome A) (s1 : S) (t1 : list event) : Prop :=
  match o with
  | Blocked => Q Blocked s1 t1
  | _ => wp final s1 (after_final o t1 Q)
  end.

(** ** Concrete scenarios

    Collaborators and daemon states on which the model is evaluated. *)

Module Scenario.

Definition table_html : bytes := ascii_bytes "<table><tr><th>Rank</th></tr></table>".
Definition films_csv : bytes := ascii_bytes "Rank,Peak,Title,Worldwide gross,Year".

Definition html_path : pystr := py "workspace\scraped_table.html".
Definition csv_path : pystr := py "workspace\films.csv".

(** Generated scripts: the sampler writes the table and exits 3, the
    scraper writes the CSV and no status is reported for it, the
    analysis prints a JSON array and exits 1; [warn] writes the table,
    a warning on its standard error, and exits 0; [loop] never exits,
    any other code prints [hello] and exits 0. *)
Definition exec (req : run_request) (fs : gmap pystr bytes) : process :=
  match command req with
  | [_; _; code] =>
      if bool_decide (code = py "sample") then
        Exits [] [] (Some 3%Z) (<[html_path := table_html]> fs)
      else if bool_decide (code = py "scrape") then
        Exits [] [] None (<[csv_path := films_csv]> fs)
      else if bool_decide (code = py "analyze") then
        Exits (ascii_bytes "[42]") [] (Some 1%Z) fs
      else if bool_decide (code = py "warn") then
        Exits [] (ascii_bytes "DeprecationWarning") (Some 0%Z)
          (<[html_path := table_html]> fs)
      else if bool_decide (code = py "loop") then Hangs
      else Exits (ascii_bytes "hello") [] (Some 0%Z) fs
  | _ => Exits [] (ascii_bytes "usage: python -c code") (Some 2%Z) fs
  end.

Definition fenced (body : pystr) : pystr :=
  py "```python" ++ nl ++ body ++ nl ++ py "```".

Definition generator (sampler scraper analysis : pystr) (prompt : pystr)
    : pystr :=
  if bool_decide (prompt = create_code_generation_prompt sampler_task [])
  then fenced sampler
  else if bool_decide (prompt = create_code_generation_prompt scraper_task [])
  then fenced scraper
  else fenced analysis.

Definition describe (e : exn) : pystr :=
  match e with
  | DockerException msg => msg
  | ImageNotFound img => py "No such image: " ++ img
  | NotFound what => py "No such container: " ++ what
  | Conflict nm => py "Conflict. The container name is already in use: " ++ nm
  | APIError msg => msg
  | UnicodeDecodeError _ => py "'utf-8' codec can't decode bytes"
  | JSONDecodeError msg => msg
  | IndexError msg => msg
  | ValueError msg => msg
  | RecursionError msg => msg
  end.

(** [json.loads] on the documents of these scenarios; [NaN] is a
    number for it. *)
Definition loads (s : pystr) : json + exn :=
  if bool_decide (s = py "[42]") then inl (JArray [JNumber (py "42")])
  else if bool_decide (s = py "[1]") then inl (JArray [JNumber (py "1")])
  else if bool_decide (s = py "[2]") then inl (JArray [JNumber (py "2")])
  else if bool_decide (s = py "[NaN]") then inl (JArray [JNumber (py "NaN")])
  else inr (JSONDecodeError (py "Expecting value: line 1 column 1 (char 0)")).

(** The rendering of [JSONResponse] on the values of these scenarios:
    it refuses NaN. *)
Definition is_nan (v : json) : bool :=
  match v with
  | JNumber lexeme => bool_decide (lexeme = py "NaN")
  | _ => false
  end.

Definition render (v : json) : option exn :=
  match v with
  | JArray items =>
      if existsb is_nan items
      then Some (ValueError
                   (py "Out of range float values are not JSON compliant"))
      else None
  | _ => None
  end.

Definition well_behaved : Collaborators :=
  {| generate_content := generator (py "sample") (py "scrape") (py "analyze");
     sandbox_exec := exec;
     exn_str := describe;
     json_loads := loads;
     json_render := render;
     os_sep := py "\" |}.

(** The sampler writes its file and exits 0, with a warning. *)
Definition with_warning : Collaborators :=
  {| generate_content := generator (py "warn") (py "scrape") (py "analyze");
     sandbox_exec := exec;
     exn_str := describe;
     json_loads := loads;
     json_render := render;
     os_sep := py "\" |}.



(** The daemon holds the image and no container, the workspace is
    empty and every request is served. *)
Definition ready : world :=
  World {[ python_image ]} ∅ 0 ∅ [].

(** The image has not been built. *)
Definition without_image : world := World ∅ ∅ 0 ∅ [].

(** The daemon cannot be reached. *)
Definition daemon_down : world :=
  World {[ python_image ]} ∅ 0 ∅
    [Some (py "Error while fetching server API version")].

(** Every request is served but the ninth, which is the teardown of a
    run that finds no container to reclaim. *)
Definition teardown_fails : world :=
  World {[ python_image ]} ∅ 0 ∅
    [None; None; None; None; None; None; None; None;
     Some (py "500 Server Error")].

Definition question : bytes := ascii_bytes "How many films grossed over 2bn?".
Definition asked : pystr := py "How many films grossed over 2bn?".

End Scenario.

(** ** Further scenarios *)

Module Edge.

(** A script that writes one byte that is no UTF-8 to its standard
    output and exits 0. *)
Definition exec_binary (req : run_request) (fs : gmap pystr bytes) : process :=
  Exits [Byte.xff] (ascii_bytes "done") (Some 0%Z) fs.

Definition with_binary : Collaborators :=
  {| generate_content := Scenario.generator (py "dump") (py "dump") (py "dump");
     sandbox_exec := exec_binary;
     exn_str := Scenario.describe;
     json_loads := Scenario.loads;
     json_render := Scenario.render;
     os_sep := py "\" |}.

(** The first script prints [hello] and writes no file. *)
Definition with_idle : Collaborators :=
  {| generate_content :=
       Scenario.generator (py "idle") (py "scrape") (py "analyze");
     sandbox_exec := Scenario.exec;
     exn_str := Scenario.describe;
     json_loads := Scenario.loads;
     json_render := Scenario.render;
     os_sep := py "\" |}.

(** The first script never exits. *)
Definition with_loop : Collaborators :=
  {| generate_content :=
       Scenario.generator (py "loop") (py "scrape") (py "analyze");
     sandbox_exec := Scenario.exec;
     exn_str := Scenario.describe;
     json_loads := Scenario.loads;
     json_render := Scenario.render;
     os_sep := py "\" |}.

(** A script that writes one byte that is no UTF-8 to its standard
    output, nothing to its standard error, and exits 0. *)
Definition exec_raw (req : run_request) (fs : gmap pystr bytes) : process :=
  Exits [Byte.xff] [] (Some 0%Z) fs.

Definition with_raw : Collaborators :=
  {| generate_content := Scenario.generator (py "raw") (py "raw") (py "raw");
     sandbox_exec := exec_raw;
     exn_str := Scenario.describe;
     json_loads := Scenario.loads;
     json_render := Scenario.render;
     os_sep := py "\" |}.

(** The analysis script prints [[NaN]], nothing on its standard error,
    and exits 1. *)
Definition exec_nan (req : run_request) (fs : gmap pystr bytes) : process :=
  match command req with
  | [_; _; code] =>
      if bool_decide (code = py "nan")
      then Exits (ascii_bytes "[NaN]") [] (Some 1%Z) fs
      else Scenario.exec req fs
  | _ => Scenario.exec req fs
  end.

Definition with_nan : Collaborators :=
  {| generate_content :=
       Scenario.generator (py "sample") (py "scrape") (py "nan");
     sandbox_exec := exec_nan;
     exn_str := Scenario.describe;
     json_loads := Scenario.loads;
     json_render := Scenario.render;
     os_sep := py "\" |}.

(** The generator answers with a block opened by [```py]. *)
Definition with_short_fence : Collaborators :=
  {| generate_content :=
       fun _ => fenced_block [] (py "```py") (py "print(1)") [];
     sandbox_exec := Scenario.exec;
     exn_str := Scenario.describe;
     json_loads := Scenario.loads;
     json_render := Scenario.render;
     os_sep := py "\" |}.

(** Every request is served but the fifth, which is the start of the
    container of a run that finds no container to reclaim. *)
Definition start_fails : world :=
  World {[ python_image ]} ∅ 0 ∅
    [None; None; None; None; Some (py "500 Server Error")].

(** The workspace holds the table of an earlier request and a file of
    the user. *)
Definition used : world :=
  World {[ python_image ]} ∅ 0
    (<[Scenario.html_path := Scenario.table_html]>
       (<[py "workspace\notes.txt" := ascii_bytes "keep"]> ∅)) [].

(** Another container is running beside the sandbox. *)
Definition database : container :=
  Container 7 (RunRequest (py "postgres") [] (py "database") true false [])
    (Some Hangs).

Definition shared : world :=
  World {[ python_image ]} {[ py "database" := database ]} 8 ∅ [].

End Edge.

(** ** Text: replacing and stripping *)

Section TextFacts.
Implicit Types p s t old new : pystr.

Lemma startswith_app p t : startswith p (p ++ t) = true.
Proof. induction p as [|a p IH]; cbn; [|rewrite N.eqb_refl]; auto. Qed.

Lemma startswith_longer p q s :
  startswith p s = false -> startswith (p ++ q) s = false.
Proof.
  revert s. induction p as [|a p IH]; intros [|b s]; cbn; try discriminate; auto.
  destruct (a =? b); cbn; auto.
Qed.

Lemma none_within_longer p q s t :
  none_within p s t = true -> none_within (p ++ q) s t = true.
Proof.
  induction s as [|c s IH]; cbn [none_within]; auto.
  intros [Hc Hs]%andb_true_iff. apply negb_true_iff in Hc.
  rewrite (startswith_longer _ q _ Hc). cbn. auto.
Qed.

Lemma none_within_app p s1 s2 t :
  none_within p s1 (s2 ++ t) = true -> none_within p s2 t = true ->
  none_within p (s1 ++ s2) t = true.
Proof.
  induction s1 as [|c s1 IH]; cbn [none_within app]; auto.
  intros [Hc Hs]%andb_true_iff H2. rewrite <- app_assoc, Hc. cbn. auto.
Qed.

Lemma replace_from_skip old new u t :
  replace_from old new (length u) (u ++ t) = replace_from old new 0 t.
Proof.
  induction u as [|c u IH]; cbn; auto.
Qed.

(** An occurrence at the head is replaced. *)
Lemma replace_from_match old new t :
  old <> [] ->
  replace_from old new 0 (old ++ t) = new ++ replace_from old new 0 t.
Proof.
  destruct old as [|c old]; [congruence|]. intros _.
  change ((c :: old) ++ t) with (c :: (old ++ t)).
  cbn [replace_from].
  change (c :: old ++ t) with ((c :: old) ++ t).
  rewrite startswith_app. cbn [length Nat.pred].
  now rewrite replace_from_skip.
Qed.

(** A segment in which no occurrence starts is copied. *)
Lemma replace_from_pass old new s t :
  none_within old s t = true ->
  replace_from old new 0 (s ++ t) = s ++ replace_from old new 0 t.
Proof.
  induction s as [|c s IH]; cbn [none_within]; auto.
  intros [Hc Hs]%andb_true_iff. apply negb_true_iff in Hc.
  change ((c :: s) ++ t) with (c :: (s ++ t)) in *.
  cbn [replace_from]. rewrite Hc. cbn [app]. now rewrite IH.
Qed.

Lemma replace_from_nil old new : replace_from old new 0 [] = [].
Proof. reflexivity. Qed.

(** White space is neither a backquote nor a letter. *)
Lemma space_is_not c a :
  isspace c = true -> isspace a = false -> (a =? c) = false.
Proof.
  intros Hc Ha. destruct (N.eqb_spec a c) as [->|]; congruence.
Qed.

Lemma none_within_spaces p a ws t :
  isspace a = false -> all_space ws = true ->
  none_within (a :: p) ws t = true.
Proof.
  intros Ha. induction ws as [|c ws IH]; cbn [none_within all_space forallb]; auto.
  intros [Hc Hws]%andb_true_iff.
  change ((c :: ws) ++ t) with (c :: (ws ++ t)). cbn [startswith].
  rewrite (space_is_not c a Hc Ha). cbn. apply IH, Hws.
Qed.

Lemma contains_suffix p s1 s2 :
  contains p (s1 ++ s2) = false -> contains p s2 = false.
Proof.
  induction s1 as [|c s1 IH]; cbn [app]; auto.
  intros Hc. apply IH. cbn [contains] in Hc.
  apply orb_false_iff in Hc. tauto.
Qed.

Lemma contains_head p s : contains p s = false -> startswith p s = false.
Proof. destruct s; cbn [contains]; intros Hc; apply orb_false_iff in Hc; tauto. Qed.

Lemma startswith_app_r p s t :
  startswith p s = true -> startswith p (s ++ t) = true.
Proof.
  revert s. induction p as [|a p IH]; intros [|b s]; cbn;
    try discriminate; auto.
  intros [-> Hs]%andb_true_iff. cbn. auto.
Qed.

Lemma contains_prefix p s1 s2 :
  contains p (s1 ++ s2) = false -> contains p s1 = false.
Proof.
  induction s1 as [|c s1 IH].
  - cbn [app]. intros Hc%contains_head. destruct p; [discriminate|reflexivity].
  - cbn [app contains]. intros [Hh Ht]%orb_false_iff.
    rewrite (IH Ht), orb_false_r.
    destruct (startswith p (c :: s1)) eqn:Hp; [|reflexivity].
    apply (startswith_app_r _ _ s2) in Hp. cbn [app] in Hp. congruence.
Qed.

(** A body without a fence, followed by a line break: no fence starts
    within the body. *)
Lemma none_within_body body t :
  contains (py "```") body = false ->
  none_within (py "```") body (10 :: t) = true.
Proof.
  change (py "```") with [96; 96; 96].
  induction body as [|a body IH]; cbn [none_within]; auto.
  intros Hc. rewrite IH by (apply (contains_suffix _ [a]), Hc).
  rewrite andb_true_r. apply negb_true_iff.
  apply contains_head in Hc.
  destruct body as [|b [|c body]]; cbn [startswith app] in *.
  - change (96 =? 10) with false. cbn [andb]. apply andb_false_r.
  - change (96 =? 10) with false. cbn [andb].
    now rewrite !andb_false_r.
  - exact Hc.
Qed.

(** [lstrip], [rstrip] and [strip] of text with white space around. *)
Lemma lstrip_spaces ws s : all_space ws = true -> lstrip (ws ++ s) = lstrip s.
Proof.
  induction ws as [|c ws IH]; cbn [all_space forallb app lstrip]; auto.
  intros [-> Hws]%andb_true_iff. auto.
Qed.

Lemma all_space_rev ws : all_space ws = true -> all_space (rev ws) = true.
Proof.
  unfold all_space. rewrite !forallb_forall. intros Hws c Hc.
  apply Hws, in_rev, Hc.
Qed.

Lemma rstrip_spaces s ws : all_space ws = true -> rstrip (s ++ ws) = rstrip s.
Proof.
  intros Hws. unfold rstrip. rewrite rev_app_distr.
  now rewrite lstrip_spaces by (apply all_space_rev, Hws).
Qed.

Lemma strip_spaces ws1 s ws2 :
  all_space ws1 = true -> all_space ws2 = true ->
  strip (ws1 ++ s ++ ws2) = strip s.
Proof.
  intros H1 H2. unfold strip. rewrite lstrip_spaces by assumption.
  induction s as [|c s IH]; cbn [app lstrip].
  - rewrite <- (app_nil_r ws2), lstrip_spaces by assumption. reflexivity.
  - destruct (isspace c); [exact IH|].
    change (c :: s ++ ws2) with ((c :: s) ++ ws2). now apply rstrip_spaces.
Qed.

Lemma all_space_app ws1 ws2 :
  all_space ws1 = true -> all_space ws2 = true -> all_space (ws1 ++ ws2) = true.
Proof. unfold all_space. rewrite forallb_app. now intros -> ->. Qed.

(** What [strip] keeps is a segment of its argument. *)
Lemma lstrip_suffix s : exists ws, s = ws ++ lstrip s.
Proof.
  induction s as [|c s [ws IH]]; [now exists []|]. cbn [lstrip].
  destruct (isspace c); [|now exists []].
  exists (c :: ws). cbn [app]. now rewrite <- IH.
Qed.

Lemma rstrip_prefix s : exists ws, s = rstrip s ++ ws.
Proof.
  unfold rstrip. destruct (lstrip_suffix (rev s)) as [ws Hws].
  exists (rev ws). rewrite <- rev_app_distr, <- Hws. now rewrite rev_involutive.
Qed.

Lemma strip_keeps_absence p s : contains p s = false -> contains p (strip s) = false.
Proof.
  intros Hc. unfold strip.
  destruct (lstrip_suffix s) as [ws1 H1].
  destruct (rstrip_prefix (lstrip s)) as [ws2 H2].
  rewrite H1 in Hc. apply contains_suffix in Hc.
  rewrite H2 in Hc. now apply contains_prefix in Hc.
Qed.

(** After [replace("```", "")] no fence is left. *)
Lemma startswith_fence s :
  startswith [96; 96; 96] s = true -> exists s', s = 96 :: 96 :: 96 :: s'.
Proof.
  destruct s as [|a [|b [|c s]]]; cbn [startswith]; try discriminate.
  - now rewrite andb_false_r.
  - now rewrite !andb_false_r.
  - intros [Ha [Hb [Hc _]%andb_true_iff]%andb_true_iff]%andb_true_iff.
    apply N.eqb_eq in Ha, Hb, Hc. subst. eauto.
Qed.

Lemma replace_fence_head1 s r :
  replace_from [96; 96; 96] [] 0 s = 96 :: r -> exists s', s = 96 :: s'.
Proof.
  destruct s as [|a s]; [discriminate|]. cbn [replace_from].
  destruct (startswith [96; 96; 96] (a :: s)) eqn:Hm.
  - apply startswith_fence in Hm as [s' [= -> ->]]. eauto.
  - intros [= -> _]. eauto.
Qed.

Lemma replace_fence_head2 s r :
  replace_from [96; 96; 96] [] 0 s = 96 :: 96 :: r ->
  exists s', s = 96 :: 96 :: s'.
Proof.
  destruct s as [|a s]; [discriminate|]. cbn [replace_from].
  destruct (startswith [96; 96; 96] (a :: s)) eqn:Hm.
  - apply startswith_fence in Hm as [s' [= -> ->]]. eauto.
  - intros [= -> Hr]. apply replace_fence_head1 in Hr as [s1 ->]. eauto.
Qed.

Lemma replace_fence_leaves_none_upto n s :
  (length s <= n)%nat ->
  contains [96; 96; 96] (replace_from [96; 96; 96] [] 0 s) = false.
Proof.
  revert s. induction n as [|n IH]; intros s Hn.
  - destruct s; [reflexivity|cbn in Hn; lia].
  - destruct s as [|a s]; [reflexivity|]. cbn [replace_from].
    destruct (startswith [96; 96; 96] (a :: s)) eqn:Hm.
    + apply startswith_fence in Hm as [s' [= -> ->]].
      cbn [app length Nat.pred replace_from].
      apply IH. cbn [length] in Hn. lia.
    + cbn [contains]. rewrite IH by (cbn [length] in Hn; lia).
      rewrite orb_false_r.
      destruct (startswith [96; 96; 96] (a :: replace_from [96; 96; 96] [] 0 s))
        eqn:Hs; [|reflexivity].
      apply startswith_fence in Hs as [r [= -> Hr]].
      apply replace_fence_head2 in Hr as [s' ->].
      cbn in Hm. discriminate.
Qed.

Lemma replace_fence_leaves_none s :
  contains (py "```") (replace (py "```") [] s) = false.
Proof.
  change (py "```") with [96; 96; 96]. cbn [replace].
  apply (replace_fence_leaves_none_upto (length s)). lia.
Qed.
End TextFacts.

(** ** Stripping the fences of a response *)

Ltac eval_eqb :=
  repeat match goal with
  | |- context [(?a =? ?b)] =>
      let v := eval vm_compute in (a =? b) in
      lazymatch v with
      | true => change (a =? b) with true
      | false => change (a =? b) with false
      end
  end.

Section Fences.
Implicit Types body before after t : pystr.

Lemma backquote_is_not_space : isspace 96 = false.
Proof. reflexivity. Qed.

Lemma spaces_hold_no_fence ws t :
  all_space ws = true -> none_within (py "```") ws t = true.
Proof. apply (none_within_spaces [96; 96] 96). reflexivity. Qed.

Lemma spaces_hold_no_python_fence ws t :
  all_space ws = true -> none_within (py "```python") ws t = true.
Proof.
  apply (none_within_spaces [96; 96; 112; 121; 116; 104; 111; 110] 96).
  reflexivity.
Qed.

(** The closing fence followed by white space, and the opening fence
    followed by a line break, hold no [```python]. *)
Lemma closing_fence_is_not_python after :
  all_space after = true ->
  none_within (py "```python") (py "```") after = true.
Proof.
  change (py "```python") with [96; 96; 96; 112; 121; 116; 104; 111; 110].
  change (py "```") with [96; 96; 96].
  intros Hs. destruct after as [|c after].
  - reflexivity.
  - cbn [all_space forallb] in Hs. apply andb_true_iff in Hs as [Hc _].
    cbn [none_within app startswith].
    rewrite (space_is_not c 96 Hc eq_refl), (space_is_not c 112 Hc eq_refl).
    eval_eqb. cbn [andb negb]. rewrite ?andb_false_r. reflexivity.
Qed.

Lemma opening_fence_is_not_python t :
  none_within (py "```python") (py "```") (nl ++ t) = true.
Proof.
  change (py "```python") with [96; 96; 96; 112; 121; 116; 104; 111; 110].
  change (py "```") with [96; 96; 96].
  cbn [none_within app startswith nl]. eval_eqb. reflexivity.
Qed.

Lemma body_holds_no_fence body t :
  contains (py "```") body = false ->
  none_within (py "```") body (nl ++ t) = true.
Proof. apply none_within_body. Qed.

Lemma body_holds_no_python_fence body t :
  contains (py "```") body = false ->
  none_within (py "```python") body (nl ++ t) = true.
Proof.
  intros Hb. apply (none_within_longer (py "```") (py "python")).
  now apply none_within_body.
Qed.

Lemma replace_fence_spaces ws :
  all_space ws = true -> replace_from (py "```") [] 0 ws = ws.
Proof.
  intros Hws. rewrite <- (app_nil_r ws) at 1.
  rewrite replace_from_pass by now apply spaces_hold_no_fence.
  apply app_nil_r.
Qed.

Lemma replace_python_fence_spaces ws :
  all_space ws = true -> replace_from (py "```python") [] 0 ws = ws.
Proof.
  intros Hws. rewrite <- (app_nil_r ws) at 1.
  rewrite replace_from_pass by now apply spaces_hold_no_python_fence.
  apply app_nil_r.
Qed.

(** Removing [```] from a block: both markers go. *)
Lemma replace_fence_block before body after :
  all_space before = true -> all_space after = true ->
  contains (py "```") body = false ->
  replace (py "```") [] (before ++ nl ++ body ++ nl ++ py "```" ++ after)
  = before ++ nl ++ body ++ nl ++ after.
Proof.
  intros Hb Ha Hc.
  change (replace (py "```") []) with (replace_from (py "```") [] 0).
  rewrite (replace_from_pass _ _ before) by now apply spaces_hold_no_fence.
  rewrite (replace_from_pass _ _ nl) by now apply spaces_hold_no_fence.
  rewrite (replace_from_pass _ _ body) by now apply body_holds_no_fence.
  rewrite (replace_from_pass _ _ nl) by now apply spaces_hold_no_fence.
  rewrite replace_from_match by discriminate.
  now rewrite replace_fence_spaces.
Qed.

(** The text of a block without its markers, stripped or not. *)
Lemma strip_block before body after :
  all_space before = true -> all_space after = true ->
  strip (before ++ nl ++ body ++ nl ++ after) = strip body.
Proof.
  intros Hb Ha.
  replace (before ++ nl ++ body ++ nl ++ after)
    with ((before ++ nl) ++ body ++ (nl ++ after))
    by now rewrite <- !app_assoc.
  apply strip_spaces; now apply all_space_app.
Qed.

Lemma strip_fences_python_block before body after :
  all_space before = true -> all_space after = true ->
  contains (py "```") body = false ->
  strip_fences (fenced_block before python_fence body after) = strip body.
Proof.
  intros Hb Ha Hc. unfold strip_fences, fenced_block, python_fence, fence.
  assert (replace (py "```python") []
            (before ++ py "```python" ++ nl ++ body ++ nl ++ py "```" ++ after)
          = before ++ nl ++ body ++ nl ++ py "```" ++ after) as ->.
  { change (replace (py "```python") [])
      with (replace_from (py "```python") [] 0).
    rewrite (replace_from_pass _ _ before)
      by now apply spaces_hold_no_python_fence.
    rewrite replace_from_match by discriminate.
    rewrite (replace_from_pass _ _ nl)
      by now apply spaces_hold_no_python_fence.
    rewrite (replace_from_pass _ _ body)
      by now apply body_holds_no_python_fence.
    rewrite (replace_from_pass _ _ nl)
      by now apply spaces_hold_no_python_fence.
    rewrite (replace_from_pass _ _ (py "```"))
      by now apply closing_fence_is_not_python.
    now rewrite replace_python_fence_spaces. }
  rewrite replace_fence_block by assumption.
  now apply strip_block.
Qed.

Lemma strip_fences_plain_block before body after :
  all_space before = true -> all_space after = true ->
  contains (py "```") body = false ->
  strip_fences (fenced_block before fence body after) = strip body.
Proof.
  intros Hb Ha Hc. unfold strip_fences, fenced_block, fence.
  assert (replace (py "```python") []
            (before ++ py "```" ++ nl ++ body ++ nl ++ py "```" ++ after)
          = before ++ py "```" ++ nl ++ body ++ nl ++ py "```" ++ after) as ->.
  { change (replace (py "```python") [])
      with (replace_from (py "```python") [] 0).
    rewrite (replace_from_pass _ _ before)
      by now apply spaces_hold_no_python_fence.
    rewrite (replace_from_pass _ _ (py "```"))
      by apply opening_fence_is_not_python.
    rewrite (replace_from_pass _ _ nl)
      by now apply spaces_hold_no_python_fence.
    rewrite (replace_from_pass _ _ body)
      by now apply body_holds_no_python_fence.
    rewrite (replace_from_pass _ _ nl)
      by now apply spaces_hold_no_python_fence.
    rewrite (replace_from_pass _ _ (py "```"))
      by now apply closing_fence_is_not_python.
    now rewrite replace_python_fence_spaces. }
  change (replace (py "```") []) with (replace_from (py "```") [] 0).
  rewrite (replace_from_pass _ _ before) by now apply spaces_hold_no_fence.
  rewrite replace_from_match by discriminate.
  cbn [app].
  change (replace_from (py "```") [] 0) with (replace (py "```") []).
  rewrite <- (app_nil_l (nl ++ body ++ nl ++ py "```" ++ after)).
  rewrite (replace_fence_block [] body after) by auto.
  cbn [app]. now apply strip_block.
Qed.

(** A block whose opening marker is followed by more text on its
    line, an info string: the markers go and the info string stays. *)
Lemma startswith_before_line_break p info t :
  forallb (fun c => negb (c =? 10)) p = true ->
  startswith p info = false ->
  startswith p (info ++ nl ++ t) = false.
Proof.
  revert info. induction p as [|a p IH]; intros info Hp; [discriminate|].
  cbn [forallb] in Hp. apply andb_true_iff in Hp as [Ha Hp].
  apply negb_true_iff in Ha.
  destruct info as [|b info]; cbn [app nl startswith].
  - now rewrite Ha.
  - destruct (a =? b); cbn [andb]; auto.
Qed.

Lemma opening_fence_with_info info t :
  startswith (py "python") info = false ->
  startswith (py "`") info = false ->
  none_within (py "```python") (py "```") (info ++ nl ++ t) = true.
Proof.
  change (py "```python") with [96; 96; 96; 112; 121; 116; 104; 111; 110].
  change (py "```") with [96; 96; 96].
  change (py "python") with [112; 121; 116; 104; 111; 110].
  change (py "`") with [96].
  intros Hp Hq.
  apply (startswith_before_line_break [112; 121; 116; 104; 111; 110] _ t
           eq_refl) in Hp.
  apply (startswith_before_line_break [96] _ t eq_refl) in Hq.
  pose proof (startswith_longer [96] [112; 121; 116; 104; 111; 110] _ Hq)
    as H1.
  pose proof (startswith_longer [96] [96; 112; 121; 116; 104; 111; 110] _ Hq)
    as H2.
  cbn [app] in H1, H2.
  assert (forall a p s, startswith (a :: p) (a :: s) = startswith p s)
    as Hsame by (intros; cbn [startswith]; now rewrite N.eqb_refl).
  cbn [none_within app]. rewrite !Hsame.
  now rewrite Hp, H1, H2.
Qed.

Lemma replace_fence_info_block before info body after :
  all_space before = true -> all_space after = true ->
  contains (py "```") info = false ->
  contains (py "```") body = false ->
  replace (py "```") []
    (before ++ info ++ nl ++ body ++ nl ++ py "```" ++ after)
  = before ++ info ++ nl ++ body ++ nl ++ after.
Proof.
  intros Hb Ha Hi Hc.
  change (replace (py "```") []) with (replace_from (py "```") [] 0).
  rewrite (replace_from_pass _ _ before) by now apply spaces_hold_no_fence.
  rewrite (replace_from_pass _ _ info) by now apply body_holds_no_fence.
  change (replace_from (py "```") [] 0) with (replace (py "```") []).
  rewrite <- (app_nil_l (nl ++ body ++ nl ++ py "```" ++ after)).
  rewrite (replace_fence_block [] body after) by auto.
  reflexivity.
Qed.

Lemma strip_info_block before info body after :
  all_space before = true -> all_space after = true ->
  strip (before ++ info ++ nl ++ body ++ nl ++ after)
  = strip (info ++ nl ++ body).
Proof.
  intros Hb Ha.
  replace (before ++ info ++ nl ++ body ++ nl ++ after)
    with (before ++ (info ++ nl ++ body) ++ (nl ++ after))
    by now rewrite <- !app_assoc.
  apply strip_spaces; [assumption|now apply all_space_app].
Qed.

Lemma strip_fences_python_info_block before info body after :
  all_space before = true -> all_space after = true ->
  contains (py "```") info = false ->
  contains (py "```") body = false ->
  strip_fences (fenced_block before (python_fence ++ info) body after)
  = strip (info ++ nl ++ body).
Proof.
  intros Hb Ha Hi Hc. unfold strip_fences, fenced_block, python_fence, fence.
  rewrite <- (app_assoc (py "```python") info).
  assert (replace (py "```python") []
            (before ++ py "```python" ++ info ++ nl ++ body ++ nl
             ++ py "```" ++ after)
          = before ++ info ++ nl ++ body ++ nl ++ py "```" ++ after) as ->.
  { change (replace (py "```python") [])
      with (replace_from (py "```python") [] 0).
    rewrite (replace_from_pass _ _ before)
      by now apply spaces_hold_no_python_fence.
    rewrite replace_from_match by discriminate.
    rewrite (replace_from_pass _ _ info)
      by now apply body_holds_no_python_fence.
    rewrite (replace_from_pass _ _ nl)
      by now apply spaces_hold_no_python_fence.
    rewrite (replace_from_pass _ _ body)
      by now apply body_holds_no_python_fence.
    rewrite (replace_from_pass _ _ nl)
      by now apply spaces_hold_no_python_fence.
    rewrite (replace_from_pass _ _ (py "```"))
      by now apply closing_fence_is_not_python.
    now rewrite replace_python_fence_spaces. }
  rewrite replace_fence_info_block by assumption.
  now apply strip_info_block.
Qed.

Lemma strip_fences_plain_info_block before info body after :
  all_space before = true -> all_space after = true ->
  contains (py "```") info = false ->
  contains (py "```") body = false ->
  startswith (py "python") info = false ->
  startswith (py "`") info = false ->
  strip_fences (fenced_block before (fence ++ info) body after)
  = strip (info ++ nl ++ body).
Proof.
  intros Hb Ha Hi Hc Hp Hq. unfold strip_fences, fenced_block, fence.
  rewrite <- (app_assoc (py "```") info).
  assert (replace (py "```python") []
            (before ++ py "```" ++ info ++ nl ++ body ++ nl
             ++ py "```" ++ after)
          = before ++ py "```" ++ info ++ nl ++ body ++ nl
            ++ py "```" ++ after) as ->.
  { change (replace (py "```python") [])
      with (replace_from (py "```python") [] 0).
    rewrite (replace_from_pass _ _ before)
      by now apply spaces_hold_no_python_fence.
    rewrite (replace_from_pass _ _ (py "```"))
      by now apply opening_fence_with_info.
    rewrite (replace_from_pass _ _ info)
      by now apply body_holds_no_python_fence.
    rewrite (replace_from_pass _ _ nl)
      by now apply spaces_hold_no_python_fence.
    rewrite (replace_from_pass _ _ body)
      by now apply body_holds_no_python_fence.
    rewrite (replace_from_pass _ _ nl)
      by now apply spaces_hold_no_python_fence.
    rewrite (replace_from_pass _ _ (py "```"))
      by now apply closing_fence_is_not_python.
    now rewrite replace_python_fence_spaces. }
  change (replace (py "```") []) with (replace_from (py "```") [] 0).
  rewrite (replace_from_pass _ _ before) by now apply spaces_hold_no_fence.
  rewrite replace_from_match by discriminate.
  cbn [app].
  change (replace_from (py "```") [] 0) with (replace (py "```") []).
  rewrite <- (app_nil_l (info ++ nl ++ body ++ nl ++ py "```" ++ after)).
  rewrite (replace_fence_info_block [] info body after) by auto.
  cbn [app]. now apply strip_info_block.
Qed.

(** What is handed to the runner holds no fence. *)
Lemma strip_fences_leaves_none response :
  contains fence (strip_fences response) = false.
Proof.
  unfold strip_fences, fence. apply strip_keeps_absence.
  apply replace_fence_leaves_none.
Qed.
End Fences.

(** ** Rules for weakest preconditions *)

Section WpRules.
Context {S : Type}.
Implicit Types s : S.

Lemma wp_ret {A} (a : A) s Q : Q (Returned a) s [] -> wp (ret a) s Q.
Proof. exact (fun q => q). Qed.

Lemma wp_raise {A} e s (Q : outcome A -> S -> list event -> Prop) :
  Q (Raised e) s [] -> wp (raise e) s Q.
Proof. exact (fun q => q). Qed.

Lemma wp_block {A} s (Q : outcome A -> S -> list event -> Prop) :
  Q Blocked s [] -> wp block s Q.
Proof. exact (fun q => q). Qed.

Lemma wp_emit ev s Q : Q (Returned tt) s [ev] -> wp (emit ev) s Q.
Proof. exact (fun q => q). Qed.

Lemma wp_bind {A B} (m : M S A) (k : A -> M S B) s Q :
  wp m s (after_bind k Q) -> wp (and_then m k) s Q.
Proof.
  unfold wp, and_then, after_bind.
  destruct (m s) as [[[a|e|] s1] t1]; auto.
  unfold wp. destruct (k a s1) as [[o2 s2] t2]. auto.
Qed.

Lemma wp_try_except {A} (catches : exn -> bool) (body : M S A) handler s Q :
  wp body s (after_except catches handler Q) ->
  wp (try_except catches body handler) s Q.
Proof.
  unfold wp, try_except, after_except.
  destruct (body s) as [[[a|e|] s1] t1]; auto.
  destruct (catches e); auto.
  unfold wp. destruct (handler e s1) as [[o2 s2] t2]. auto.
Qed.

Lemma wp_try_finally {A} (body : M S A) final s Q :
  wp body s (after_body final Q) -> wp (try_finally body final) s Q.
Proof.
  unfold wp, try_finally, after_body, after_final.
  destruct (body s) as [[[a|e|] s1] t1]; auto; unfold wp;
    destruct (final s1) as [[[[]|e2|] s2] t2]; auto.
Qed.

Lemma wp_intro {A} (m : M S A) s (P : outcome A * S * list event -> Prop) :
  wp m s (fun o s' t => P (o, s', t)) -> P (m s).
Proof. unfold wp. destruct (m s) as [[o s'] t]. auto. Qed.

Lemma wp_known {A} (m : M S A) s r Q :
  m s = r -> Q (outcome_of r) (state_of r) (calls_of r) -> wp m s Q.
Proof. intros <-. unfold wp. destruct (m s) as [[o s'] t]. auto. Qed.
End WpRules.

Section WpLocals.
Context {L W : Type}.

Lemma wp_lift {A} (m : M W A) (l : L) (w : W) Q :
  wp m w (fun o w' t => Q o (l, w') t) -> wp (lift m) (l, w) Q.
Proof. unfold wp, lift. simpl. destruct (m w) as [[o w'] t]. auto. Qed.

Lemma wp_assign (v l : L) (w : W) Q :
  Q (Returned tt) (v, w) [] -> wp (assign v) (l, w) Q.
Proof. exact (fun q => q). Qed.

Lemma wp_read (l : L) (w : W) Q :
  Q (Returned l) (l, w) [] -> wp read (l, w) Q.
Proof. exact (fun q => q). Qed.

Lemma wp_with_local {A} (init : L) (m : M (L * W) A) (w : W) Q :
  wp m (init, w) (fun o s t => Q o (snd s) t) -> wp (with_local init m) w Q.
Proof. unfold wp, with_local. destruct (m (init, w)) as [[o s] t]. auto. Qed.
End WpLocals.

Lemma wp_get_world w Q : Q (Returned w) w [] -> wp get_world w Q.
Proof. exact (fun q => q). Qed.

Lemma wp_update_world f w Q :
  Q (Returned tt) (f w) [] -> wp (update_world f) w Q.
Proof. exact (fun q => q). Qed.

Lemma wp_request mk w Q :
  match next_fault (faults w) with
  | Some msg => Q (Raised (mk msg)) (set_faults (tail (faults w)) w) []
  | None => Q (Returned tt) (set_faults (tail (faults w)) w) []
  end ->
  wp (request mk) w Q.
Proof. unfold wp, request. destruct (next_fault (faults w)); auto. Qed.

(** Symbolic execution: one step at the head of the goal. *)
Ltac wp_simpl :=
  cbv beta;
  cbn [faults images containers next_id files set_faults set_containers
       set_files set_next_id fst snd h_name h_id c_id c_request c_process
       name image sandbox_request is_NotFound Exception next_fault tail].

Ltac wp_scrutinee x :=
  lazymatch x with
  | context [<[?i:=_]> _ !! ?i] => rewrite lookup_insert_eq
  | context [delete ?i _ !! ?i] => rewrite lookup_delete_eq
  | context [(?n =? ?n)%N] => rewrite N.eqb_refl
  | match ?y with _ => _ end => wp_scrutinee y
  | if ?y then _ else _ => wp_scrutinee y
  | _ =>
      first [ match goal with Hx : x = _ |- _ => rewrite Hx end
            | destruct x eqn:? ]
  end.

Ltac wp_head :=
  lazymatch goal with
  | |- after_bind _ _ (Returned _) _ _ => unfold after_bind at 1
  | |- after_bind _ _ (Raised _) _ _ => unfold after_bind at 1
  | |- after_bind _ _ Blocked _ _ => unfold after_bind at 1
  | |- after_except _ _ _ (Returned _) _ _ => unfold after_except at 1
  | |- after_except _ _ _ (Raised _) _ _ => unfold after_except at 1
  | |- after_except _ _ _ Blocked _ _ => unfold after_except at 1
  | |- after_body _ _ (Returned _) _ _ => unfold after_body at 1
  | |- after_body _ _ (Raised _) _ _ => unfold after_body at 1
  | |- after_body _ _ Blocked _ _ => unfold after_body at 1
  | |- after_final _ _ _ (Returned _) _ _ => unfold after_final at 1
  | |- after_final _ _ _ (Raised _) _ _ => unfold after_final at 1
  | |- after_final _ _ _ Blocked _ _ => unfold after_final at 1
  | |- wp (and_then _ _) _ _ => apply wp_bind
  | |- wp (ret _) _ _ => apply wp_ret
  | |- wp (raise _) _ _ => apply wp_raise
  | |- wp block _ _ => apply wp_block
  | |- wp (emit _) _ _ => apply wp_emit
  | |- wp (logger_info _) _ _ => apply wp_emit
  | |- wp (logger_error _) _ _ => apply wp_emit
  | |- wp (request _) _ _ => apply wp_request
  | |- wp get_world _ _ => apply wp_get_world
  | |- wp (update_world _) _ _ => apply wp_update_world
  | |- wp (try_except _ _ _) _ _ => apply wp_try_except
  | |- wp (try_finally _ _) _ _ => apply wp_try_finally
  | |- wp (lift _) _ _ => apply wp_lift
  | |- wp (assign _) _ _ => apply wp_assign
  | |- wp read _ _ => apply wp_read
  | |- wp (with_local _ _) _ _ => apply wp_with_local
  | |- wp from_env _ _ => unfold from_env
  | |- wp (images_get _ _) _ _ => unfold images_get
  | |- wp (containers_get _ _) _ _ => unfold containers_get
  | |- wp (container_remove _ _ _) _ _ => unfold container_remove, resolve
  | |- wp (containers_run _ _) _ _ => unfold containers_run
  | |- wp (container_wait _) _ _ => unfold container_wait, resolve
  | |- wp (container_logs _ _ _) _ _ => unfold container_logs, resolve
  | |- wp (decode _) _ _ => unfold decode
  | |- wp (sandbox_try _ _) _ _ => unfold sandbox_try
  | |- wp (sandbox_except _) _ _ => unfold sandbox_except
  | |- wp sandbox_finally _ _ => unfold sandbox_finally
  | |- wp (run_code_in_sandbox _) _ _ => unfold run_code_in_sandbox
  | |- wp (run_without_finally _) _ _ => unfold run_without_finally
  | |- wp (match ?x with _ => _ end) _ _ => wp_scrutinee x
  | |- wp (if ?x then _ else _) _ _ => wp_scrutinee x
  | |- match ?x with _ => _ end => wp_scrutinee x
  | |- if ?x then _ else _ => wp_scrutinee x
  end.

Ltac wp_step := wp_head; wp_simpl.
Ltac wp_run := repeat wp_step.

(** Start the symbolic execution of a run whose property is [P]. *)
Ltac wp_start m w P :=
  destruct w as [imgs cs nid fs fl];
  apply (wp_intro m _ P).

Ltac leaf :=
  unfold outcome_of, state_of, calls_of, teardown_calls;
  cbn [fst snd app rev List.filter caught submitted prompted run_requests
       run_returned not_before is_teardown is_lookup is_run is_os_remove
       is_sandbox is_pre_cleanup is_forced_removal_of is_Conflict
       is_NotFound_exactly negb orb andb containers files images faults
       next_id set_faults set_containers set_files set_next_id].

(** ** The sandbox runner *)

Section Runner.
Context `{Collaborators}.

(** The calls of one run: the runner is entered once, and what follows
    is between it, the daemon and the logger. *)
Lemma run_calls code w :
  submitted (calls_of (run_code_in_sandbox code w)) = [code]
  /\ prompted (calls_of (run_code_in_sandbox code w)) = []
  /\ List.filter is_os_remove (calls_of (run_code_in_sandbox code w)) = []
  /\ Forall (fun req => req = sandbox_request code)
       (run_requests (calls_of (run_code_in_sandbox code w))).
Proof.
  wp_start (run_code_in_sandbox code) w
    (fun r : run ExecutionResult => submitted (calls_of r) = [code] /\ prompted (calls_of r) = []
       /\ List.filter is_os_remove (calls_of r) = []
       /\ Forall (fun req => req = sandbox_request code)
            (run_requests (calls_of r))).
  wp_run; leaf; repeat split; auto.
Qed.

(** Once the client is connected the runner returns a result or stays
    blocked in [wait].  An exception of its [try] block ends in the
    [except] clause, which turns it into a result with exit code -1; and
    when no exception was caught, the result is what the process wrote,
    decoded, with the status code the daemon reported for it, or 0. *)
Lemma failures_after_connecting_are_contained code w :
  next_fault (faults w) = None ->
  outcome_of (run_code_in_sandbox code w) = Blocked
  \/ exists r, outcome_of (run_code_in_sandbox code w) = Returned r
       /\ ((caught (calls_of (run_code_in_sandbox code w)) = []
            /\ exists out err st fs',
                 sandbox_exec (sandbox_request code) (files w)
                 = Exits out err st fs'
                 /\ decode_utf8 out = Some (stdout r)
                 /\ decode_utf8 err = Some (stderr r)
                 /\ exit_code r = default 0%Z st)
           \/ exists e, caught (calls_of (run_code_in_sandbox code w)) = [e]
                /\ r = Result [] (exn_str e) (-1)%Z).
Proof.
  revert w. intros [imgs cs nid fs fl] Hf. cbn [faults files] in *.
  apply (wp_intro (run_code_in_sandbox code) _
    (fun r : run ExecutionResult =>
       outcome_of r = Blocked
       \/ exists x, outcome_of r = Returned x
            /\ ((caught (calls_of r) = []
                 /\ exists out err st fs',
                      sandbox_exec (sandbox_request code) fs
                      = Exits out err st fs'
                      /\ decode_utf8 out = Some (stdout x)
                      /\ decode_utf8 err = Some (stderr x)
                      /\ exit_code x = default 0%Z st)
                \/ exists e, caught (calls_of r) = [e]
                     /\ x = Result [] (exn_str e) (-1)%Z))).
  wp_run; leaf; try congruence; rewrite ?app_nil_r in *; cbn [app] in *;
    first
      [ left; reflexivity
      | right; eexists; split; [reflexivity|];
        first
          [ right; eexists; split; reflexivity
          | left; split; [reflexivity|];
            do 4 eexists; repeat split; eassumption ] ].
Qed.

(** C1, at the failing input: when the daemon cannot be reached,
    [docker.from_env()] raises before the [try] block is entered, and
    the exception leaves [run_code_in_sandbox] instead of becoming a
    result with exit code -1. *)
Theorem connection_failure_escapes code imgs cs nid fs msg rest :
  run_code_in_sandbox code (World imgs cs nid fs (Some msg :: rest))
  = (Raised (DockerException msg), World imgs cs nid fs rest,
     [CallSandbox code; CallFromEnv]).
Proof. reflexivity. Qed.

(** The [finally] clause never raises and never blocks. *)
Lemma sandbox_finally_returns (s : option handle * world) :
  exists s' t, sandbox_finally s = (Returned tt, s', t).
Proof.
  destruct s as [c [imgs cs nid fs fl]].
  apply (wp_intro sandbox_finally _
    (fun r : outcome unit * (option handle * world) * list event =>
       exists s' t, r = (Returned tt, s', t))).
  wp_run; eauto.
Qed.

Lemma try_finally_outcome {S A} (body : M S A) (final : M S unit) (s : S) :
  (forall s1, exists s2 t2, final s1 = (Returned tt, s2, t2)) ->
  outcome_of (try_finally body final s) = outcome_of (body s).
Proof.
  intros Hfin. unfold try_finally, outcome_of.
  destruct (body s) as [[[a|e|] s1] t1]; cbn; auto;
    destruct (Hfin s1) as (s2 & t2 & ->); reflexivity.
Qed.

Lemma and_then_outcome_ext {S A B} (m : M S A) (k k' : A -> M S B) (s : S) :
  (forall a s1, outcome_of (k a s1) = outcome_of (k' a s1)) ->
  outcome_of (and_then m k s) = outcome_of (and_then m k' s).
Proof.
  intros Hk. unfold and_then, outcome_of.
  destruct (m s) as [[[a|e|] s1] t1]; cbn; auto.
  specialize (Hk a s1). unfold outcome_of in Hk.
  destruct (k a s1) as [[o2 s2] t2], (k' a s1) as [[o3 s3] t3]. exact Hk.
Qed.

Lemma with_local_outcome {L W A} (init : L) (m : M (L * W) A) (w : W) :
  outcome_of (with_local init m w) = outcome_of (m (init, w)).
Proof.
  unfold with_local, outcome_of. destruct (m (init, w)) as [[o s] t].
  reflexivity.
Qed.

(** The result of a run is the one its [try] and [except] clauses
    produce: the [finally] clause does not change it. *)
Lemma finally_keeps_the_result code w :
  outcome_of (run_code_in_sandbox code w)
  = outcome_of (run_without_finally code w).
Proof.
  unfold run_code_in_sandbox, run_without_finally.
  apply and_then_outcome_ext. intros _ s1.
  apply and_then_outcome_ext. intros client s2.
  rewrite !with_local_outcome.
  apply try_finally_outcome. intros s3. apply sandbox_finally_returns.
Qed.

(** The teardown of a run that is not blocked. *)
Lemma teardown_calls_of_run code w :
  outcome_of (run_code_in_sandbox code w) <> Blocked ->
  match run_returned (calls_of (run_code_in_sandbox code w)) with
  | Some h =>
      teardown_calls (calls_of (run_code_in_sandbox code w))
      = [CallRemove Teardown h true]
      /\ match rev (calls_of (run_code_in_sandbox code w)) with
         | CallRemove Teardown h' true :: _ =>
             h' = h
             /\ containers (state_of (run_code_in_sandbox code w))
                  !! container_name = None
         | Log ERROR (CleanupError _) :: CallRemove Teardown h' true :: _ =>
             h' = h
         | _ => False
         end
  | None => teardown_calls (calls_of (run_code_in_sandbox code w)) = []
  end.
Proof.
  revert w. intros [imgs cs nid fs fl].
  apply (wp_intro (run_code_in_sandbox code) _
    (fun r : run ExecutionResult =>
       outcome_of r <> Blocked ->
       match run_returned (calls_of r) with
       | Some h =>
           teardown_calls (calls_of r) = [CallRemove Teardown h true]
           /\ match rev (calls_of r) with
              | CallRemove Teardown h' true :: _ =>
                  h' = h /\ containers (state_of r) !! container_name = None
              | Log ERROR (CleanupError _) :: CallRemove Teardown h' true :: _ =>
                  h' = h
              | _ => False
              end
       | None => teardown_calls (calls_of r) = []
       end)).
  wp_run; leaf; intros Hnb; try congruence;
    rewrite ?lookup_delete_eq; auto.
Qed.

(** C2, as amended: a run that is not blocked attempts the teardown
    exactly once when [client.containers.run] returned a container, as
    its last call, and not at all when the daemon created no container
    for it; a teardown that fails is logged as the last record of the
    run, and the result is the one of the run without its [finally]
    clause.  Nothing is said of a run whose container was created but
    not returned. *)
Theorem teardown_once_when_provisioned code w :
  outcome_of (run_code_in_sandbox code w) <> Blocked ->
  match run_returned (calls_of (run_code_in_sandbox code w)) with
  | Some h =>
      teardown_calls (calls_of (run_code_in_sandbox code w))
      = [CallRemove Teardown h true]
      /\ match rev (calls_of (run_code_in_sandbox code w)) with
         | CallRemove Teardown h' true :: _ =>
             h' = h
             /\ containers (state_of (run_code_in_sandbox code w))
                  !! container_name = None
         | Log ERROR (CleanupError _) :: CallRemove Teardown h' true :: _ =>
             h' = h
         | _ => False
         end
  | None =>
      none_created w (state_of (run_code_in_sandbox code w)) ->
      teardown_calls (calls_of (run_code_in_sandbox code w)) = []
  end
  /\ outcome_of (run_code_in_sandbox code w)
     = outcome_of (run_without_finally code w).
Proof.
  intros Hnb. split.
  - pose proof (teardown_calls_of_run code w Hnb) as Ht.
    destruct (run_returned (calls_of (run_code_in_sandbox code w)));
      [exact Ht|]. intros _. exact Ht.
  - apply finally_keeps_the_result.
Qed.

(** The pre-cleanup of a run, started in any state of the daemon. *)
Lemma reclaims_the_name code w :
  Forall (fun e => is_Conflict e = false)
    (caught (calls_of (run_code_in_sandbox code w)))
  /\ Forall (fun e => e = CallContainersGet container_name)
       (List.filter is_lookup (calls_of (run_code_in_sandbox code w)))
  /\ not_before is_lookup is_run (calls_of (run_code_in_sandbox code w)) = true
  /\ (forall c, containers w !! container_name = Some c ->
        not_before (is_forced_removal_of (Handle container_name (c_id c)))
          is_run (calls_of (run_code_in_sandbox code w)) = true)
  /\ (containers w !! container_name = None ->
        Forall (fun e => is_NotFound_exactly e = false)
          (caught (calls_of (run_code_in_sandbox code w)))
        /\ List.filter is_pre_cleanup (calls_of (run_code_in_sandbox code w))
           = []).
Proof.
  revert w. intros [imgs cs nid fs fl]. cbn [containers].
  apply (wp_intro (run_code_in_sandbox code) _
    (fun r : run ExecutionResult =>
       Forall (fun e => is_Conflict e = false) (caught (calls_of r))
       /\ Forall (fun e => e = CallContainersGet container_name)
            (List.filter is_lookup (calls_of r))
       /\ not_before is_lookup is_run (calls_of r) = true
       /\ (forall c, cs !! container_name = Some c ->
             not_before (is_forced_removal_of (Handle container_name (c_id c)))
               is_run (calls_of r) = true)
       /\ (cs !! container_name = None ->
             Forall (fun e => is_NotFound_exactly e = false) (caught (calls_of r))
             /\ List.filter is_pre_cleanup (calls_of r) = []))).
  wp_run; leaf; repeat apply conj; intros; simplify_eq; leaf;
    rewrite ?bool_decide_eq_true_2 by reflexivity;
    repeat constructor.
Qed.

(** The calls of a run up to the new container, when the daemon
    serves every request and holds the image: the lookup of the
    reserved name, the forced removal of the container found there,
    and the request of the new one, which the daemon grants. *)
Lemma served_run_reclaims code w :
  faults w = [] ->
  python_image ∈ images w ->
  exists rest,
    calls_of (run_code_in_sandbox code w)
    = [CallSandbox code; CallFromEnv; CallImagesGet python_image;
       CallContainersGet container_name]
      ++ match containers w !! container_name with
         | Some c =>
             [CallRemove PreCleanup (Handle container_name (c_id c)) true]
         | None => []
         end
      ++ [Log INFO CreatingContainer; CallRun (sandbox_request code);
          RunReturned (Handle container_name (next_id w))]
      ++ rest.
Proof.
  revert w. intros [imgs cs nid fs fl] Hf Himg.
  cbn [faults images containers next_id] in *. subst fl. revert Himg.
  apply (wp_intro (run_code_in_sandbox code) _
    (fun r : run ExecutionResult =>
       python_image ∈ imgs ->
       exists rest,
         calls_of r
         = [CallSandbox code; CallFromEnv; CallImagesGet python_image;
            CallContainersGet container_name]
           ++ match cs !! container_name with
              | Some c =>
                  [CallRemove PreCleanup (Handle container_name (c_id c))
                     true]
              | None => []
              end
           ++ [Log INFO CreatingContainer; CallRun (sandbox_request code);
               RunReturned (Handle container_name nid)]
           ++ rest)).
  wp_run; leaf; rewrite ?app_nil_r in *; cbn [app] in *; intros Himg;
    try contradiction; simplify_eq;
    repeat match goal with Hx : ?x = _ |- context [?x] => rewrite Hx end;
    cbn [app c_id]; eexists; reflexivity.
Qed.

(** C3: the second of two consecutive runs never ends in its [except]
    clause because the reserved name is taken.  It looks the container
    up by the fixed name before it asks for a new one; a container the
    first run left under that name is forcibly removed before the new
    one is requested; and when there is none, the failed lookup is not
    an error of the run and nothing is removed.  When the daemon
    serves the requests of the second run and holds the image, the
    lookup is made, the leftover is removed by force and the new
    container is granted under the reserved name. *)
Theorem second_run_reclaims_the_name code1 code2 w :
  Forall (fun e => is_Conflict e = false)
    (caught (calls_of
       (run_code_in_sandbox code2 (state_of (run_code_in_sandbox code1 w)))))
  /\ Forall (fun e => e = CallContainersGet container_name)
       (List.filter is_lookup (calls_of
          (run_code_in_sandbox code2 (state_of (run_code_in_sandbox code1 w)))))
  /\ not_before is_lookup is_run (calls_of
       (run_code_in_sandbox code2 (state_of (run_code_in_sandbox code1 w))))
     = true
  /\ (forall c,
        containers (state_of (run_code_in_sandbox code1 w)) !! container_name
        = Some c ->
        not_before (is_forced_removal_of (Handle container_name (c_id c)))
          is_run (calls_of
            (run_code_in_sandbox code2 (state_of (run_code_in_sandbox code1 w))))
        = true)
  /\ (containers (state_of (run_code_in_sandbox code1 w)) !! container_name
      = None ->
        Forall (fun e => is_NotFound_exactly e = false)
          (caught (calls_of
             (run_code_in_sandbox code2 (state_of (run_code_in_sandbox code1 w)))))
        /\ List.filter is_pre_cleanup (calls_of
             (run_code_in_sandbox code2 (state_of (run_code_in_sandbox code1 w))))
           = [])
  /\ (faults (state_of (run_code_in_sandbox code1 w)) = [] ->
      python_image ∈ images (state_of (run_code_in_sandbox code1 w)) ->
      exists rest,
        calls_of
          (run_code_in_sandbox code2 (state_of (run_code_in_sandbox code1 w)))
        = [CallSandbox code2; CallFromEnv; CallImagesGet python_image;
           CallContainersGet container_name]
          ++ match containers (state_of (run_code_in_sandbox code1 w))
                     !! container_name with
             | Some c =>
                 [CallRemove PreCleanup (Handle container_name (c_id c))
                    true]
             | None => []
             end
          ++ [Log INFO CreatingContainer; CallRun (sandbox_request code2);
              RunReturned
                (Handle container_name
                   (next_id (state_of (run_code_in_sandbox code1 w))))]
          ++ rest).
Proof.
  pose proof (reclaims_the_name code2
                (state_of (run_code_in_sandbox code1 w)))
    as (H1 & H2 & H3 & H4 & H5).
  repeat (split; [assumption|]).
  apply served_run_reclaims.
Qed.

(** A run in which the daemon serves every request. *)
Lemma run_served code w :
  faults w = [] ->
  outcome_of (run_code_in_sandbox code w)
  = served_outcome code (images w) (files w)
  /\ images (state_of (run_code_in_sandbox code w)) = images w
  /\ faults (state_of (run_code_in_sandbox code w)) = []
  /\ files (state_of (run_code_in_sandbox code w))
     = served_files code (images w) (files w).
Proof.
  revert w. intros [imgs cs nid fs fl] Hf. cbn [faults images files] in *.
  subst fl. unfold served_outcome, served_files.
  apply (wp_intro (run_code_in_sandbox code) _
    (fun r : run ExecutionResult =>
       outcome_of r
       = (if decide (python_image ∈ imgs) then
            match sandbox_exec (sandbox_request code) fs with
            | Exits out err st _ =>
                match decode_utf8 out with
                | Some so =>
                    match decode_utf8 err with
                    | Some se => Returned (Result so se (default 0%Z st))
                    | None =>
                        Returned
                          (Result [] (exn_str (UnicodeDecodeError err)) (-1)%Z)
                    end
                | None =>
                    Returned
                      (Result [] (exn_str (UnicodeDecodeError out)) (-1)%Z)
                end
            | Hangs => Blocked
            end
          else Returned (Result [] (exn_str (ImageNotFound python_image)) (-1)%Z))
       /\ images (state_of r) = imgs
       /\ faults (state_of r) = []
       /\ files (state_of r)
          = (if decide (python_image ∈ imgs) then
               match sandbox_exec (sandbox_request code) fs with
               | Exits _ _ _ fs' => fs'
               | Hangs => fs
               end
             else fs))).
  wp_run; leaf; rewrite ?app_nil_r in *; cbn [app] in *;
    repeat match goal with Hx : ?x = _ |- context [?x] => rewrite Hx end;
    auto.
Qed.

(** C5, as amended: when the daemon serves every request, the image
    is there and the process of the code exits with a standard output
    and a standard error that are both UTF-8, the run returns the
    decoded standard output, the decoded standard error, each from its
    own stream, and the status code of the process, or 0 when none is
    reported; in particular a process that exits 0, writes nothing to
    its standard error and UTF-8 to its standard output gives its
    standard output and exit code 0. *)
Theorem normal_exit_is_reported code w out err st fs' so se :
  faults w = [] ->
  python_image ∈ images w ->
  sandbox_exec (sandbox_request code) (files w) = Exits out err st fs' ->
  decode_utf8 out = Some so ->
  decode_utf8 err = Some se ->
  outcome_of (run_code_in_sandbox code w)
  = Returned (Result so se (match st with Some n => n | None => 0%Z end))
  /\ (st = Some 0%Z -> err = [] ->
      outcome_of (run_code_in_sandbox code w) = Returned (Result so [] 0%Z)).
Proof.
  intros Hf Himg Hexec Hout Herr.
  destruct (run_served code w Hf) as (Ho & _). rewrite Ho.
  unfold served_outcome. rewrite decide_True by assumption.
  rewrite Hexec, Hout, Herr. split.
  - destruct st; reflexivity.
  - intros -> ->. cbn in Herr. injection Herr as <-. reflexivity.
Qed.

(** The requests of a run and the files it leaves. *)
Lemma requests_of_run code w :
  Forall (fun req => req = sandbox_request code)
    (run_requests (calls_of (run_code_in_sandbox code w)))
  /\ (files (state_of (run_code_in_sandbox code w)) = files w
      \/ exists out err st,
           sandbox_exec (sandbox_request code) (files w)
           = Exits out err st (files (state_of (run_code_in_sandbox code w)))).
Proof.
  revert w. intros [imgs cs nid fs fl]. cbn [files].
  apply (wp_intro (run_code_in_sandbox code) _
    (fun r : run ExecutionResult =>
       Forall (fun req => req = sandbox_request code)
         (run_requests (calls_of r))
       /\ (files (state_of r) = fs
           \/ exists out err st,
                sandbox_exec (sandbox_request code) fs
                = Exits out err st (files (state_of r))))).
  wp_run; leaf; (split; [repeat constructor | eauto]).
Qed.

(** C6, as amended: the runner takes the code string only.  Every
    request it makes for a container binds the fixed host directory
    read-write at [/app/workspace] and passes the code as the argument
    of [python -c]; the runner writes no file itself: the files it
    leaves are those it found or those the process left; and when the
    daemon serves every request and holds the image, that request is
    made. *)
Theorem fixed_workspace_is_bound code w :
  Forall (fun req =>
            req = RunRequest (py "data-analyst-image")
                    [py "python"; py "-c"; code]
                    (py "data-analyst-agent-sandbox") true false
                    [Volume
                       (py "C:\Users\23f20\OneDrive\Documents\data analyst agent\workspace")
                       (py "/app/workspace") (py "rw")])
    (run_requests (calls_of (run_code_in_sandbox code w)))
  /\ (files (state_of (run_code_in_sandbox code w)) = files w
      \/ exists out err st,
           sandbox_exec (sandbox_request code) (files w)
           = Exits out err st (files (state_of (run_code_in_sandbox code w))))
  /\ (faults w = [] -> python_image ∈ images w ->
      run_requests (calls_of (run_code_in_sandbox code w))
      = [sandbox_request code]).
Proof.
  destruct (requests_of_run code w) as (Hreq & Hfiles).
  split; [exact Hreq | split; [exact Hfiles |]].
  revert w Hreq Hfiles. intros [imgs cs nid fs fl] _ _ Hf Himg.
  cbn [faults images] in *. subst fl. revert Himg.
  apply (wp_intro (run_code_in_sandbox code) _
    (fun r : run ExecutionResult =>
       python_image ∈ imgs ->
       run_requests (calls_of r) = [sandbox_request code])).
  wp_run; leaf; intros Himg; try contradiction; reflexivity.
Qed.
End Runner.

(** ** The orchestrator, stage by stage *)

Section Pipeline.
Context `{Collaborators}.

Lemma wp_remove_if_exists path w Q :
  Q (Returned tt) (set_files (delete path (files w)) w)
    (if bool_decide (is_Some (files w !! path))
     then [CallOsRemove path] else []) ->
  wp (remove_if_exists path) w Q.
Proof.
  intros HQ. unfold wp, remove_if_exists, os_path_exists, os_remove, and_then,
    get_world, ret, emit, update_world.
  destruct (bool_decide (is_Some (files w !! path))) eqn:Hp; cbn [app].
  - exact HQ.
  - apply bool_decide_eq_false in Hp.
    rewrite <- eq_None_not_Some in Hp.
    rewrite (delete_id _ _ Hp) in HQ. destruct w. exact HQ.
Qed.

Lemma wp_eq {S A} (m : M S A) (s : S) (r : outcome A * S * list event) :
  wp m s (fun o s' t => (o, s', t) = r) -> m s = r.
Proof. unfold wp. destruct (m s) as [[o s'] t]. auto. Qed.

Lemma wp_stderr_or_missing result path w Q :
  Q (Returned (stage_failedb result (Some path) w)) w [] ->
  wp (stderr_or_missing result path) w Q.
Proof.
  unfold wp, stderr_or_missing, stage_failedb, os_path_exists, and_then,
    get_world, ret.
  destruct (truthy (stderr result)); cbn [orb app]; auto.
Qed.

(** The [try] statement around [json.loads] and [JSONResponse]. *)
Lemma wp_final_answer raw w Q :
  Q (fst (answered raw)) w (snd (answered raw)) ->
  wp (try_except is_JSONDecodeError_or_IndexError
        (let* final_answer := call_json_loads raw in
         logger_info Completed >>
         JSONResponse_200 final_answer)
        (fun _ =>
           logger_error (ParseFailed raw) >>
           ret (error_response parse_error))) w Q.
Proof.
  unfold wp, answered, try_except, and_then, call_json_loads,
    JSONResponse_200, logger_info, logger_error, emit, ret, raise.
  destruct (json_loads raw) as [v|e].
  - destruct (json_render v) as [e|]; [|auto].
    destruct (is_JSONDecodeError_or_IndexError e); auto.
  - destruct (is_JSONDecodeError_or_IndexError e); auto.
Qed.
End Pipeline.

Ltac wp_stage :=
  lazymatch goal with
  | |- wp (run_code_in_sandbox ?c) ?s _ =>
      lazymatch goal with
      | E : run_code_in_sandbox c s = _ |- _ => apply (wp_known _ _ _ _ E)
      end
  | |- wp (remove_if_exists _) _ _ => apply wp_remove_if_exists
  | |- wp (stderr_or_missing _ _) _ _ => apply wp_stderr_or_missing
  | |- wp (generate _) _ _ => unfold generate
  | |- wp (create_analysis _) _ _ => unfold create_analysis
  | |- wp (try_except is_JSONDecodeError_or_IndexError _ _) _ _ =>
      apply wp_final_answer
  | _ => wp_head
  end;
  wp_simpl; unfold outcome_of, state_of, calls_of;
  cbv beta iota delta [set_files set_faults set_containers set_next_id files
                       images containers next_id faults fst snd].

Section Staged.
Context `{Collaborators}.

(** A request whose question does not decode ends before any stage. *)
Lemma create_analysis_undecodable question w :
  decode_utf8 question = None ->
  create_analysis question w = (Raised (UnicodeDecodeError question), w, []).
Proof.
  intros Hq. unfold create_analysis, and_then, decode. now rewrite Hq.
Qed.

(** One request is its three stages, each run in the state the
    previous one left, with the orchestrator's test after each. *)
Lemma create_analysis_staged question q w :
  decode_utf8 question = Some q ->
  create_analysis question w = staged q w.
Proof.
  intros Hq. destruct w as [imgs cs nid fs fl].
  unfold staged, after_stage2, after_stage3, stage3, stage2, stage1,
    clean_workspace, cleaning_calls, sampler_code, scraper_code,
    analysis_code, sampler_prompt, scraper_prompt, analysis_prompt.
  cbv beta iota zeta delta [set_files set_faults set_containers set_next_id
                            files images containers next_id faults].
  destruct (run_code_in_sandbox _ _) as [[[r1|e1|] w1] t1] eqn:E1 at 1;
    rewrite ?E1; unfold outcome_of, state_of, calls_of; cbn [fst snd];
    [destruct (stage_failedb r1 _ w1) eqn:F1| |].
  2: destruct (run_code_in_sandbox _ w1) as [[[r2|e2|] w2] t2] eqn:E2;
    cbn [fst snd]; [destruct (stage_failedb r2 _ w2) eqn:F2| |].
  3: destruct (run_code_in_sandbox _ w2) as [[[r3|e3|] w3] t3] eqn:E3;
    cbn [fst snd]; [destruct (stage_failedb r3 _ w3) eqn:F3| |].
  4: destruct (answered (stdout r3)) as [oa ta] eqn:J3.
  all: apply wp_eq; unfold create_analysis, decode; rewrite Hq.
  all: repeat wp_stage.
  all: rewrite ?F1, ?F2; cbn [stage_failedb orb] in *;
    rewrite ?orb_false_r in *;
    repeat match goal with
    | Hx : ?x = _ |- context [?x] => rewrite Hx
    end;
    repeat wp_stage.
  all: try (f_equal; rewrite <- ?app_assoc; cbn [app];
            rewrite ?app_nil_r; reflexivity).
  all: unfold stage_failedb in *;
    repeat match goal with
    | Hx : truthy ?x = _, Hy : context [truthy ?x] |- _ => rewrite Hx in Hy
    end;
    cbn [orb] in *; try discriminate.
  all: f_equal; rewrite <- ?app_assoc; cbn [app]; rewrite ?app_nil_r;
    reflexivity.
Qed.

(** The orchestrator's test, as a proposition. *)
Lemma truthy_spec (s : pystr) : truthy s = true <-> s <> [].
Proof. destruct s; cbn; split; congruence. Qed.

Lemma stage_failedb_spec r expected w :
  stage_failedb r expected w = true <-> stage_failed r expected w.
Proof.
  unfold stage_failedb, stage_failed. rewrite orb_true_iff, truthy_spec.
  destruct expected as [path|].
  - rewrite negb_true_iff, bool_decide_eq_false, <- eq_None_not_Some. tauto.
  - intuition discriminate.
Qed.

Lemma stage_passed_spec r expected w :
  stage_failedb r expected w = false <-> ~ stage_failed r expected w.
Proof.
  rewrite <- stage_failedb_spec. destruct (stage_failedb r expected w);
    intuition congruence.
Qed.

Lemma stage_passed_intro r path w :
  stderr r = [] -> is_Some (files w !! path) ->
  stage_failedb r (Some path) w = false.
Proof.
  intros Hs Hf. unfold stage_failedb. rewrite Hs. cbn [truthy orb].
  now rewrite bool_decide_eq_true_2.
Qed.

Lemma stage3_passed_intro r w :
  stderr r = [] -> stage_failedb r None w = false.
Proof. intros Hs. unfold stage_failedb. now rewrite Hs. Qed.

(** The four messages are distinct. *)
Lemma error_messages_distinct :
  stage1_error <> stage2_error /\ stage1_error <> stage3_error
  /\ stage2_error <> stage3_error /\ parse_error <> stage1_error
  /\ parse_error <> stage2_error /\ parse_error <> stage3_error.
Proof. repeat split; intros Heq; vm_compute in Heq; discriminate. Qed.

Lemma error_response_inj m1 m2 :
  error_response m1 = error_response m2 -> m1 = m2.
Proof. unfold error_response. congruence. Qed.

(** Calls of a sequence. *)
Lemma submitted_app t1 t2 : submitted (t1 ++ t2) = submitted t1 ++ submitted t2.
Proof.
  induction t1 as [|[] t1 IH]; cbn [app submitted]; auto. now rewrite IH.
Qed.

Lemma prompted_app t1 t2 : prompted (t1 ++ t2) = prompted t1 ++ prompted t2.
Proof.
  induction t1 as [|[] t1 IH]; cbn [app prompted]; auto. now rewrite IH.
Qed.

Lemma run_requests_app t1 t2 :
  run_requests (t1 ++ t2) = run_requests t1 ++ run_requests t2.
Proof.
  induction t1 as [|[] t1 IH]; cbn [app run_requests]; auto. now rewrite IH.
Qed.

Lemma cleaning_calls_are_removals w :
  submitted (cleaning_calls w) = [] /\ prompted (cleaning_calls w) = []
  /\ run_requests (cleaning_calls w) = []
  /\ List.filter is_sandbox (cleaning_calls w) = [].
Proof.
  unfold cleaning_calls.
  destruct (bool_decide _), (bool_decide _); cbn; auto.
Qed.

(** The outcome of a request, by the stage that ends it. *)
Lemma staged_stage1_failed q w r1 :
  outcome_of (stage1 w) = Returned r1 ->
  stage_failedb r1 (Some sampler_output_file) (state_of (stage1 w)) = true ->
  staged q w
  = (Returned (error_response stage1_error), state_of (stage1 w),
     cleaning_calls w
     ++ [Log INFO (StartingStage 1); CallGenerate sampler_prompt]
     ++ calls_of (stage1 w)).
Proof. intros Ho Hf. unfold staged. cbv zeta. now rewrite Ho, Hf. Qed.

Lemma staged_stage1_passed q w r1 :
  outcome_of (stage1 w) = Returned r1 ->
  stage_failedb r1 (Some sampler_output_file) (state_of (stage1 w)) = false ->
  staged q w
  = (outcome_of (after_stage2 q w), state_of (after_stage2 q w),
     (cleaning_calls w
      ++ [Log INFO (StartingStage 1); CallGenerate sampler_prompt]
      ++ calls_of (stage1 w))
     ++ calls_of (after_stage2 q w)).
Proof.
  intros Ho Hf. unfold staged. cbv zeta. rewrite Ho, Hf.
  now destruct (after_stage2 q w) as [[o w'] t].
Qed.

Lemma staged_stage2_failed q w r2 :
  outcome_of (stage2 w) = Returned r2 ->
  stage_failedb r2 (Some final_csv_file) (state_of (stage2 w)) = true ->
  after_stage2 q w
  = (Returned (error_response stage2_error), state_of (stage2 w),
     ([Log INFO (StartingStage 2); CallGenerate scraper_prompt]
      ++ calls_of (stage2 w))
     ++ [Log ERROR (StageFailed 2 r2)]).
Proof. intros Ho Hf. unfold after_stage2. cbv zeta. now rewrite Ho, Hf. Qed.

Lemma staged_stage2_passed q w r2 :
  outcome_of (stage2 w) = Returned r2 ->
  stage_failedb r2 (Some final_csv_file) (state_of (stage2 w)) = false ->
  after_stage2 q w
  = (outcome_of (after_stage3 q w), state_of (after_stage3 q w),
     ([Log INFO (StartingStage 2); CallGenerate scraper_prompt]
      ++ calls_of (stage2 w))
     ++ calls_of (after_stage3 q w)).
Proof.
  intros Ho Hf. unfold after_stage2. cbv zeta. rewrite Ho, Hf.
  now destruct (after_stage3 q w) as [[o w'] t].
Qed.

Lemma staged_stage3_returned q w r3 :
  outcome_of (stage3 q w) = Returned r3 ->
  after_stage3 q w
  = (if truthy (stderr r3)
     then (Returned (error_response stage3_error), state_of (stage3 q w),
           ([Log INFO (StartingStage 3); CallGenerate (analysis_prompt q)]
            ++ calls_of (stage3 q w))
           ++ [Log ERROR (StageFailed 3 r3)])
     else (fst (answered (stdout r3)), state_of (stage3 q w),
           ([Log INFO (StartingStage 3); CallGenerate (analysis_prompt q)]
            ++ calls_of (stage3 q w))
           ++ snd (answered (stdout r3)))).
Proof.
  intros Ho. unfold after_stage3. cbv zeta. rewrite Ho.
  unfold stage_failedb. rewrite orb_false_r.
  now destruct (answered (stdout r3)).
Qed.

Lemma Returned_inj {A} (a b : A) : Returned a = Returned b -> a = b.
Proof. congruence. Qed.

(** The answer to a request whose stages have passed: status 200 with
    the value [json.loads] returned, when the response can be built
    from it; the parse error, when [json.loads] or the building of the
    response raises [JSONDecodeError] or [IndexError]; and any other
    exception of the two is raised. *)
Lemma answered_cases raw :
  (exists v, json_loads raw = inl v /\ json_render v = None
             /\ answered raw = (Returned (Response 200 v),
                                [Log INFO Completed]))
  \/ (exists e t, is_JSONDecodeError_or_IndexError e = true
                  /\ answered raw
                     = (Returned (error_response parse_error), t))
  \/ (exists e t, is_JSONDecodeError_or_IndexError e = false
                  /\ (json_loads raw = inr e
                      \/ exists v, json_loads raw = inl v
                                   /\ json_render v = Some e)
                  /\ answered raw = (Raised e, t)).
Proof.
  unfold answered. destruct (json_loads raw) as [v|e].
  - destruct (json_render v) as [e|] eqn:Hr; [|left; eauto].
    destruct (is_JSONDecodeError_or_IndexError e) eqn:He;
      [right; left|right; right]; eauto 8.
  - destruct (is_JSONDecodeError_or_IndexError e) eqn:He;
      [right; left|right; right]; eauto 8.
Qed.

(** The answer is made without the generator, the runner and the
    files. *)
Lemma answered_calls raw :
  submitted (snd (answered raw)) = [] /\ prompted (snd (answered raw)) = []
  /\ run_requests (snd (answered raw)) = []
  /\ List.filter is_os_remove (snd (answered raw)) = [].
Proof.
  unfold answered. destruct (json_loads raw) as [v|e].
  - destruct (json_render v) as [e|]; [|cbn; auto].
    destruct (is_JSONDecodeError_or_IndexError e); cbn; auto.
  - destruct (is_JSONDecodeError_or_IndexError e); cbn; auto.
Qed.

Lemma answered_outcome raw :
  fst (answered raw) <> Returned (error_response stage1_error)
  /\ fst (answered raw) <> Returned (error_response stage2_error)
  /\ fst (answered raw) <> Returned (error_response stage3_error).
Proof.
  destruct error_messages_distinct as (H12 & H13 & H23 & Hp1 & Hp2 & Hp3).
  destruct (answered_cases raw)
    as [(v & _ & _ & ->)|[(e & t & _ & ->)|(e & t & _ & _ & ->)]];
    cbn [fst]; repeat split;
    first [ intros Heq%Returned_inj%error_response_inj; congruence
          | intros Heq%Returned_inj; unfold error_response in Heq;
            inversion Heq
          | intros Heq; inversion Heq ].
Qed.

(** What a request that got past a stage can still answer. *)
Lemma after_stage3_outcome q w :
  outcome_of (after_stage3 q w) <> Returned (error_response stage1_error)
  /\ outcome_of (after_stage3 q w) <> Returned (error_response stage2_error).
Proof.
  destruct error_messages_distinct as (H12 & H13 & H23 & Hp1 & Hp2 & Hp3).
  unfold after_stage3. cbv zeta.
  destruct (outcome_of (stage3 q w)) as [r3|e|]; cbn [outcome_of fst];
    [|split; intros Heq; inversion Heq|split; intros Heq; inversion Heq].
  destruct (stage_failedb r3 None _); cbn [outcome_of fst].
  - split; intros Heq%Returned_inj%error_response_inj; congruence.
  - destruct (answered_outcome (stdout r3)) as (H1 & H2 & _).
    destruct (answered (stdout r3)) as [o t]. cbn [outcome_of fst] in *.
    auto.
Qed.

Lemma after_stage2_outcome q w :
  outcome_of (after_stage2 q w) <> Returned (error_response stage1_error).
Proof.
  destruct error_messages_distinct as (H12 & H13 & H23 & Hp1 & Hp2 & Hp3).
  unfold after_stage2. cbv zeta.
  destruct (outcome_of (stage2 w)) as [r2|e|]; cbn [outcome_of fst];
    [|intros Heq; inversion Heq|intros Heq; inversion Heq].
  destruct (stage_failedb r2 _ _); cbn [outcome_of fst].
  - intros Heq%Returned_inj%error_response_inj. congruence.
  - pose proof (after_stage3_outcome q w) as [H1 _].
    unfold outcome_of in H1.
    now destruct (after_stage3 q w) as [[o w'] t].
Qed.

(** The codes, prompts and requests of one stage. *)
Lemma stage_calls code w' (record : log_record) p :
  submitted ([Log INFO record; CallGenerate p]
             ++ calls_of (run_code_in_sandbox code w')) = [code]
  /\ prompted ([Log INFO record; CallGenerate p]
               ++ calls_of (run_code_in_sandbox code w')) = [p]
  /\ Forall (fun req => req = sandbox_request code)
       (run_requests ([Log INFO record; CallGenerate p]
                      ++ calls_of (run_code_in_sandbox code w'))).
Proof.
  destruct (run_calls code w') as (Hs & Hp & _ & Hr).
  cbn [app submitted prompted run_requests]. now rewrite Hs, Hp.
Qed.

Lemma stage1_calls w :
  submitted (cleaning_calls w
             ++ [Log INFO (StartingStage 1); CallGenerate sampler_prompt]
             ++ calls_of (stage1 w)) = [sampler_code]
  /\ prompted (cleaning_calls w
               ++ [Log INFO (StartingStage 1); CallGenerate sampler_prompt]
               ++ calls_of (stage1 w)) = [sampler_prompt]
  /\ Forall (fun req => req = sandbox_request sampler_code)
       (run_requests (cleaning_calls w
               ++ [Log INFO (StartingStage 1); CallGenerate sampler_prompt]
               ++ calls_of (stage1 w))).
Proof.
  destruct (cleaning_calls_are_removals w) as (Hs & Hp & Hr & _).
  destruct (stage_calls sampler_code (clean_workspace w) (StartingStage 1)
              sampler_prompt) as (Hs1 & Hp1 & Hr1).
  unfold stage1.
  rewrite submitted_app, prompted_app, run_requests_app, Hs, Hp, Hr.
  cbn [app]. auto.
Qed.

Lemma stage2_calls w (last : list event) :
  submitted last = [] -> prompted last = [] -> run_requests last = [] ->
  submitted (([Log INFO (StartingStage 2); CallGenerate scraper_prompt]
              ++ calls_of (stage2 w)) ++ last) = [scraper_code]
  /\ prompted (([Log INFO (StartingStage 2); CallGenerate scraper_prompt]
                ++ calls_of (stage2 w)) ++ last) = [scraper_prompt]
  /\ Forall (fun req => req = sandbox_request scraper_code)
       (run_requests (([Log INFO (StartingStage 2); CallGenerate scraper_prompt]
                       ++ calls_of (stage2 w)) ++ last)).
Proof.
  intros Hs Hp Hr.
  destruct (stage_calls scraper_code (state_of (stage1 w)) (StartingStage 2)
              scraper_prompt) as (Hs1 & Hp1 & Hr1).
  unfold stage2.
  rewrite submitted_app, prompted_app, run_requests_app, Hs, Hp, Hr, !app_nil_r.
  auto.
Qed.

Lemma stage3_calls q w (last : list event) :
  submitted last = [] -> prompted last = [] -> run_requests last = [] ->
  submitted (([Log INFO (StartingStage 3); CallGenerate (analysis_prompt q)]
              ++ calls_of (stage3 q w)) ++ last) = [analysis_code q]
  /\ prompted (([Log INFO (StartingStage 3); CallGenerate (analysis_prompt q)]
                ++ calls_of (stage3 q w)) ++ last) = [analysis_prompt q]
  /\ Forall (fun req => req = sandbox_request (analysis_code q))
       (run_requests (([Log INFO (StartingStage 3);
                        CallGenerate (analysis_prompt q)]
                       ++ calls_of (stage3 q w)) ++ last)).
Proof.
  intros Hs Hp Hr.
  destruct (stage_calls (analysis_code q) (state_of (stage2 w))
              (StartingStage 3) (analysis_prompt q)) as (Hs1 & Hp1 & Hr1).
  unfold stage3.
  rewrite submitted_app, prompted_app, run_requests_app, Hs, Hp, Hr, !app_nil_r.
  auto.
Qed.

Lemma after_stage3_calls q w :
  submitted (calls_of (after_stage3 q w)) = [analysis_code q]
  /\ prompted (calls_of (after_stage3 q w)) = [analysis_prompt q]
  /\ Forall (fun req => req = sandbox_request (analysis_code q))
       (run_requests (calls_of (after_stage3 q w))).
Proof.
  unfold after_stage3. cbv zeta.
  destruct (outcome_of (stage3 q w)) as [r3|e|];
    [destruct (stage_failedb r3 None _);
     [|destruct (answered_calls (stdout r3)) as (Ha1 & Ha2 & Ha3 & _);
       destruct (answered (stdout r3)) as [oa ta]; cbn [snd] in *]| |];
    cbn [calls_of snd];
    try (apply stage3_calls; first [reflexivity|assumption]);
    rewrite <- (app_nil_r (_ ++ calls_of (stage3 q w)));
    apply stage3_calls; reflexivity.
Qed.

(** C4: after each stage the orchestrator answers with the error of
    that stage and status 500 exactly when the stage's standard error
    is not empty or its output file is missing, whatever its exit code
    is, and then no later stage is generated or run. *)
Theorem failed_stage_aborts question q w :
  decode_utf8 question = Some q ->
  (forall r1,
     outcome_of (stage1 w) = Returned r1 ->
     (stage_failed r1 (Some sampler_output_file) (state_of (stage1 w))
      <-> outcome_of (create_analysis question w)
          = Returned (Response 500 (JObject [(py "error", JString stage1_error)])))
     /\ (stage_failed r1 (Some sampler_output_file) (state_of (stage1 w)) ->
         submitted (calls_of (create_analysis question w)) = [sampler_code]
         /\ prompted (calls_of (create_analysis question w))
            = [sampler_prompt]))
  /\ (forall r1 r2,
        outcome_of (stage1 w) = Returned r1 ->
        ~ stage_failed r1 (Some sampler_output_file) (state_of (stage1 w)) ->
        outcome_of (stage2 w) = Returned r2 ->
        (stage_failed r2 (Some final_csv_file) (state_of (stage2 w))
         <-> outcome_of (create_analysis question w)
             = Returned (Response 500 (JObject [(py "error", JString stage2_error)])))
        /\ (stage_failed r2 (Some final_csv_file) (state_of (stage2 w)) ->
            submitted (calls_of (create_analysis question w))
            = [sampler_code; scraper_code]
            /\ prompted (calls_of (create_analysis question w))
               = [sampler_prompt; scraper_prompt]))
  /\ (forall r1 r2 r3,
        outcome_of (stage1 w) = Returned r1 ->
        ~ stage_failed r1 (Some sampler_output_file) (state_of (stage1 w)) ->
        outcome_of (stage2 w) = Returned r2 ->
        ~ stage_failed r2 (Some final_csv_file) (state_of (stage2 w)) ->
        outcome_of (stage3 q w) = Returned r3 ->
        (stage_failed r3 None (state_of (stage3 q w))
         <-> outcome_of (create_analysis question w)
             = Returned (Response 500 (JObject [(py "error", JString stage3_error)])))).
Proof.
  intros Hq. rewrite (create_analysis_staged _ _ _ Hq).
  destruct error_messages_distinct as (H12 & H13 & H23 & Hp1 & Hp2 & Hp3).
  repeat apply conj.
  - intros r1 Ho1. rewrite <- stage_failedb_spec.
    destruct (stage_failedb r1 _ _) eqn:F1.
    + rewrite (staged_stage1_failed _ _ _ Ho1 F1). cbn [outcome_of calls_of state_of fst snd].
      destruct (stage1_calls w) as (Hs & Hp & _). rewrite Hs, Hp. tauto.
    + rewrite (staged_stage1_passed _ _ _ Ho1 F1). cbn [outcome_of calls_of state_of fst snd].
      pose proof (after_stage2_outcome q w) as Hn. unfold outcome_of in Hn.
      split; [split|]; [discriminate | tauto | discriminate].
  - intros r1 r2 Ho1 F1%stage_passed_spec Ho2. rewrite <- stage_failedb_spec.
    rewrite (staged_stage1_passed _ _ _ Ho1 F1). cbn [outcome_of calls_of state_of fst snd].
    destruct (stage1_calls w) as (Hs & Hp & _).
    rewrite submitted_app, prompted_app, Hs, Hp.
    destruct (stage_failedb r2 _ _) eqn:F2.
    + rewrite (staged_stage2_failed _ _ _ Ho2 F2). cbn [outcome_of calls_of state_of fst snd].
      destruct (stage2_calls w [Log ERROR (StageFailed 2 r2)]) as (Hs2 & Hp2' & _);
        try reflexivity.
      rewrite Hs2, Hp2'. cbn [app]. tauto.
    + rewrite (staged_stage2_passed _ _ _ Ho2 F2). cbn [outcome_of calls_of state_of fst snd].
      pose proof (after_stage3_outcome q w) as [_ Hn]. unfold outcome_of in Hn.
      split; [split|]; [discriminate | tauto | discriminate].
  - intros r1 r2 r3 Ho1 F1%stage_passed_spec Ho2 F2%stage_passed_spec Ho3.
    rewrite <- stage_failedb_spec.
    rewrite (staged_stage1_passed _ _ _ Ho1 F1). cbn [outcome_of calls_of state_of fst snd].
    rewrite (staged_stage2_passed _ _ _ Ho2 F2). cbn [outcome_of calls_of state_of fst snd].
    rewrite (staged_stage3_returned _ _ _ Ho3).
    unfold stage_failedb. rewrite orb_false_r.
    destruct (truthy (stderr r3)); cbn [outcome_of calls_of state_of fst snd]; [tauto|].
    destruct (answered_outcome (stdout r3)) as (_ & _ & Hn).
    split; [discriminate|]. intros Heq. now apply Hn in Heq.
Qed.

(** The codes, prompts and requests from the second stage on. *)
Lemma after_stage2_submissions q w :
  (submitted (calls_of (after_stage2 q w)) = [scraper_code]
   /\ prompted (calls_of (after_stage2 q w)) = [scraper_prompt]
   /\ Forall (fun req => req = sandbox_request scraper_code)
        (run_requests (calls_of (after_stage2 q w))))
  \/ (submitted (calls_of (after_stage2 q w))
      = [scraper_code; analysis_code q]
      /\ prompted (calls_of (after_stage2 q w))
         = [scraper_prompt; analysis_prompt q]
      /\ Forall (fun req => req = sandbox_request scraper_code
                            \/ req = sandbox_request (analysis_code q))
           (run_requests (calls_of (after_stage2 q w)))).
Proof.
  unfold after_stage2. cbv zeta.
  destruct (outcome_of (stage2 w)) as [r2|e|];
    [destruct (stage_failedb r2 _ _)| |]; cbn [calls_of snd].
  - left. apply stage2_calls; reflexivity.
  - right. destruct (after_stage3_calls q w) as (Hs3 & Hp3 & Hr3).
    destruct (after_stage3 q w) as [[o3 w3] t3]. cbn [calls_of snd] in *.
    destruct (stage2_calls w [] eq_refl eq_refl eq_refl) as (Hs2 & Hp2 & Hr2).
    rewrite app_nil_r in Hs2, Hp2, Hr2.
    rewrite submitted_app, prompted_app, run_requests_app, Hs2, Hp2, Hs3, Hp3.
    repeat split. apply Forall_app. split.
    + eapply Forall_impl; [exact Hr2|]. cbn. auto.
    + eapply Forall_impl; [exact Hr3|]. cbn. auto.
  - left. rewrite <- (app_nil_r (_ ++ calls_of (stage2 w))).
    apply stage2_calls; reflexivity.
  - left. rewrite <- (app_nil_r (_ ++ calls_of (stage2 w))).
    apply stage2_calls; reflexivity.
Qed.

(** A request whose three stages have passed is answered from the
    standard output of the last one alone. *)
Lemma passed_request_is_answered question q w r1 r2 r3 :
  decode_utf8 question = Some q ->
  outcome_of (stage1 w) = Returned r1 ->
  stderr r1 = [] ->
  is_Some (files (state_of (stage1 w)) !! sampler_output_file) ->
  outcome_of (stage2 w) = Returned r2 ->
  stderr r2 = [] ->
  is_Some (files (state_of (stage2 w)) !! final_csv_file) ->
  outcome_of (stage3 q w) = Returned r3 ->
  stderr r3 = [] ->
  outcome_of (create_analysis question w) = fst (answered (stdout r3)).
Proof.
  intros Hq Ho1 Hs1 Hf1 Ho2 Hs2 Hf2 Ho3 Hs3.
  rewrite (create_analysis_staged _ _ _ Hq).
  rewrite (staged_stage1_passed _ _ _ Ho1 (stage_passed_intro _ _ _ Hs1 Hf1)).
  cbn [outcome_of calls_of state_of fst snd].
  rewrite (staged_stage2_passed _ _ _ Ho2 (stage_passed_intro _ _ _ Hs2 Hf2)).
  cbn [outcome_of calls_of state_of fst snd].
  rewrite (staged_stage3_returned _ _ _ Ho3), Hs3. reflexivity.
Qed.

(** C7, at the failing input and around it: when the three stages
    have passed, the standard output of the last one is handed to
    [json.loads].  The value it returns is the body of the response,
    with status 200, when the response can be built from it, and a
    [JSONDecodeError] is answered with status 500 and an error of its
    own, which is none of the three stage errors.  But the exception
    [JSONResponse] raises for a value it cannot render, and an
    exception of [json.loads] that is no [JSONDecodeError], are not
    caught: they leave the endpoint, and there is no response. *)
Theorem final_stdout_is_parsed question q w r1 r2 r3 :
  decode_utf8 question = Some q ->
  outcome_of (stage1 w) = Returned r1 ->
  stderr r1 = [] ->
  is_Some (files (state_of (stage1 w)) !! sampler_output_file) ->
  outcome_of (stage2 w) = Returned r2 ->
  stderr r2 = [] ->
  is_Some (files (state_of (stage2 w)) !! final_csv_file) ->
  outcome_of (stage3 q w) = Returned r3 ->
  stderr r3 = [] ->
  (forall v,
     json_loads (stdout r3) = inl v -> json_render v = None ->
     outcome_of (create_analysis question w) = Returned (Response 200 v))
  /\ (forall e,
        json_loads (stdout r3) = inr e ->
        is_JSONDecodeError_or_IndexError e = true ->
        outcome_of (create_analysis question w)
        = Returned (Response 500
                      (JObject [(py "error", JString parse_error)])))
  /\ (forall v e,
        json_loads (stdout r3) = inl v -> json_render v = Some e ->
        is_JSONDecodeError_or_IndexError e = false ->
        outcome_of (create_analysis question w) = Raised e)
  /\ (forall e,
        json_loads (stdout r3) = inr e ->
        is_JSONDecodeError_or_IndexError e = false ->
        outcome_of (create_analysis question w) = Raised e)
  /\ parse_error <> stage1_error
  /\ parse_error <> stage2_error
  /\ parse_error <> stage3_error.
Proof.
  intros Hq Ho1 Hs1 Hf1 Ho2 Hs2 Hf2 Ho3 Hs3.
  destruct error_messages_distinct as (_ & _ & _ & Hp1 & Hp2 & Hp3).
  rewrite (passed_request_is_answered _ _ _ _ _ _
             Hq Ho1 Hs1 Hf1 Ho2 Hs2 Hf2 Ho3 Hs3).
  unfold answered. repeat apply conj; auto.
  - intros v -> ->. reflexivity.
  - intros e -> ->. reflexivity.
  - intros v e -> -> ->. reflexivity.
  - intros e -> ->. reflexivity.
Qed.

(** C10, at the failing input and around it: the orchestrator decides
    on the standard error, on the output file and on the standard
    output, never on the exit code: whatever exit codes the results
    carry, a stage with an empty standard error and its output file in
    place is followed by the next stage, and a last stage with an
    empty standard error and a standard output that parses is answered
    with status 200 when the response can be built from the parsed
    value.  When it cannot, the exception of [JSONResponse] leaves
    the endpoint, again whatever the exit code is. *)
Theorem exit_code_is_not_inspected question q w :
  decode_utf8 question = Some q ->
  (forall r1,
     outcome_of (stage1 w) = Returned r1 ->
     stderr r1 = [] ->
     is_Some (files (state_of (stage1 w)) !! sampler_output_file) ->
     In scraper_code (submitted (calls_of (create_analysis question w))))
  /\ (forall r1 r2,
        outcome_of (stage1 w) = Returned r1 ->
        stderr r1 = [] ->
        is_Some (files (state_of (stage1 w)) !! sampler_output_file) ->
        outcome_of (stage2 w) = Returned r2 ->
        stderr r2 = [] ->
        is_Some (files (state_of (stage2 w)) !! final_csv_file) ->
        In (analysis_code q)
          (submitted (calls_of (create_analysis question w))))
  /\ (forall r1 r2 r3 v,
        outcome_of (stage1 w) = Returned r1 ->
        stderr r1 = [] ->
        is_Some (files (state_of (stage1 w)) !! sampler_output_file) ->
        outcome_of (stage2 w) = Returned r2 ->
        stderr r2 = [] ->
        is_Some (files (state_of (stage2 w)) !! final_csv_file) ->
        outcome_of (stage3 q w) = Returned r3 ->
        stderr r3 = [] ->
        json_loads (stdout r3) = inl v ->
        match json_render v with
        | None =>
            outcome_of (create_analysis question w)
            = Returned (Response 200 v)
        | Some e =>
            is_JSONDecodeError_or_IndexError e = false ->
            outcome_of (create_analysis question w) = Raised e
        end).
Proof.
  intros Hq. repeat apply conj.
  - intros r1 Ho1 Hs1 Hf1. rewrite (create_analysis_staged _ _ _ Hq).
    rewrite (staged_stage1_passed _ _ _ Ho1 (stage_passed_intro _ _ _ Hs1 Hf1)).
    cbn [outcome_of calls_of state_of fst snd].
    rewrite submitted_app. apply in_or_app. right.
    destruct (after_stage2_submissions q w) as [(-> & _)|(-> & _)];
      cbn [In]; auto.
  - intros r1 r2 Ho1 Hs1 Hf1 Ho2 Hs2 Hf2.
    rewrite (create_analysis_staged _ _ _ Hq).
    rewrite (staged_stage1_passed _ _ _ Ho1 (stage_passed_intro _ _ _ Hs1 Hf1)).
    cbn [outcome_of calls_of state_of fst snd].
    rewrite (staged_stage2_passed _ _ _ Ho2 (stage_passed_intro _ _ _ Hs2 Hf2)).
    cbn [outcome_of calls_of state_of fst snd].
    rewrite !submitted_app. apply in_or_app. right. apply in_or_app. right.
    destruct (after_stage3_calls q w) as (-> & _). now left.
  - intros r1 r2 r3 v Ho1 Hs1 Hf1 Ho2 Hs2 Hf2 Ho3 Hs3 Hv.
    rewrite (passed_request_is_answered _ _ _ _ _ _
               Hq Ho1 Hs1 Hf1 Ho2 Hs2 Hf2 Ho3 Hs3).
    unfold answered. rewrite Hv.
    destruct (json_render v) as [e|]; [|reflexivity]. now intros ->.
Qed.

(** The codes handed to the runner in one request are the stripped
    responses to the prompts handed to the generator. *)
Lemma staged_submissions q w :
  forall code, In code (submitted (calls_of (staged q w))) ->
    exists prompt,
      In prompt (prompted (calls_of (staged q w)))
      /\ code = strip_fences (generate_content prompt).
Proof.
  unfold staged. cbv zeta.
  destruct (stage1_calls w) as (Hs1 & Hp1 & _).
  destruct (outcome_of (stage1 w)) as [r1|e|];
    [destruct (stage_failedb r1 _ _)| |]; cbn [calls_of snd].
  2: { destruct (after_stage2_submissions q w) as [(Hs & Hp & _)|(Hs & Hp & _)];
       destruct (after_stage2 q w) as [[o2 w2] t2]; cbn [calls_of snd] in *;
       rewrite submitted_app, prompted_app, Hs1, Hp1, Hs, Hp;
       cbn [app In]; intros code Hin;
       repeat destruct Hin as [<-|Hin]; try contradiction;
       [exists sampler_prompt | exists scraper_prompt
       | exists sampler_prompt | exists scraper_prompt
       | exists (analysis_prompt q)]; cbn [In]; auto 6. }
  all: rewrite Hs1, Hp1; intros code [<-|[]]; exists sampler_prompt;
    cbn [In]; auto.
Qed.

Lemma staged_requests q w :
  forall req, In req (run_requests (calls_of (staged q w))) ->
    exists code,
      In code (submitted (calls_of (staged q w)))
      /\ req = sandbox_request code.
Proof.
  unfold staged. cbv zeta.
  destruct (stage1_calls w) as (Hs1 & Hp1 & Hr1).
  rewrite List.Forall_forall in Hr1.
  destruct (outcome_of (stage1 w)) as [r1|e|];
    [destruct (stage_failedb r1 _ _)| |]; cbn [calls_of snd].
  2: { destruct (after_stage2_submissions q w) as [(Hs & Hp & Hr)|(Hs & Hp & Hr)];
       rewrite List.Forall_forall in Hr;
       destruct (after_stage2 q w) as [[o2 w2] t2]; cbn [calls_of snd] in *;
       rewrite submitted_app, run_requests_app, Hs1, Hs;
       intros req [Hin|Hin]%in_app_or.
       - exists sampler_code. cbn [app In]. split; [auto|]. apply Hr1, Hin.
       - exists scraper_code. cbn [app In]. split; [auto|]. apply Hr, Hin.
       - exists sampler_code. cbn [app In]. split; [auto|]. apply Hr1, Hin.
       - destruct (Hr _ Hin) as [->| ->];
           [exists scraper_code | exists (analysis_code q)];
           cbn [app In]; auto. }
  all: rewrite Hs1; intros req Hin; exists sampler_code; cbn [In]; auto.
Qed.

(** The scripts of a request are the stripped responses to its
    prompts, one for one, and the first stage is always generated and
    handed to the runner. *)
Lemma staged_submissions_in_order q w :
  submitted (calls_of (staged q w))
  = map (fun prompt => strip_fences (generate_content prompt))
      (prompted (calls_of (staged q w)))
  /\ exists rest, prompted (calls_of (staged q w)) = sampler_prompt :: rest.
Proof.
  unfold staged. cbv zeta.
  destruct (stage1_calls w) as (Hs1 & Hp1 & _).
  destruct (outcome_of (stage1 w)) as [r1|e|];
    [destruct (stage_failedb r1 _ _)| |]; cbn [calls_of snd].
  2: { destruct (after_stage2_submissions q w) as [(Hs & Hp & _)|(Hs & Hp & _)];
       destruct (after_stage2 q w) as [[o2 w2] t2]; cbn [calls_of snd] in *;
       rewrite submitted_app, prompted_app, Hs1, Hp1, Hs, Hp;
       cbn [app map]; split; eauto. }
  all: rewrite Hs1, Hp1; cbn [map]; split; eauto.
Qed.

Lemma staged_starts_with_stage1 q w :
  exists rest,
    calls_of (staged q w)
    = (cleaning_calls w
       ++ [Log INFO (StartingStage 1); CallGenerate sampler_prompt]
       ++ calls_of (stage1 w))
      ++ rest.
Proof.
  unfold staged. cbv zeta.
  destruct (outcome_of (stage1 w)) as [r1|e|];
    [destruct (stage_failedb r1 _ _);
     [|destruct (after_stage2 q w) as [[o2 w2] t2]]| |];
    cbn [calls_of snd]; eauto;
    exists []; now rewrite app_nil_r.
Qed.

(** A run that the daemon serves asks for the container of its
    script. *)
Lemma served_run_requests code w :
  faults w = [] ->
  python_image ∈ images w ->
  In (sandbox_request code)
    (run_requests (calls_of (run_code_in_sandbox code w))).
Proof.
  intros Hf Himg.
  destruct (served_run_reclaims code w Hf Himg) as (rest & ->).
  destruct (containers w !! container_name);
    cbn [app run_requests In]; auto.
Qed.

(** C9, as amended: in every request the scripts handed to the runner
    are the responses of the generator to the prompts of the request,
    one for one, each with every [```python] and then every [```]
    removed and its ends stripped; the first of them is always handed
    over, and a served run passes it as the argument of [python -c];
    no stripped response holds a fence.  A response that is one fenced
    block, opened by [```python] or by [```], around a body without a
    fence gives that body with the white space at its ends removed;
    any other text on the line of the opening marker, an info string,
    stays in the script as its first line. *)
Theorem generated_code_is_stripped question w :
  submitted (calls_of (create_analysis question w))
  = map (fun prompt => strip_fences (generate_content prompt))
      (prompted (calls_of (create_analysis question w)))
  /\ (forall q,
        decode_utf8 question = Some q ->
        (exists rest,
           submitted (calls_of (create_analysis question w))
           = strip_fences (generate_content sampler_prompt) :: rest)
        /\ (faults w = [] -> python_image ∈ images w ->
            exists req,
              In req (run_requests (calls_of (create_analysis question w)))
              /\ command req
                 = [py "python"; py "-c";
                    strip_fences (generate_content sampler_prompt)]))
  /\ (forall req,
        In req (run_requests (calls_of (create_analysis question w))) ->
        exists prompt,
          In prompt (prompted (calls_of (create_analysis question w)))
          /\ command req
             = [py "python"; py "-c"; strip_fences (generate_content prompt)])
  /\ (forall response, contains (py "```") (strip_fences response) = false)
  /\ (forall before body after,
        all_space before = true -> all_space after = true ->
        contains (py "```") body = false ->
        strip_fences (before ++ py "```python" ++ nl ++ body ++ nl
                      ++ py "```" ++ after) = strip body
        /\ strip_fences (before ++ py "```" ++ nl ++ body ++ nl
                         ++ py "```" ++ after) = strip body)
  /\ (forall before info body after,
        all_space before = true -> all_space after = true ->
        contains (py "```") info = false ->
        contains (py "```") body = false ->
        strip_fences (before ++ (py "```python" ++ info) ++ nl ++ body ++ nl
                      ++ py "```" ++ after) = strip (info ++ nl ++ body)
        /\ (startswith (py "python") info = false ->
            startswith (py "`") info = false ->
            strip_fences (before ++ (py "```" ++ info) ++ nl ++ body ++ nl
                          ++ py "```" ++ after)
            = strip (info ++ nl ++ body))).
Proof.
  repeat apply conj.
  - destruct (decode_utf8 question) as [q|] eqn:Hq.
    + rewrite (create_analysis_staged _ _ _ Hq).
      apply staged_submissions_in_order.
    + now rewrite (create_analysis_undecodable _ _ Hq).
  - intros q Hq. rewrite (create_analysis_staged _ _ _ Hq). split.
    + destruct (staged_submissions_in_order q w) as (-> & rest & ->).
      cbn [map]. eauto.
    + intros Hf Himg. exists (sandbox_request sampler_code).
      split; [|reflexivity].
      destruct (staged_starts_with_stage1 q w) as (rest & ->).
      rewrite !run_requests_app. apply in_or_app. left.
      apply in_or_app. right. cbn [app run_requests].
      apply served_run_requests; now destruct w.
  - destruct (decode_utf8 question) as [q|] eqn:Hq.
    + rewrite (create_analysis_staged _ _ _ Hq). intros req Hin.
      destruct (staged_requests q w req Hin) as (code & Hc & ->).
      destruct (staged_submissions q w code Hc) as (prompt & Hp & ->).
      exists prompt. auto.
    + rewrite (create_analysis_undecodable _ _ Hq). intros req [].
  - apply strip_fences_leaves_none.
  - intros before body after Hb Ha Hc. split.
    + now apply strip_fences_python_block.
    + now apply strip_fences_plain_block.
  - intros before info body after Hb Ha Hi Hc. split.
    + now apply strip_fences_python_info_block.
    + intros Hp Hq. now apply strip_fences_plain_info_block.
Qed.
End Staged.

(** ** Running a request again *)

Section Rerun.
Context `{Collaborators}.

Lemma artifacts_distinct : sampler_output_file <> final_csv_file.
Proof.
  unfold sampler_output_file, final_csv_file, os_path_join.
  intros Heq. apply app_inv_head in Heq. apply app_inv_head in Heq.
  vm_compute in Heq. discriminate.
Qed.

(** Both artifacts are gone when the first stage starts. *)
Lemma clean_workspace_artifacts w :
  files (clean_workspace w) !! sampler_output_file = None
  /\ files (clean_workspace w) !! final_csv_file = None.
Proof.
  unfold clean_workspace. cbn [files set_files]. split.
  - rewrite lookup_delete_ne by (intros Heq; now apply artifacts_distinct).
    apply lookup_delete_eq.
  - apply lookup_delete_eq.
Qed.

Lemma clean_workspace_keeps w :
  faults (clean_workspace w) = faults w
  /\ images (clean_workspace w) = images w.
Proof. now destruct w. Qed.







(** A request leaves the daemon serving and the images as they were. *)
Lemma run_keeps_serving code w :
  faults w = [] ->
  faults (state_of (run_code_in_sandbox code w)) = []
  /\ images (state_of (run_code_in_sandbox code w)) = images w.
Proof. intros Hf. destruct (run_served code w Hf) as (_ & Hi & Hf' & _). auto. Qed.


(** The file removals of a request come first. *)
Lemma staged_calls_shape q w :
  exists rest,
    calls_of (staged q w)
    = cleaning_calls w
      ++ Log INFO (StartingStage 1) :: CallGenerate sampler_prompt
         :: calls_of (run_code_in_sandbox sampler_code (clean_workspace w))
      ++ rest
    /\ List.filter is_os_remove rest = [].
Proof.
  assert (forall code w', List.filter is_os_remove
            (calls_of (run_code_in_sandbox code w')) = []) as Hrun
    by (intros; apply run_calls).
  assert (List.filter is_os_remove (calls_of (after_stage3 q w)) = []) as H3.
  { unfold after_stage3. cbv zeta.
    destruct (outcome_of (stage3 q w)) as [r3|e|];
      [destruct (stage_failedb r3 _ _);
       [|destruct (answered_calls (stdout r3)) as (_ & _ & _ & Ha);
         destruct (answered _) as [oa ta]; cbn [snd] in Ha]| |];
      cbn [calls_of snd]; rewrite ?List.filter_app; cbn [app List.filter is_os_remove];
      unfold stage3; rewrite Hrun; rewrite ?Ha; reflexivity. }
  assert (List.filter is_os_remove (calls_of (after_stage2 q w)) = []) as H2.
  { unfold after_stage2. cbv zeta.
    destruct (outcome_of (stage2 w)) as [r2|e|];
      [destruct (stage_failedb r2 _ _);
       [|destruct (after_stage3 q w) as [[o3 w3] t3]]| |];
      cbn [calls_of snd] in *; rewrite ?List.filter_app;
      cbn [app List.filter is_os_remove];
      unfold stage2; rewrite ?Hrun, ?H3; reflexivity. }
  unfold staged. cbv zeta. fold (stage1 w).
  destruct (outcome_of (stage1 w)) as [r1|e|];
    [destruct (stage_failedb r1 _ _);
     [|destruct (after_stage2 q w) as [[o2 w2] t2]]| |];
    cbn [calls_of snd] in *.
  2: { exists t2. split; [|exact H2].
       rewrite <- !app_assoc. reflexivity. }
  all: exists []; split; [|reflexivity];
    rewrite app_nil_r; reflexivity.
Qed.

End Rerun.

(** ** The scenarios, evaluated *)

Section Evaluated.
Import Scenario.

Lemma ready_has_the_image : python_image ∈ images ready.
Proof. unfold ready. cbn [images]. now apply elem_of_singleton_2. Qed.


(** C1, in the scenario where the daemon is down: the exception of
    [docker.from_env()] is the outcome of the call. *)
Example daemon_down_raises :
  outcome_of (run_code_in_sandbox (H := well_behaved) (py "print(1)") daemon_down)
  = Raised (DockerException (py "Error while fetching server API version")).
Proof. reflexivity. Qed.

(** C2 fails as stated: without the image the run ends in its [except]
    clause, and no teardown is attempted. *)
Lemma teardown_skipped_without_image :
  outcome_of (run_code_in_sandbox (H := well_behaved) (py "print(1)")
                without_image)
  = Returned (Result [] (py "No such image: data-analyst-image") (-1)%Z)
  /\ teardown_calls
       (calls_of (run_code_in_sandbox (H := well_behaved) (py "print(1)")
                    without_image))
     = []
  /\ length (teardown_calls
       (calls_of (run_code_in_sandbox (H := well_behaved) (py "print(1)")
                    without_image)))
     <> 1%nat.
Proof. vm_compute. repeat split; discriminate. Qed.

Lemma teardown_once_when_provisioned_witness :
  outcome_of (run_code_in_sandbox (H := well_behaved) (py "print(1)") ready)
  <> Blocked
  /\ teardown_calls
       (calls_of (run_code_in_sandbox (H := well_behaved) (py "print(1)") ready))
     = [CallRemove Teardown (Handle container_name 0) true]
  /\ outcome_of (run_code_in_sandbox (H := well_behaved) (py "print(1)") ready)
     = outcome_of (run_without_finally (H := well_behaved) (py "print(1)") ready).
Proof.
  assert (outcome_of (run_code_in_sandbox (H := well_behaved) (py "print(1)") ready)
          <> Blocked) as Hnb by (vm_compute; discriminate).
  split; [exact Hnb|].
  pose proof (teardown_once_when_provisioned (H := well_behaved)
                (py "print(1)") ready Hnb) as [Ht Ho].
  split; [|exact Ho].
  change (run_returned
            (calls_of (run_code_in_sandbox (H := well_behaved) (py "print(1)") ready)))
    with (Some (Handle container_name 0)) in Ht.
  exact (proj1 Ht).
Defined.

(** C5, evaluated: a script that prints [hello] and exits 0. *)
Lemma normal_exit_is_reported_witness :
  faults ready = []
  /\ python_image ∈ images ready
  /\ outcome_of (run_code_in_sandbox (H := well_behaved) (py "print('hello')") ready)
     = Returned (Result (py "hello") [] 0%Z).
Proof.
  split; [reflexivity|]. split; [exact ready_has_the_image|].
  refine (proj1 (normal_exit_is_reported (H := well_behaved)
            (py "print('hello')") ready (ascii_bytes "hello") [] (Some 0%Z) ∅
            (py "hello") [] _ ready_has_the_image _ _ _));
    reflexivity.
Defined.

(** C6 fails as stated: the orchestrator's workspace directory is not
    what the runner binds. *)
Lemma caller_workspace_is_not_bound :
  run_requests
    (calls_of (run_code_in_sandbox (H := well_behaved) (py "print(1)") ready))
  <> [spec_request (py "print(1)") workspace_dir].
Proof. vm_compute. discriminate. Qed.



(** C3, evaluated: the teardown of a first run fails and leaves its
    container; the second run removes it and goes on. *)
Example leftover_is_reclaimed :
  containers
    (state_of (run_code_in_sandbox (H := well_behaved) (py "print('hello')")
                 teardown_fails))
    !! container_name
  = Some (Container 0 (sandbox_request (py "print('hello')"))
            (Some (Exits (ascii_bytes "hello") [] (Some 0%Z) ∅)))
  /\ List.filter is_pre_cleanup
       (calls_of
          (run_code_in_sandbox (H := well_behaved) (py "print('hello')")
             (state_of (run_code_in_sandbox (H := well_behaved)
                          (py "print('hello')") teardown_fails))))
     = [CallRemove PreCleanup (Handle container_name 0) true]
  /\ outcome_of
       (run_code_in_sandbox (H := well_behaved) (py "print('hello')")
          (state_of (run_code_in_sandbox (H := well_behaved)
                       (py "print('hello')") teardown_fails)))
     = Returned (Result (py "hello") [] 0%Z).
Proof. vm_compute. repeat split. Qed.

(** C4, evaluated: the sampler writes its file and exits 0, but with a
    warning on its standard error; the request ends there. *)
Lemma failed_stage_aborts_witness :
  decode_utf8 question = Some asked
  /\ outcome_of (stage1 (H := with_warning) ready)
     = Returned (Result [] (py "DeprecationWarning") 0%Z)
  /\ is_Some (files (state_of (stage1 (H := with_warning) ready))
               !! sampler_output_file (H := with_warning))
  /\ outcome_of (create_analysis (H := with_warning) question ready)
     = Returned (Response 500
                   (JObject [(py "error",
                              JString (py "Stage 1 (sampler) failed to create the output file."))]))
  /\ submitted (calls_of (create_analysis (H := with_warning) question ready))
     = [py "warn"].
Proof.
  assert (decode_utf8 question = Some asked) as Hq by reflexivity.
  assert (outcome_of (stage1 (H := with_warning) ready)
          = Returned (Result [] (py "DeprecationWarning") 0%Z)) as H1
    by (vm_compute; reflexivity).
  split; [exact Hq|]. split; [exact H1|].
  split; [vm_compute; eauto|].
  destruct (proj1 (failed_stage_aborts (H := with_warning) question asked
                     ready Hq) _ H1) as [Hiff Hcalls].
  assert (stage_failed (Result [] (py "DeprecationWarning") 0%Z)
            (Some (sampler_output_file (H := with_warning)))
            (state_of (stage1 (H := with_warning) ready))) as Hfailed
    by (left; cbn [stderr]; discriminate).
  split.
  - exact (proj1 Hiff Hfailed).
  - exact (proj1 (Hcalls Hfailed)).
Defined.

(** C3, evaluated as well: in the state that run left, the second run
    looks the name up, removes the leftover and is granted its
    container. *)
Lemma second_run_reclaims_the_name_witness :
  faults (state_of (run_code_in_sandbox (H := well_behaved)
                      (py "print('hello')") teardown_fails)) = []
  /\ python_image
     ∈ images (state_of (run_code_in_sandbox (H := well_behaved)
                           (py "print('hello')") teardown_fails))
  /\ exists rest,
       calls_of
         (run_code_in_sandbox (H := well_behaved) (py "print(1)")
            (state_of (run_code_in_sandbox (H := well_behaved)
                         (py "print('hello')") teardown_fails)))
       = [CallSandbox (py "print(1)"); CallFromEnv;
          CallImagesGet python_image; CallContainersGet container_name;
          CallRemove PreCleanup (Handle container_name 0) true;
          Log INFO CreatingContainer;
          CallRun (sandbox_request (py "print(1)"));
          RunReturned (Handle container_name 1)]
         ++ rest.
Proof.
  assert (faults (state_of (run_code_in_sandbox (H := well_behaved)
                              (py "print('hello')") teardown_fails)) = [])
    as Hf by (vm_compute; reflexivity).
  assert (python_image
          ∈ images (state_of (run_code_in_sandbox (H := well_behaved)
                                (py "print('hello')") teardown_fails)))
    as Himg.
  { replace (images (state_of (run_code_in_sandbox (H := well_behaved)
                                 (py "print('hello')") teardown_fails)))
      with (images ready) by (vm_compute; reflexivity).
    exact ready_has_the_image. }
  split; [exact Hf|]. split; [exact Himg|].
  destruct (proj2 (proj2 (proj2 (proj2 (proj2
              (second_run_reclaims_the_name (H := well_behaved)
                 (py "print('hello')") (py "print(1)") teardown_fails)))))
              Hf Himg) as (rest & Hcalls).
  exists rest. rewrite Hcalls. vm_compute. reflexivity.
Defined.

(** C2, the case the amended claim leaves out: the daemon creates the
    container and fails to start it; [client.containers.run] raises,
    the variable [container] is still [None], and the container stays
    under the reserved name, with no teardown. *)
Example failed_start_leaves_the_container :
  outcome_of (run_code_in_sandbox (H := well_behaved) (py "print(1)")
                Edge.start_fails)
  = Returned (Result [] (py "500 Server Error") (-1)%Z)
  /\ teardown_calls
       (calls_of (run_code_in_sandbox (H := well_behaved) (py "print(1)")
                    Edge.start_fails))
     = []
  /\ containers
       (state_of (run_code_in_sandbox (H := well_behaved) (py "print(1)")
                    Edge.start_fails))
       !! container_name
     = Some (Container 0 (sandbox_request (py "print(1)")) None).
Proof. vm_compute. repeat split. Qed.

(** C5 fails as stated: a script exits 0 and writes nothing to its
    standard error, but its standard output is no UTF-8; the result
    carries an empty standard output, the text of the decoding error
    and exit code -1. *)
Lemma undecodable_output_is_not_reported :
  faults ready = []
  /\ python_image ∈ images ready
  /\ @sandbox_exec Edge.with_raw (sandbox_request (py "raw")) (files ready)
     = Exits [Byte.xff] [] (Some 0%Z) ∅
  /\ outcome_of (run_code_in_sandbox (H := Edge.with_raw) (py "raw") ready)
     = Returned (Result [] (py "'utf-8' codec can't decode bytes") (-1)%Z)
  /\ (forall out err,
        outcome_of (run_code_in_sandbox (H := Edge.with_raw) (py "raw") ready)
        <> Returned (Result out err 0%Z)).
Proof.
  split; [reflexivity|]. split; [exact ready_has_the_image|].
  split; [reflexivity|].
  assert (outcome_of (run_code_in_sandbox (H := Edge.with_raw) (py "raw")
                        ready)
          = Returned (Result [] (py "'utf-8' codec can't decode bytes")
                        (-1)%Z)) as Ho by (vm_compute; reflexivity).
  split; [exact Ho|]. intros out err. rewrite Ho. intros Heq.
  inversion Heq.
Qed.

(** C9 fails as stated: a response that is one fenced block opened by
    [```py] around a body without a fence; the script handed to the
    runner is the body with the info string as its first line. *)
Lemma info_string_stays_in_the_script :
  generate_content (Collaborators := Edge.with_short_fence)
    (sampler_prompt)
  = fenced_block [] (py "```py") (py "print(1)") []
  /\ contains (py "```") (py "print(1)") = false
  /\ submitted
       (calls_of (create_analysis (H := Edge.with_short_fence) question
                    ready))
     = [py "py" ++ nl ++ py "print(1)"]
  /\ py "py" ++ nl ++ py "print(1)" <> strip (py "print(1)").
Proof. vm_compute. repeat split. discriminate. Qed.

(** C7, at the failing input: the three stages pass, the last one
    prints [[NaN]], which [json.loads] takes and [JSONResponse]
    refuses to render; the [ValueError] leaves the endpoint. *)
Lemma final_stdout_is_parsed_witness :
  decode_utf8 question = Some asked
  /\ outcome_of (stage1 (H := Edge.with_nan) ready)
     = Returned (Result [] [] 3%Z)
  /\ is_Some (files (state_of (stage1 (H := Edge.with_nan) ready))
               !! sampler_output_file (H := Edge.with_nan))
  /\ outcome_of (stage2 (H := Edge.with_nan) ready)
     = Returned (Result [] [] 0%Z)
  /\ is_Some (files (state_of (stage2 (H := Edge.with_nan) ready))
               !! final_csv_file (H := Edge.with_nan))
  /\ outcome_of (stage3 (H := Edge.with_nan) asked ready)
     = Returned (Result (py "[NaN]") [] 1%Z)
  /\ outcome_of (create_analysis (H := Edge.with_nan) question ready)
     = Raised (ValueError
                 (py "Out of range float values are not JSON compliant")).
Proof.
  assert (decode_utf8 question = Some asked) as Hq by reflexivity.
  assert (outcome_of (stage1 (H := Edge.with_nan) ready)
          = Returned (Result [] [] 3%Z)) as H1 by (vm_compute; reflexivity).
  assert (is_Some (files (state_of (stage1 (H := Edge.with_nan) ready))
                     !! sampler_output_file (H := Edge.with_nan))) as F1
    by (vm_compute; eauto).
  assert (outcome_of (stage2 (H := Edge.with_nan) ready)
          = Returned (Result [] [] 0%Z)) as H2 by (vm_compute; reflexivity).
  assert (is_Some (files (state_of (stage2 (H := Edge.with_nan) ready))
                     !! final_csv_file (H := Edge.with_nan))) as F2
    by (vm_compute; eauto).
  assert (outcome_of (stage3 (H := Edge.with_nan) asked ready)
          = Returned (Result (py "[NaN]") [] 1%Z)) as H3
    by (vm_compute; reflexivity).
  repeat (split; [assumption|]).
  exact (proj1 (proj2 (proj2
           (final_stdout_is_parsed (H := Edge.with_nan) question asked
              ready _ _ _ Hq H1 eq_refl F1 H2 eq_refl F2 H3 eq_refl)))
           (JArray [JNumber (py "NaN")])
           (ValueError
              (py "Out of range float values are not JSON compliant"))
           eq_refl eq_refl eq_refl).
Defined.

(** C10, evaluated: the three scripts end with the status codes 3,
    none and 1; the request is answered with status 200 when the last
    one prints [[42]], and raises when it prints [[NaN]]. *)
Lemma exit_code_is_not_inspected_witness :
  decode_utf8 question = Some asked
  /\ outcome_of (stage1 (H := well_behaved) ready)
     = Returned (Result [] [] 3%Z)
  /\ outcome_of (stage3 (H := well_behaved) asked ready)
     = Returned (Result (py "[42]") [] 1%Z)
  /\ outcome_of (create_analysis (H := well_behaved) question ready)
     = Returned (Response 200 (JArray [JNumber (py "42")]))
  /\ outcome_of (stage3 (H := Edge.with_nan) asked ready)
     = Returned (Result (py "[NaN]") [] 1%Z)
  /\ outcome_of (create_analysis (H := Edge.with_nan) question ready)
     = Raised (ValueError
                 (py "Out of range float values are not JSON compliant")).
Proof.
  assert (decode_utf8 question = Some asked) as Hq by reflexivity.
  assert (outcome_of (stage1 (H := well_behaved) ready)
          = Returned (Result [] [] 3%Z)) as H1 by (vm_compute; reflexivity).
  assert (is_Some (files (state_of (stage1 (H := well_behaved) ready))
                     !! sampler_output_file (H := well_behaved))) as F1
    by (vm_compute; eauto).
  assert (outcome_of (stage2 (H := well_behaved) ready)
          = Returned (Result [] [] 0%Z)) as H2 by (vm_compute; reflexivity).
  assert (is_Some (files (state_of (stage2 (H := well_behaved) ready))
                     !! final_csv_file (H := well_behaved))) as F2
    by (vm_compute; eauto).
  assert (outcome_of (stage3 (H := well_behaved) asked ready)
          = Returned (Result (py "[42]") [] 1%Z)) as H3
    by (vm_compute; reflexivity).
  assert (outcome_of (stage1 (H := Edge.with_nan) ready)
          = Returned (Result [] [] 3%Z)) as N1 by (vm_compute; reflexivity).
  assert (is_Some (files (state_of (stage1 (H := Edge.with_nan) ready))
                     !! sampler_output_file (H := Edge.with_nan))) as G1
    by (vm_compute; eauto).
  assert (outcome_of (stage2 (H := Edge.with_nan) ready)
          = Returned (Result [] [] 0%Z)) as N2 by (vm_compute; reflexivity).
  assert (is_Some (files (state_of (stage2 (H := Edge.with_nan) ready))
                     !! final_csv_file (H := Edge.with_nan))) as G2
    by (vm_compute; eauto).
  assert (outcome_of (stage3 (H := Edge.with_nan) asked ready)
          = Returned (Result (py "[NaN]") [] 1%Z)) as N3
    by (vm_compute; reflexivity).
  split; [exact Hq|]. split; [exact H1|]. split; [exact H3|].
  split; [|split; [exact N3|]].
  - exact (proj2 (proj2 (exit_code_is_not_inspected (H := well_behaved)
                           question asked ready Hq))
             _ _ _ (JArray [JNumber (py "42")])
             H1 eq_refl F1 H2 eq_refl F2 H3 eq_refl eq_refl).
  - exact (proj2 (proj2 (exit_code_is_not_inspected (H := Edge.with_nan)
                           question asked ready Hq))
             _ _ _ (JArray [JNumber (py "NaN")])
             N1 eq_refl G1 N2 eq_refl G2 N3 eq_refl eq_refl eq_refl).
Defined.
End Evaluated.

(** ** More about the sandbox runner *)

Section MoreRunner.
Context `{Collaborators}.

(** X1: a run changes nothing but the container of the reserved name:
    the images the daemon holds stay as they are, and so does every
    container under another name, whatever fails. *)
Theorem other_containers_are_untouched code w nm :
  nm <> container_name ->
  containers (state_of (run_code_in_sandbox code w)) !! nm = containers w !! nm
  /\ images (state_of (run_code_in_sandbox code w)) = images w.
Proof.
  intros Hnm. assert (container_name <> nm) as Hnm' by congruence.
  revert w. intros [imgs cs nid fs fl]. cbn [containers images].
  apply (wp_intro (run_code_in_sandbox code) _
    (fun r : run ExecutionResult =>
       containers (state_of r) !! nm = cs !! nm
       /\ images (state_of r) = imgs)).
  wp_run; leaf;
    rewrite ?lookup_delete_ne, ?lookup_insert_ne, ?lookup_delete_ne by assumption;
    auto.
Qed.

(** X2: a script that never exits blocks the call in [wait], which has
    no timeout: nothing is returned, the teardown is not reached and the
    container stays. *)
Theorem hanging_script_blocks code w :
  faults w = [] ->
  python_image ∈ images w ->
  sandbox_exec (sandbox_request code) (files w) = Hangs ->
  outcome_of (run_code_in_sandbox code w) = Blocked
  /\ teardown_calls (calls_of (run_code_in_sandbox code w)) = []
  /\ containers (state_of (run_code_in_sandbox code w)) !! container_name
     = Some (Container (next_id w) (sandbox_request code) (Some Hangs)).
Proof.
  revert w. intros [imgs cs nid fs fl] Hf Himg Hexec.
  cbn [faults images files next_id] in *. subst fl. revert Himg Hexec.
  apply (wp_intro (run_code_in_sandbox code) _
    (fun r : run ExecutionResult =>
       python_image ∈ imgs ->
       sandbox_exec (sandbox_request code) fs = Hangs ->
       outcome_of r = Blocked
       /\ teardown_calls (calls_of r) = []
       /\ containers (state_of r) !! container_name
          = Some (Container nid (sandbox_request code) (Some Hangs)))).
  wp_run; leaf; intros Himg Hexec; try contradiction; try congruence;
    rewrite ?lookup_insert_eq; auto.
Qed.

(** X3: output that is no UTF-8 costs the whole result: when the
    standard output of the process does not decode, the run returns the
    failure result with exit code -1 whatever the process exited with,
    its standard error is never fetched, and the container is torn
    down. *)
Theorem undecodable_output_is_a_failure code w out err st fs' :
  faults w = [] ->
  python_image ∈ images w ->
  sandbox_exec (sandbox_request code) (files w) = Exits out err st fs' ->
  decode_utf8 out = None ->
  outcome_of (run_code_in_sandbox code w)
  = Returned (Result [] (exn_str (UnicodeDecodeError out)) (-1)%Z)
  /\ List.filter
       (fun e => match e with CallLogs _ false true => true | _ => false end)
       (calls_of (run_code_in_sandbox code w)) = []
  /\ length (teardown_calls (calls_of (run_code_in_sandbox code w))) = 1%nat
  /\ containers (state_of (run_code_in_sandbox code w)) !! container_name = None
  /\ files (state_of (run_code_in_sandbox code w)) = fs'.
Proof.
  revert w. intros [imgs cs nid fs fl] Hf Himg Hexec Hout.
  cbn [faults images files] in *. subst fl. revert Himg Hexec Hout.
  apply (wp_intro (run_code_in_sandbox code) _
    (fun r : run ExecutionResult =>
       python_image ∈ imgs ->
       sandbox_exec (sandbox_request code) fs = Exits out err st fs' ->
       decode_utf8 out = None ->
       outcome_of r
       = Returned (Result [] (exn_str (UnicodeDecodeError out)) (-1)%Z)
       /\ List.filter
            (fun e => match e with CallLogs _ false true => true | _ => false end)
            (calls_of r) = []
       /\ length (teardown_calls (calls_of r)) = 1%nat
       /\ containers (state_of r) !! container_name = None
       /\ files (state_of r) = fs')).
  wp_run; leaf; rewrite ?app_nil_r in *; intros Himg Hexec Hout;
    try contradiction; simplify_eq;
    rewrite ?lookup_delete_eq; auto.
Qed.

(** X4: when the image has not been built the run ends at the check of
    the image: the failure result is returned, and the daemon and the
    files are left exactly as they were; no container is looked up,
    removed or created. *)
Theorem missing_image_changes_nothing code w :
  faults w = [] ->
  python_image ∉ images w ->
  run_code_in_sandbox code w
  = (Returned (Result [] (exn_str (ImageNotFound python_image)) (-1)%Z), w,
     [CallSandbox code; CallFromEnv; CallImagesGet python_image;
      Log ERROR (UnexpectedError (ImageNotFound python_image))]).
Proof.
  revert w. intros [imgs cs nid fs fl] Hf Himg.
  cbn [faults images] in *. subst fl. revert Himg.
  apply (wp_intro (run_code_in_sandbox code) _
    (fun r : run ExecutionResult =>
       python_image ∉ imgs ->
       r = (Returned (Result [] (exn_str (ImageNotFound python_image)) (-1)%Z),
            World imgs cs nid fs [],
            [CallSandbox code; CallFromEnv; CallImagesGet python_image;
             Log ERROR (UnexpectedError (ImageNotFound python_image))]))).
  wp_run; leaf; intros Himg; try contradiction; reflexivity.
Qed.

(** X5: when the daemon serves every request and holds the image, a run
    that is not blocked leaves no container under the reserved name,
    whether it found one there or not and whether the script failed or
    not. *)
Theorem served_run_leaves_no_container code w :
  faults w = [] ->
  python_image ∈ images w ->
  outcome_of (run_code_in_sandbox code w) <> Blocked ->
  containers (state_of (run_code_in_sandbox code w)) !! container_name = None.
Proof.
  revert w. intros [imgs cs nid fs fl] Hf Himg.
  cbn [faults images] in *. subst fl. revert Himg.
  apply (wp_intro (run_code_in_sandbox code) _
    (fun r : run ExecutionResult =>
       python_image ∈ imgs ->
       outcome_of r <> Blocked ->
       containers (state_of r) !! container_name = None)).
  wp_run; leaf; intros Himg Hnb; try contradiction; try congruence;
    rewrite ?lookup_delete_eq; auto.
Qed.

(** X6: the calls of a run in which nothing fails, in order: the image
    is checked, the reserved name is looked up and a container found
    there is forcibly removed, the new container is requested and waited
    for, its standard output and then its standard error are fetched,
    each alone, the stripped texts are logged, and the container is
    forcibly removed. *)
Theorem calls_of_a_clean_run code w out err st fs' so se :
  faults w = [] ->
  python_image ∈ images w ->
  sandbox_exec (sandbox_request code) (files w) = Exits out err st fs' ->
  decode_utf8 out = Some so ->
  decode_utf8 err = Some se ->
  calls_of (run_code_in_sandbox code w)
  = [CallSandbox code; CallFromEnv; CallImagesGet python_image;
     CallContainersGet container_name]
    ++ match containers w !! container_name with
       | Some c => [CallRemove PreCleanup (Handle container_name (c_id c)) true]
       | None => []
       end
    ++ [Log INFO CreatingContainer; CallRun (sandbox_request code);
        RunReturned (Handle container_name (next_id w));
        CallWait (Handle container_name (next_id w));
        CallLogs (Handle container_name (next_id w)) true false;
        CallLogs (Handle container_name (next_id w)) false true;
        Log INFO (ExecutionFinished (strip so) (strip se));
        CallRemove Teardown (Handle container_name (next_id w)) true].
Proof.
  revert w. intros [imgs cs nid fs fl] Hf Himg Hexec Hout Herr.
  cbn [faults images files next_id containers] in *. subst fl.
  revert Himg Hexec Hout Herr.
  apply (wp_intro (run_code_in_sandbox code) _
    (fun r : run ExecutionResult =>
       python_image ∈ imgs ->
       sandbox_exec (sandbox_request code) fs = Exits out err st fs' ->
       decode_utf8 out = Some so ->
       decode_utf8 err = Some se ->
       calls_of r
       = [CallSandbox code; CallFromEnv; CallImagesGet python_image;
          CallContainersGet container_name]
         ++ match cs !! container_name with
            | Some c =>
                [CallRemove PreCleanup (Handle container_name (c_id c)) true]
            | None => []
            end
         ++ [Log INFO CreatingContainer; CallRun (sandbox_request code);
             RunReturned (Handle container_name nid);
             CallWait (Handle container_name nid);
             CallLogs (Handle container_name nid) true false;
             CallLogs (Handle container_name nid) false true;
             Log INFO (ExecutionFinished (strip so) (strip se));
             CallRemove Teardown (Handle container_name nid) true])).
  wp_run; leaf; rewrite ?app_nil_r in *; cbn [app] in *;
    intros Himg Hexec Hout Herr;
    try contradiction; simplify_eq;
    repeat match goal with Hx : ?x = _ |- context [?x] => rewrite Hx end;
    reflexivity.
Qed.

(** X7: exit code -1 is the mark of a failure of the runner: once the
    client is connected, a result that comes with a caught exception has
    exit code -1 and an empty standard output, and a result with exit
    code -1 comes with a caught exception unless the daemon itself
    reported -1 for the process. *)
Theorem minus_one_marks_a_runner_failure code w r :
  next_fault (faults w) = None ->
  outcome_of (run_code_in_sandbox code w) = Returned r ->
  (caught (calls_of (run_code_in_sandbox code w)) <> [] ->
   exit_code r = (-1)%Z /\ stdout r = [])
  /\ (exit_code r = (-1)%Z ->
      caught (calls_of (run_code_in_sandbox code w)) <> []
      \/ exists out err fs',
           sandbox_exec (sandbox_request code) (files w)
           = Exits out err (Some (-1)%Z) fs').
Proof.
  intros Hf Ho.
  destruct (failures_after_connecting_are_contained code w Hf)
    as [Hb | (r' & Ho' & Hr)]; [congruence|].
  rewrite Ho in Ho'. injection Ho' as <-.
  destruct Hr as [(Hc & out & err & st & fs' & Hexec & _ & _ & Hst)
                 | (e & Hc & ->)].
  - split; [congruence|]. intros Hm. right.
    rewrite Hm in Hst. destruct st as [z|]; cbn in Hst; [|discriminate].
    subst z. eauto.
  - split; [auto|]. intros _. left. rewrite Hc. discriminate.
Qed.

(** X8: a run changes the files of the host only through the sandboxed
    process: they are as before, or they are what the process of the one
    container the run started has left; and a run asks for at most one
    container. *)
Theorem files_change_only_through_the_sandbox code w :
  (files (state_of (run_code_in_sandbox code w)) = files w
   \/ exists out err st,
        sandbox_exec (sandbox_request code) (files w)
        = Exits out err st (files (state_of (run_code_in_sandbox code w)))
        /\ run_returned (calls_of (run_code_in_sandbox code w))
           = Some (Handle container_name (next_id w)))
  /\ (length (run_requests (calls_of (run_code_in_sandbox code w))) <= 1)%nat.
Proof.
  revert w. intros [imgs cs nid fs fl]. cbn [files next_id].
  apply (wp_intro (run_code_in_sandbox code) _
    (fun r : run ExecutionResult =>
       (files (state_of r) = fs
        \/ exists out err st,
             sandbox_exec (sandbox_request code) fs
             = Exits out err st (files (state_of r))
             /\ run_returned (calls_of r) = Some (Handle container_name nid))
       /\ (length (run_requests (calls_of r)) <= 1)%nat)).
  wp_run; leaf; (split; [|cbn [length]; lia]); eauto 6.
Qed.

(** X9: the only exception that leaves the runner is the one of the
    connection: when a run raises, it is the [DockerException] of
    [docker.from_env()], raised before anything else was asked of the
    daemon. *)
Theorem only_the_connection_failure_escapes code w e :
  outcome_of (run_code_in_sandbox code w) = Raised e ->
  exists msg,
    next_fault (faults w) = Some msg
    /\ e = DockerException msg
    /\ calls_of (run_code_in_sandbox code w) = [CallSandbox code; CallFromEnv].
Proof.
  revert w. intros [imgs cs nid fs fl]. cbn [faults].
  apply (wp_intro (run_code_in_sandbox code) _
    (fun r : run ExecutionResult =>
       outcome_of r = Raised e ->
       exists msg,
         next_fault fl = Some msg
         /\ e = DockerException msg
         /\ calls_of r = [CallSandbox code; CallFromEnv])).
  wp_run; leaf; intros Ho; try discriminate; simplify_eq; eauto.
Qed.
End MoreRunner.

(** ** More about fences and prompts *)

Section MoreText.
Context `{Collaborators}.
Implicit Types p q s t old new : pystr.

Lemma contains_longer p q s :
  contains p s = false -> contains (p ++ q) s = false.
Proof.
  induction s as [|c s IH]; cbn [contains]; intros [Hh Ht]%orb_false_iff.
  - now rewrite (startswith_longer _ q _ Hh).
  - now rewrite (startswith_longer _ q _ Hh), IH.
Qed.

(** [replace] copies a text in which the old text does not occur. *)
Lemma replace_absent old new s :
  old <> [] -> contains old s = false -> replace old new s = s.
Proof.
  destruct old as [|a old]; [congruence|]. intros _. cbn [replace].
  induction s as [|c s IH]; [reflexivity|].
  intros Hc. cbn [replace_from]. rewrite (contains_head _ _ Hc).
  rewrite IH; [reflexivity|]. apply (contains_suffix _ [c]), Hc.
Qed.

Lemma lstrip_fixed s :
  lstrip s = s -> match s with [] => True | c :: _ => isspace c = false end.
Proof.
  destruct s as [|c s]; [auto|]. cbn [lstrip].
  destruct (isspace c); [|auto]. intros Heq.
  destruct (lstrip_suffix s) as [ws Hws].
  apply (f_equal (@length N)) in Heq, Hws.
  rewrite length_app in Hws. cbn [length] in Heq. lia.
Qed.

Lemma lstrip_head s :
  match s with [] => True | c :: _ => isspace c = false end -> lstrip s = s.
Proof. destruct s as [|c s]; [auto|]. cbn [lstrip]. now intros ->. Qed.

Lemma lstrip_idempotent s : lstrip (lstrip s) = lstrip s.
Proof.
  induction s as [|c s IH]; [reflexivity|]. cbn [lstrip].
  destruct (isspace c) eqn:Hc; [exact IH|]. cbn [lstrip]. now rewrite Hc.
Qed.

Lemma rstrip_idempotent s : rstrip (rstrip s) = rstrip s.
Proof. unfold rstrip. now rewrite rev_involutive, lstrip_idempotent. Qed.

Lemma lstrip_rstrip s : lstrip s = s -> lstrip (rstrip s) = rstrip s.
Proof.
  intros Hs%lstrip_fixed. apply lstrip_head.
  destruct (rstrip_prefix s) as [ws Hws].
  destruct (rstrip s) as [|c r]; [auto|].
  rewrite Hws in Hs. exact Hs.
Qed.

Lemma strip_idempotent s : strip (strip s) = strip s.
Proof.
  unfold strip.
  rewrite (lstrip_rstrip (lstrip s)) by apply lstrip_idempotent.
  apply rstrip_idempotent.
Qed.

Lemma fence_is_in_python_fence s :
  contains (py "```") s = false -> contains (py "```python") s = false.
Proof. apply (contains_longer (py "```") (py "python")). Qed.

Lemma strip_fences_plain s :
  contains (py "```") s = false -> strip_fences s = strip s.
Proof.
  intros Hc. unfold strip_fences.
  rewrite (replace_absent (py "```python")), (replace_absent (py "```"));
    auto using fence_is_in_python_fence; discriminate.
Qed.

(** What [lstrip] and [rstrip] drop is white space. *)
Lemma lstrip_drops_spaces s :
  exists ws, all_space ws = true /\ s = ws ++ lstrip s.
Proof.
  induction s as [|c s (ws & Hws & IH)]; [now exists []|]. cbn [lstrip].
  destruct (isspace c) eqn:Hc; [|now exists []].
  exists (c :: ws). cbn [app all_space forallb]. rewrite Hc, <- IH. auto.
Qed.

Lemma rstrip_drops_spaces s :
  exists ws, all_space ws = true /\ s = rstrip s ++ ws.
Proof.
  unfold rstrip. destruct (lstrip_drops_spaces (rev s)) as (ws & Hws & Heq).
  exists (rev ws). split; [now apply all_space_rev|].
  rewrite <- rev_app_distr, <- Heq. now rewrite rev_involutive.
Qed.

(** X10: a response that holds no fence reaches the runner with only
    the white space at its two ends removed: nothing inside it is
    changed. *)
Theorem response_without_fence_is_only_stripped response :
  contains (py "```") response = false ->
  strip_fences response = strip response
  /\ exists before after,
       all_space before = true /\ all_space after = true
       /\ response = before ++ strip_fences response ++ after.
Proof.
  intros Hc. rewrite (strip_fences_plain _ Hc). split; [reflexivity|].
  unfold strip.
  destruct (lstrip_drops_spaces response) as (ws1 & Hs1 & H1).
  destruct (rstrip_drops_spaces (lstrip response)) as (ws2 & Hs2 & H2).
  exists ws1, ws2. repeat split; auto. now rewrite <- H2.
Qed.

(** X11: stripping the fences twice is stripping them once, and the
    texts the stripping leaves as they are are the ones that hold no
    fence and have no white space at their ends; so a script that holds
    three backquotes in a row never reaches the runner as it was
    written. *)
Theorem strip_fences_is_idempotent response :
  strip_fences (strip_fences response) = strip_fences response
  /\ (strip_fences response = response
      <-> contains (py "```") response = false /\ strip response = response).
Proof.
  assert (strip_fences (strip_fences response) = strip_fences response) as Hi.
  { rewrite (strip_fences_plain (strip_fences response))
      by apply strip_fences_leaves_none.
    unfold strip_fences. apply strip_idempotent. }
  split; [exact Hi|]. split.
  - intros Heq.
    assert (contains (py "```") response = false) as Hc
      by (rewrite <- Heq; apply strip_fences_leaves_none).
    split; [exact Hc|]. now rewrite <- (strip_fences_plain _ Hc).
  - intros [Hc Hs]. now rewrite (strip_fences_plain _ Hc).
Qed.

(** X12: the prompt of the third stage determines the question: the
    question is put into it as it is, so two requests with different
    questions send different prompts; and it is neither the prompt of
    the first stage nor the one of the second, whatever the question
    says. *)
Theorem analysis_prompt_determines_the_question q1 q2 :
  (analysis_prompt q1 = analysis_prompt q2 -> q1 = q2)
  /\ analysis_prompt q1 <> sampler_prompt
  /\ analysis_prompt q1 <> scraper_prompt
  /\ sampler_prompt <> scraper_prompt.
Proof.
  assert (forall t1 t2 c,
            create_code_generation_prompt t1 c
            = create_code_generation_prompt t2 c -> t1 = t2) as Hinj.
  { intros t1 t2 c Heq. unfold create_code_generation_prompt in Heq.
    repeat apply app_inv_head in Heq. now apply app_inv_tail in Heq. }
  unfold analysis_prompt, sampler_prompt, scraper_prompt.
  repeat apply conj.
  - intros Heq%Hinj. unfold analysis_task in Heq.
    repeat apply app_inv_head in Heq. now apply app_inv_tail in Heq.
  - intros Heq%Hinj. apply (f_equal (hd 0)) in Heq.
    vm_compute in Heq. discriminate.
  - intros Heq%Hinj. apply (f_equal (hd 0)) in Heq.
    vm_compute in Heq. discriminate.
  - intros Heq%Hinj. apply (f_equal (hd 0)) in Heq.
    vm_compute in Heq. discriminate.
Qed.
End MoreText.

(** ** More about the requests *)

Section MoreRequests.
Context `{Collaborators}.

(** A run that cannot reach the daemon. *)
Lemma run_unreachable code w msg :
  next_fault (faults w) = Some msg ->
  run_code_in_sandbox code w
  = (Raised (DockerException msg), set_faults (tail (faults w)) w,
     [CallSandbox code; CallFromEnv]).
Proof.
  destruct w as [imgs cs nid fs fl]. cbn [faults]. intros Hf.
  unfold run_code_in_sandbox, from_env, and_then, emit, request.
  cbn [faults]. rewrite Hf. reflexivity.
Qed.

(** The outcome of a request, by the outcomes of its stages. *)
Lemma staged_outcome q w :
  outcome_of (staged q w)
  = match outcome_of (stage1 w) with
    | Returned r1 =>
        if stage_failedb r1 (Some sampler_output_file) (state_of (stage1 w))
        then Returned (error_response stage1_error)
        else
          match outcome_of (stage2 w) with
          | Returned r2 =>
              if stage_failedb r2 (Some final_csv_file) (state_of (stage2 w))
              then Returned (error_response stage2_error)
              else
                match outcome_of (stage3 q w) with
                | Returned r3 =>
                    if truthy (stderr r3)
                    then Returned (error_response stage3_error)
                    else fst (answered (stdout r3))
                | Raised e => Raised e
                | Blocked => Blocked
                end
          | Raised e => Raised e
          | Blocked => Blocked
          end
    | Raised e => Raised e
    | Blocked => Blocked
    end.
Proof.
  unfold staged, after_stage2, after_stage3, stage_failedb. cbv zeta.
  destruct (outcome_of (stage1 w)) as [r1|e|]; [|reflexivity|reflexivity].
  destruct (_ || _); [reflexivity|].
  destruct (outcome_of (stage2 w)) as [r2|e|]; [|reflexivity|reflexivity].
  destruct (_ || _); [reflexivity|].
  destruct (outcome_of (stage3 q w)) as [r3|e|]; [|reflexivity|reflexivity].
  rewrite orb_false_r. destruct (truthy (stderr r3)); [reflexivity|].
  destruct (answered (stdout r3)); reflexivity.
Qed.

(** X14: when the daemon cannot be reached the request ends in the
    first stage with the exception of the runner, not with a response:
    by then the two artifacts have been removed and the first script
    has been generated. *)
Theorem unreachable_daemon_fails_the_request question q w msg :
  decode_utf8 question = Some q ->
  next_fault (faults w) = Some msg ->
  create_analysis question w
  = (Raised (DockerException msg),
     set_faults (tail (faults w)) (clean_workspace w),
     cleaning_calls w
     ++ [Log INFO (StartingStage 1); CallGenerate sampler_prompt;
         CallSandbox sampler_code; CallFromEnv]).
Proof.
  intros Hq Hf. rewrite (create_analysis_staged _ _ _ Hq).
  assert (next_fault (faults (clean_workspace w)) = Some msg) as Hf'
    by now destruct w.
  unfold staged, stage1. cbv zeta.
  rewrite (run_unreachable _ _ _ Hf'). cbn [outcome_of state_of calls_of fst snd].
  now destruct w.
Qed.

(** X15: when the image has not been built every request is answered
    with the error of the first stage, after one generation: the
    runner's result is a failure and the output file is missing
    whatever the text of the failure is, and that text is not passed
    on. *)
Theorem missing_image_fails_the_first_stage question q w :
  decode_utf8 question = Some q ->
  faults w = [] ->
  python_image ∉ images w ->
  outcome_of (create_analysis question w)
  = Returned (error_response stage1_error)
  /\ prompted (calls_of (create_analysis question w)) = [sampler_prompt]
  /\ files (state_of (create_analysis question w)) = files (clean_workspace w).
Proof.
  intros Hq Hf Himg. rewrite (create_analysis_staged _ _ _ Hq).
  destruct (clean_workspace_keeps w) as (Hcf & Hci).
  assert (faults (clean_workspace w) = []) as Hf0 by congruence.
  destruct (run_served sampler_code _ Hf0) as (Ho & _ & _ & Hfs).
  fold (stage1 w) in Ho, Hfs. unfold served_outcome, served_files in Ho, Hfs.
  rewrite Hci in Ho, Hfs.
  destruct (decide (python_image ∈ images w)) as [|_]; [contradiction|].
  assert (stage_failedb (Result [] (exn_str (ImageNotFound python_image)) (-1)%Z)
            (Some sampler_output_file) (state_of (stage1 w)) = true) as Hfail.
  { apply stage_failedb_spec. right. rewrite Hfs.
    apply clean_workspace_artifacts. }
  rewrite (staged_stage1_failed _ _ _ Ho Hfail).
  cbn [outcome_of state_of calls_of fst snd].
  split; [reflexivity|]. split; [apply stage1_calls|exact Hfs].
Qed.

(** X16: an output file that an earlier request left does not let the
    first stage pass: it is removed before the stage, so a first script
    that exits without changing the files of the host is answered with
    the error of the first stage, whatever the workspace held. *)
Theorem stale_output_does_not_pass question q w out err st :
  decode_utf8 question = Some q ->
  faults w = [] ->
  python_image ∈ images w ->
  sandbox_exec (sandbox_request sampler_code) (files (clean_workspace w))
  = Exits out err st (files (clean_workspace w)) ->
  outcome_of (create_analysis question w)
  = Returned (error_response stage1_error)
  /\ files (state_of (create_analysis question w)) !! sampler_output_file
     = None.
Proof.
  intros Hq Hf Himg Hexec. rewrite (create_analysis_staged _ _ _ Hq).
  destruct (clean_workspace_keeps w) as (Hcf & Hci).
  assert (faults (clean_workspace w) = []) as Hf0 by congruence.
  destruct (run_served sampler_code _ Hf0) as (Ho & _ & _ & Hfs).
  fold (stage1 w) in Ho, Hfs. unfold served_outcome, served_files in Ho, Hfs.
  rewrite Hci, Hexec in Ho, Hfs.
  destruct (decide (python_image ∈ images w)) as [_|]; [|contradiction].
  assert (exists r1, outcome_of (stage1 w) = Returned r1) as [r1 Ho1]
    by (destruct (decode_utf8 out); [destruct (decode_utf8 err)|]; eauto).
  assert (stage_failedb r1 (Some sampler_output_file) (state_of (stage1 w))
          = true) as Hfail.
  { apply stage_failedb_spec. right. rewrite Hfs.
    apply clean_workspace_artifacts. }
  rewrite (staged_stage1_failed _ _ _ Ho1 Hfail).
  cbn [outcome_of state_of calls_of fst snd].
  split; [reflexivity|]. rewrite Hfs. apply clean_workspace_artifacts.
Qed.

(** X17: a response of the endpoint has status 200 and the parsed
    standard output of the third stage as its body, or status 500 and
    one of four fixed messages; nothing of a failed script, neither its
    output nor its exit code, is in a response. *)
Theorem responses_are_200_or_500 question w response :
  outcome_of (create_analysis question w) = Returned response ->
  (exists q r3 v,
     decode_utf8 question = Some q
     /\ outcome_of (stage3 q w) = Returned r3
     /\ stderr r3 = []
     /\ json_loads (stdout r3) = inl v
     /\ json_render v = None
     /\ response = Response 200 v)
  \/ (exists msg,
        In msg [stage1_error; stage2_error; stage3_error; parse_error]
        /\ response = Response 500 (JObject [(py "error", JString msg)])).
Proof.
  destruct (decode_utf8 question) as [q|] eqn:Hq.
  2: { rewrite (create_analysis_undecodable _ _ Hq). discriminate. }
  rewrite (create_analysis_staged _ _ _ Hq), staged_outcome.
  destruct (outcome_of (stage1 w)) as [r1|e1|]; [|discriminate|discriminate].
  destruct (stage_failedb r1 _ _).
  { intros [= <-]. right. exists stage1_error. cbn [In]. auto. }
  destruct (outcome_of (stage2 w)) as [r2|e2|]; [|discriminate|discriminate].
  destruct (stage_failedb r2 _ _).
  { intros [= <-]. right. exists stage2_error. cbn [In]. auto. }
  destruct (outcome_of (stage3 q w)) as [r3|e3|] eqn:H3;
    [|discriminate|discriminate].
  destruct (truthy (stderr r3)) eqn:Ht.
  { intros [= <-]. right. exists stage3_error. cbn [In]. auto. }
  destruct (answered_cases (stdout r3))
    as [(v & Hv & Hr & ->)|[(e & t & _ & ->)|(e & t & _ & _ & ->)]];
    cbn [fst].
  - intros [= <-]. left. exists q, r3, v. repeat split; auto.
    destruct (stderr r3); [reflexivity|discriminate].
  - intros [= <-]. right. exists parse_error. cbn [In]. auto 6.
  - discriminate.
Qed.

(** X18: a request generates and runs its stages in order and each at
    most once: the prompts sent to the generator are the first [k] of
    the three prompts and the scripts handed to the runner the first
    [k] of the three stripped responses, for one [k] from 1 to 3;
    nothing is generated or run again after a failure. *)
Theorem stages_run_in_order_without_retry question q w :
  decode_utf8 question = Some q ->
  exists k,
    (1 <= k <= 3)%nat
    /\ prompted (calls_of (create_analysis question w))
       = firstn k [sampler_prompt; scraper_prompt; analysis_prompt q]
    /\ submitted (calls_of (create_analysis question w))
       = firstn k [sampler_code; scraper_code; analysis_code q].
Proof.
  intros Hq. rewrite (create_analysis_staged _ _ _ Hq).
  destruct (stage1_calls w) as (Hs1 & Hp1 & _).
  unfold staged. cbv zeta.
  destruct (outcome_of (stage1 w)) as [r1|e|];
    [destruct (stage_failedb r1 _ _)| |]; cbn [calls_of snd].
  2: { destruct (after_stage2_submissions q w) as [(Hs & Hp & _)|(Hs & Hp & _)];
       destruct (after_stage2 q w) as [[o2 w2] t2]; cbn [calls_of snd] in *;
       rewrite submitted_app, prompted_app, Hs1, Hp1, Hs, Hp;
       [exists 2%nat | exists 3%nat]; (split; [lia|]); split; reflexivity. }
  all: exists 1%nat; rewrite Hs1, Hp1; (split; [lia|]); split; reflexivity.
Qed.

(** X19: when the daemon serves every request and holds the image, a
    request that ends, with a response, leaves no container under the
    reserved name, whichever stage was its last. *)
Theorem request_leaves_no_container question q w :
  decode_utf8 question = Some q ->
  faults w = [] ->
  python_image ∈ images w ->
  outcome_of (create_analysis question w) <> Blocked ->
  containers (state_of (create_analysis question w)) !! container_name = None.
Proof.
  intros Hq Hf Himg. rewrite (create_analysis_staged _ _ _ Hq).
  assert (forall code w', faults w' = [] -> python_image ∈ images w' ->
            outcome_of (run_code_in_sandbox code w') <> Blocked ->
            containers (state_of (run_code_in_sandbox code w')) !! container_name
            = None) as Hrun.
  { intros code [imgs cs nid fs fl] Hf' Himg'.
    cbn [faults images] in *. subst fl. revert Himg'.
    apply (wp_intro (run_code_in_sandbox code) _
      (fun r : run ExecutionResult =>
         python_image ∈ imgs ->
         outcome_of r <> Blocked ->
         containers (state_of r) !! container_name = None)).
    wp_run; leaf; intros Himg' Hnb; try contradiction; try congruence;
      rewrite ?lookup_delete_eq; auto. }
  destruct (clean_workspace_keeps w) as (Hcf & Hci).
  assert (faults (clean_workspace w) = []) as Hf0 by congruence.
  destruct (run_keeps_serving sampler_code _ Hf0) as (Hf1 & Hi1).
  fold (stage1 w) in Hf1, Hi1. rewrite Hci in Hi1.
  destruct (run_keeps_serving scraper_code _ Hf1) as (Hf2 & Hi2).
  fold (stage2 w) in Hf2, Hi2. rewrite Hi1 in Hi2.
  pose proof (Hrun sampler_code (clean_workspace w) Hf0) as Hc1.
  pose proof (Hrun scraper_code (state_of (stage1 w)) Hf1) as Hc2.
  pose proof (Hrun (analysis_code q) (state_of (stage2 w)) Hf2) as Hc3.
  fold (stage1 w) in Hc1. fold (stage2 w) in Hc2. fold (stage3 q w) in Hc3.
  rewrite Hci in Hc1. rewrite Hi1 in Hc2. rewrite Hi2 in Hc3.
  specialize (Hc1 Himg). specialize (Hc2 Himg). specialize (Hc3 Himg).
  rewrite staged_outcome.
  unfold staged, after_stage2, after_stage3. cbv zeta.
  destruct (outcome_of (stage1 w)) as [r1|e|];
    [destruct (stage_failedb r1 _ _)| |]; cbn [state_of fst snd];
    intros Hnb; try (apply Hc1; discriminate); try congruence.
  destruct (outcome_of (stage2 w)) as [r2|e|];
    [destruct (stage_failedb r2 _ _)| |]; cbn [state_of fst snd];
    try (apply Hc2; discriminate); try congruence.
  destruct (outcome_of (stage3 q w)) as [r3|e|];
    [destruct (stage_failedb r3 None _); [|destruct (answered _)]| |];
    cbn [state_of fst snd];
    try (apply Hc3; discriminate); try congruence.
Qed.

(** X20: the endpoint itself removes no file but the two artifacts, and
    each of them only when it is there: every [os.remove] of a request
    is given one of the two paths, of a file that exists when the
    request starts. *)
Theorem only_existing_artifacts_are_removed question w path :
  In (CallOsRemove path) (calls_of (create_analysis question w)) ->
  (path = sampler_output_file \/ path = final_csv_file)
  /\ is_Some (files w !! path).
Proof.
  destruct (decode_utf8 question) as [q|] eqn:Hq.
  2: { rewrite (create_analysis_undecodable _ _ Hq). intros []. }
  rewrite (create_analysis_staged _ _ _ Hq).
  destruct (staged_calls_shape q w) as (rest & -> & Hrest).
  destruct (run_calls sampler_code (clean_workspace w)) as (_ & _ & Hrun & _).
  intros [Hin|Hin]%in_app_or.
  - unfold cleaning_calls in Hin. apply in_app_or in Hin as [Hin|Hin].
    + destruct (bool_decide _) eqn:Hb in Hin; [|destruct Hin].
      destruct Hin as [[= <-]|[]]. apply bool_decide_eq_true in Hb. auto.
    + destruct (bool_decide _) eqn:Hb in Hin; [|destruct Hin].
      destruct Hin as [[= <-]|[]]. apply bool_decide_eq_true in Hb.
      rewrite lookup_delete_ne in Hb by apply artifacts_distinct. auto.
  - exfalso.
    assert (In (CallOsRemove path)
              (List.filter is_os_remove
                 (calls_of (run_code_in_sandbox sampler_code (clean_workspace w))
                  ++ rest))) as Hf.
    { apply filter_In. split; [|reflexivity].
      destruct Hin as [Heq|[Heq|Hin]]; [discriminate|discriminate|exact Hin]. }
    rewrite List.filter_app, Hrun, Hrest in Hf. destruct Hf.
Qed.

(** X21: anything on the standard error of a script fails its stage:
    the runner returns the decoded text as it is, not stripped, so a
    first script that writes its file and exits 0 but leaves any text on
    its standard error, were it only a line break, is answered with the
    error of the first stage. *)
Theorem output_on_stderr_fails_the_stage question q w out err st fs' so se :
  decode_utf8 question = Some q ->
  faults w = [] ->
  python_image ∈ images w ->
  sandbox_exec (sandbox_request sampler_code) (files (clean_workspace w))
  = Exits out err st fs' ->
  decode_utf8 out = Some so ->
  decode_utf8 err = Some se ->
  se <> [] ->
  outcome_of (stage1 w) = Returned (Result so se (default 0%Z st))
  /\ outcome_of (create_analysis question w)
     = Returned (error_response stage1_error).
Proof.
  intros Hq Hf Himg Hexec Hout Herr Hse.
  rewrite (create_analysis_staged _ _ _ Hq).
  destruct (clean_workspace_keeps w) as (Hcf & Hci).
  assert (faults (clean_workspace w) = []) as Hf0 by congruence.
  destruct (run_served sampler_code _ Hf0) as (Ho & _).
  fold (stage1 w) in Ho. unfold served_outcome in Ho.
  rewrite Hci, Hexec, Hout, Herr in Ho.
  destruct (decide (python_image ∈ images w)) as [_|]; [|contradiction].
  split; [exact Ho|].
  assert (stage_failedb (Result so se (default 0%Z st))
            (Some sampler_output_file) (state_of (stage1 w)) = true) as Hfail
    by (apply stage_failedb_spec; left; exact Hse).
  now rewrite (staged_stage1_failed _ _ _ Ho Hfail).
Qed.

(** X22: a script that never exits blocks the whole request: nothing in
    the runner or in the endpoint bounds the wait, so a first script
    that hangs leaves the request without a response, with the later
    stages never generated. *)
Theorem hanging_stage_blocks_the_request question q w :
  decode_utf8 question = Some q ->
  faults w = [] ->
  python_image ∈ images w ->
  sandbox_exec (sandbox_request sampler_code) (files (clean_workspace w))
  = Hangs ->
  outcome_of (create_analysis question w) = Blocked
  /\ prompted (calls_of (create_analysis question w)) = [sampler_prompt].
Proof.
  intros Hq Hf Himg Hexec. rewrite (create_analysis_staged _ _ _ Hq).
  destruct (clean_workspace_keeps w) as (Hcf & Hci).
  assert (faults (clean_workspace w) = []) as Hf0 by congruence.
  destruct (run_served sampler_code _ Hf0) as (Ho & _).
  fold (stage1 w) in Ho. unfold served_outcome in Ho.
  rewrite Hci, Hexec in Ho.
  destruct (decide (python_image ∈ images w)) as [_|]; [|contradiction].
  unfold staged. cbv zeta. rewrite Ho. cbn [outcome_of calls_of fst snd].
  split; [reflexivity|]. apply stage1_calls.
Qed.
End MoreRequests.

(** ** The further properties, evaluated *)

Section MoreEvaluated.
Import Scenario.

Lemma used_has_the_image : python_image ∈ images Edge.used.
Proof. unfold Edge.used. cbn [images]. now apply elem_of_singleton_2. Qed.

Lemma ready_holds_the_image : python_image ∈ images ready.
Proof. unfold ready. cbn [images]. now apply elem_of_singleton_2. Qed.

Lemma without_image_has_none : python_image ∉ images without_image.
Proof. unfold without_image. cbn [images]. apply not_elem_of_empty. Qed.

(** The database container is still there after a run of the sandbox. *)
Lemma other_containers_are_untouched_witness :
  py "database" <> container_name
  /\ containers (state_of (run_code_in_sandbox (H := well_behaved)
                             (py "print(1)") Edge.shared)) !! py "database"
     = containers Edge.shared !! py "database".
Proof.
  assert (py "database" <> container_name) as Hne
    by (intros Heq; vm_compute in Heq; discriminate).
  split; [exact Hne|].
  exact (proj1 (other_containers_are_untouched (H := well_behaved)
                  (py "print(1)") Edge.shared (py "database") Hne)).
Defined.

Lemma hanging_script_blocks_witness :
  faults ready = []
  /\ python_image ∈ images ready
  /\ @sandbox_exec well_behaved (sandbox_request (py "loop")) (files ready)
     = Hangs
  /\ outcome_of (run_code_in_sandbox (H := well_behaved) (py "loop") ready)
     = Blocked.
Proof.
  split; [reflexivity|]. split; [exact ready_holds_the_image|].
  split; [reflexivity|].
  refine (proj1 (hanging_script_blocks (H := well_behaved) (py "loop") ready
                   _ ready_holds_the_image _)); reflexivity.
Defined.

Lemma undecodable_output_is_a_failure_witness :
  faults ready = []
  /\ python_image ∈ images ready
  /\ @sandbox_exec Edge.with_binary (sandbox_request (py "dump")) (files ready)
     = Exits [Byte.xff] (ascii_bytes "done") (Some 0%Z) ∅
  /\ decode_utf8 [Byte.xff] = None
  /\ outcome_of (run_code_in_sandbox (H := Edge.with_binary) (py "dump") ready)
     = Returned (Result [] (py "'utf-8' codec can't decode bytes") (-1)%Z).
Proof.
  split; [reflexivity|]. split; [exact ready_holds_the_image|].
  split; [reflexivity|]. split; [reflexivity|].
  refine (proj1 (undecodable_output_is_a_failure (H := Edge.with_binary)
                   (py "dump") ready [Byte.xff] (ascii_bytes "done") (Some 0%Z) ∅
                   _ ready_holds_the_image _ _)); reflexivity.
Defined.

Lemma missing_image_changes_nothing_witness :
  faults without_image = []
  /\ (python_image ∉ images without_image)
  /\ state_of (run_code_in_sandbox (H := well_behaved) (py "print(1)")
                 without_image)
     = without_image.
Proof.
  split; [reflexivity|]. split; [exact without_image_has_none|].
  exact (f_equal state_of
           (missing_image_changes_nothing (H := well_behaved) (py "print(1)")
              without_image eq_refl without_image_has_none)).
Defined.

Lemma served_run_leaves_no_container_witness :
  faults ready = []
  /\ python_image ∈ images ready
  /\ outcome_of (run_code_in_sandbox (H := well_behaved) (py "print(1)") ready)
     <> Blocked
  /\ containers (state_of (run_code_in_sandbox (H := well_behaved)
                             (py "print(1)") ready)) !! container_name
     = None.
Proof.
  assert (outcome_of (run_code_in_sandbox (H := well_behaved) (py "print(1)") ready)
          <> Blocked) as Hnb by (vm_compute; discriminate).
  split; [reflexivity|]. split; [exact ready_holds_the_image|].
  split; [exact Hnb|].
  exact (served_run_leaves_no_container (H := well_behaved) (py "print(1)")
           ready eq_refl ready_holds_the_image Hnb).
Defined.

Lemma calls_of_a_clean_run_witness :
  faults ready = []
  /\ python_image ∈ images ready
  /\ @sandbox_exec well_behaved (sandbox_request (py "print('hello')"))
       (files ready)
     = Exits (ascii_bytes "hello") [] (Some 0%Z) ∅
  /\ decode_utf8 (ascii_bytes "hello") = Some (py "hello")
  /\ decode_utf8 [] = Some []
  /\ length (calls_of (run_code_in_sandbox (H := well_behaved)
                         (py "print('hello')") ready)) = 12%nat.
Proof.
  split; [reflexivity|]. split; [exact ready_holds_the_image|].
  split; [reflexivity|]. split; [reflexivity|]. split; [reflexivity|].
  rewrite (calls_of_a_clean_run (H := well_behaved) (py "print('hello')") ready
             (ascii_bytes "hello") [] (Some 0%Z) ∅ (py "hello") []
             eq_refl ready_holds_the_image eq_refl eq_refl eq_refl).
  reflexivity.
Defined.

Lemma minus_one_marks_a_runner_failure_witness :
  next_fault (faults without_image) = None
  /\ outcome_of (run_code_in_sandbox (H := well_behaved) (py "print(1)")
                   without_image)
     = Returned (Result [] (py "No such image: data-analyst-image") (-1)%Z)
  /\ (caught (calls_of (run_code_in_sandbox (H := well_behaved) (py "print(1)")
                          without_image)) <> [] ->
      exit_code (Result [] (py "No such image: data-analyst-image") (-1)%Z)
      = (-1)%Z
      /\ stdout (Result [] (py "No such image: data-analyst-image") (-1)%Z)
         = []).
Proof.
  split; [reflexivity|]. split; [reflexivity|].
  refine (proj1 (minus_one_marks_a_runner_failure (H := well_behaved)
                   (py "print(1)") without_image _ _ _)); reflexivity.
Defined.

Lemma only_the_connection_failure_escapes_witness :
  outcome_of (run_code_in_sandbox (H := well_behaved) (py "print(1)") daemon_down)
  = Raised (DockerException (py "Error while fetching server API version"))
  /\ exists msg,
       next_fault (faults daemon_down) = Some msg
       /\ DockerException (py "Error while fetching server API version")
          = DockerException msg
       /\ calls_of (run_code_in_sandbox (H := well_behaved) (py "print(1)")
                      daemon_down)
          = [CallSandbox (py "print(1)"); CallFromEnv].
Proof.
  split; [reflexivity|].
  refine (only_the_connection_failure_escapes (H := well_behaved)
            (py "print(1)") daemon_down _ _). reflexivity.
Defined.

Lemma response_without_fence_is_only_stripped_witness :
  contains (py "```") (nl ++ py "print(1)" ++ nl) = false
  /\ strip_fences (nl ++ py "print(1)" ++ nl) = py "print(1)".
Proof.
  split; [reflexivity|].
  rewrite (proj1 (response_without_fence_is_only_stripped
                    (nl ++ py "print(1)" ++ nl) eq_refl)).
  reflexivity.
Defined.

Lemma unreachable_daemon_fails_the_request_witness :
  decode_utf8 question = Some asked
  /\ next_fault (faults daemon_down)
     = Some (py "Error while fetching server API version")
  /\ outcome_of (create_analysis (H := well_behaved) question daemon_down)
     = Raised (DockerException (py "Error while fetching server API version")).
Proof.
  split; [vm_compute; reflexivity|]. split; [reflexivity|].
  rewrite (unreachable_daemon_fails_the_request (H := well_behaved) question
             asked daemon_down (py "Error while fetching server API version")
             ltac:(vm_compute; reflexivity) eq_refl).
  reflexivity.
Defined.

Lemma missing_image_fails_the_first_stage_witness :
  decode_utf8 question = Some asked
  /\ faults without_image = []
  /\ (python_image ∉ images without_image)
  /\ outcome_of (create_analysis (H := well_behaved) question without_image)
     = Returned (Response 500
         (JObject [(py "error",
                    JString (py "Stage 1 (sampler) failed to create the output file."))])).
Proof.
  split; [vm_compute; reflexivity|]. split; [reflexivity|].
  split; [exact without_image_has_none|].
  exact (proj1 (missing_image_fails_the_first_stage (H := well_behaved)
                  question asked without_image
                  ltac:(vm_compute; reflexivity) eq_refl
                  without_image_has_none)).
Defined.

Lemma stale_output_does_not_pass_witness :
  decode_utf8 question = Some asked
  /\ faults Edge.used = []
  /\ python_image ∈ images Edge.used
  /\ is_Some (files Edge.used !! sampler_output_file (H := Edge.with_idle))
  /\ @sandbox_exec Edge.with_idle
       (sandbox_request (sampler_code (H := Edge.with_idle)))
       (files (clean_workspace (H := Edge.with_idle) Edge.used))
     = Exits (ascii_bytes "hello") [] (Some 0%Z)
         (files (clean_workspace (H := Edge.with_idle) Edge.used))
  /\ outcome_of (create_analysis (H := Edge.with_idle) question Edge.used)
     = Returned (error_response stage1_error).
Proof.
  split; [vm_compute; reflexivity|]. split; [reflexivity|].
  split; [exact used_has_the_image|].
  split; [vm_compute; eauto|].
  assert (@sandbox_exec Edge.with_idle
            (sandbox_request (sampler_code (H := Edge.with_idle)))
            (files (clean_workspace (H := Edge.with_idle) Edge.used))
          = Exits (ascii_bytes "hello") [] (Some 0%Z)
              (files (clean_workspace (H := Edge.with_idle) Edge.used)))
    as Hexec by (vm_compute; reflexivity).
  split; [exact Hexec|].
  exact (proj1 (stale_output_does_not_pass (H := Edge.with_idle) question asked
                  Edge.used (ascii_bytes "hello") [] (Some 0%Z)
                  ltac:(vm_compute; reflexivity) eq_refl used_has_the_image
                  Hexec)).
Defined.

Lemma responses_are_200_or_500_witness :
  outcome_of (create_analysis (H := well_behaved) question ready)
  = Returned (Response 200 (JArray [JNumber (py "42")]))
  /\ ((exists q r3 v,
         decode_utf8 question = Some q
         /\ outcome_of (stage3 (H := well_behaved) q ready) = Returned r3
         /\ stderr r3 = []
         /\ json_loads (Collaborators := well_behaved) (stdout r3) = inl v
         /\ json_render (Collaborators := well_behaved) v = None
         /\ Response 200 (JArray [JNumber (py "42")]) = Response 200 v)
      \/ exists msg,
           In msg [stage1_error; stage2_error; stage3_error; parse_error]
           /\ Response 200 (JArray [JNumber (py "42")])
              = Response 500 (JObject [(py "error", JString msg)])).
Proof.
  split; [vm_compute; reflexivity|].
  refine (responses_are_200_or_500 (H := well_behaved) question ready _ _).
  vm_compute. reflexivity.
Defined.

Lemma stages_run_in_order_without_retry_witness :
  decode_utf8 question = Some asked
  /\ exists k,
       (1 <= k <= 3)%nat
       /\ prompted (calls_of (create_analysis (H := well_behaved) question ready))
          = firstn k [sampler_prompt; scraper_prompt; analysis_prompt asked]
       /\ submitted (calls_of (create_analysis (H := well_behaved) question ready))
          = firstn k [sampler_code (H := well_behaved);
                      scraper_code (H := well_behaved);
                      analysis_code (H := well_behaved) asked].
Proof.
  split; [vm_compute; reflexivity|].
  exact (stages_run_in_order_without_retry (H := well_behaved) question asked
           ready ltac:(vm_compute; reflexivity)).
Defined.

Lemma request_leaves_no_container_witness :
  decode_utf8 question = Some asked
  /\ faults ready = []
  /\ python_image ∈ images ready
  /\ outcome_of (create_analysis (H := well_behaved) question ready) <> Blocked
  /\ containers (state_of (create_analysis (H := well_behaved) question ready))
       !! container_name = None.
Proof.
  assert (outcome_of (create_analysis (H := well_behaved) question ready)
          <> Blocked) as Hnb by (vm_compute; discriminate).
  split; [vm_compute; reflexivity|]. split; [reflexivity|].
  split; [exact ready_holds_the_image|]. split; [exact Hnb|].
  exact (request_leaves_no_container (H := well_behaved) question asked ready
           ltac:(vm_compute; reflexivity) eq_refl ready_holds_the_image Hnb).
Defined.

Lemma only_existing_artifacts_are_removed_witness :
  In (CallOsRemove html_path)
    (calls_of (create_analysis (H := well_behaved) question Edge.used))
  /\ is_Some (files Edge.used !! html_path).
Proof.
  assert (In (CallOsRemove html_path)
            (calls_of (create_analysis (H := well_behaved) question Edge.used)))
    as Hin by (vm_compute; auto).
  split; [exact Hin|].
  exact (proj2 (only_existing_artifacts_are_removed (H := well_behaved)
                  question Edge.used html_path Hin)).
Defined.

Lemma output_on_stderr_fails_the_stage_witness :
  decode_utf8 question = Some asked
  /\ faults ready = []
  /\ python_image ∈ images ready
  /\ @sandbox_exec with_warning
       (sandbox_request (sampler_code (H := with_warning)))
       (files (clean_workspace (H := with_warning) ready))
     = Exits [] (ascii_bytes "DeprecationWarning") (Some 0%Z)
         (<[html_path := table_html]> ∅)
  /\ decode_utf8 (ascii_bytes "DeprecationWarning")
     = Some (py "DeprecationWarning")
  /\ py "DeprecationWarning" <> []
  /\ outcome_of (create_analysis (H := with_warning) question ready)
     = Returned (error_response stage1_error).
Proof.
  assert (@sandbox_exec with_warning
            (sandbox_request (sampler_code (H := with_warning)))
            (files (clean_workspace (H := with_warning) ready))
          = Exits [] (ascii_bytes "DeprecationWarning") (Some 0%Z)
              (<[html_path := table_html]> ∅)) as Hexec
    by (vm_compute; reflexivity).
  assert (py "DeprecationWarning" <> []) as Hne by discriminate.
  split; [vm_compute; reflexivity|]. split; [reflexivity|].
  split; [exact ready_holds_the_image|]. split; [exact Hexec|].
  split; [vm_compute; reflexivity|]. split; [exact Hne|].
  exact (proj2 (output_on_stderr_fails_the_stage (H := with_warning) question
                  asked ready [] (ascii_bytes "DeprecationWarning") (Some 0%Z)
                  (<[html_path := table_html]> ∅) [] (py "DeprecationWarning")
                  ltac:(vm_compute; reflexivity) eq_refl ready_holds_the_image
                  Hexec eq_refl ltac:(vm_compute; reflexivity) Hne)).
Defined.

Lemma hanging_stage_blocks_the_request_witness :
  decode_utf8 question = Some asked
  /\ faults ready = []
  /\ python_image ∈ images ready
  /\ @sandbox_exec Edge.with_loop
       (sandbox_request (sampler_code (H := Edge.with_loop)))
       (files (clean_workspace (H := Edge.with_loop) ready))
     = Hangs
  /\ outcome_of (create_analysis (H := Edge.with_loop) question ready) = Blocked.
Proof.
  assert (@sandbox_exec Edge.with_loop
            (sandbox_request (sampler_code (H := Edge.with_loop)))
            (files (clean_workspace (H := Edge.with_loop) ready))
          = Hangs) as Hexec by (vm_compute; reflexivity).
  split; [vm_compute; reflexivity|]. split; [reflexivity|].
  split; [exact ready_holds_the_image|]. split; [exact Hexec|].
  exact (proj1 (hanging_stage_blocks_the_request (H := Edge.with_loop) question
                  asked ready ltac:(vm_compute; reflexivity) eq_refl
                  ready_holds_the_image Hexec)).
Defined.
End MoreEvaluated.
